(** * Wikidata MCP server: SPARQL sanitizer, prefix injector, validator,
      executor and tool facade

    A shallow embedding of [src/wikidata_api.py] and [src/server_sse.py].

    Modelling conventions.
    - Python [str] values are Rocq [string]s.  The model is faithful on ASCII
      text: characters above 127 are treated as uncased, non-blank and not
      line boundaries, which is what Python does for ASCII only.
    - Library functions ([str.strip], [str.splitlines], [re.search],
      [json.dumps], ...) are modelled by executable definitions that follow
      the documented behaviour of the CPython implementation.
    - The remote services are oracles passed as arguments. *)

From Stdlib Require Import String Ascii List Bool Arith Lia ZArith NArith DecimalString.
From Stdlib Require Decimal DecimalZ DecimalFacts.
Import ListNotations.
Local Open Scope list_scope.
Local Open Scope string_scope.

Set Implicit Arguments.

(* ================================================================== *)
(** ** Python string primitives *)
(* ================================================================== *)

Module Py.

(** Named control characters. *)
Definition TAB : ascii := "009"%char.
Definition LF  : ascii := "010"%char.
Definition VT  : ascii := "011"%char.
Definition FF  : ascii := "012"%char.
Definition CR  : ascii := "013"%char.
Definition FS  : ascii := "028"%char.
Definition GS  : ascii := "029"%char.
Definition RS  : ascii := "030"%char.
Definition US  : ascii := "031"%char.
Definition SP  : ascii := " "%char.

Definition nl : string := String LF "".
Definition tab : string := String TAB "".

Definition char_in (c : ascii) (l : list ascii) : bool :=
  existsb (Ascii.eqb c) l.

(** [str.isspace] on one ASCII character. *)
Definition isspace (c : ascii) : bool :=
  char_in c [TAB; LF; VT; FF; CR; FS; GS; RS; US; SP].

(** Line boundaries recognised by [str.splitlines] (ASCII range);
    [CR LF] counts as one boundary. *)
Definition is_linebreak (c : ascii) : bool :=
  char_in c [LF; CR; VT; FF; FS; GS; RS].

Definition is_lower (c : ascii) : bool :=
  let n := nat_of_ascii c in ((97 <=? n) && (n <=? 122))%nat.

Definition is_upper (c : ascii) : bool :=
  let n := nat_of_ascii c in ((65 <=? n) && (n <=? 90))%nat.

Definition is_digit (c : ascii) : bool :=
  let n := nat_of_ascii c in ((48 <=? n) && (n <=? 57))%nat.

Definition is_alpha (c : ascii) : bool := is_lower c || is_upper c.

Definition upper_char (c : ascii) : ascii :=
  if is_lower c then ascii_of_nat (nat_of_ascii c - 32) else c.

Definition lower_char (c : ascii) : ascii :=
  if is_upper c then ascii_of_nat (nat_of_ascii c + 32) else c.

Fixpoint smap (f : ascii -> ascii) (s : string) : string :=
  match s with
  | "" => ""
  | String c s' => String (f c) (smap f s')
  end.

(** [s.upper()] and [s.lower()]. *)
Definition upper : string -> string := smap upper_char.
Definition lower : string -> string := smap lower_char.

(** [s.lstrip()], [s.rstrip()], [s.strip()]. *)
Fixpoint lstrip (s : string) : string :=
  match s with
  | "" => ""
  | String c s' => if isspace c then lstrip s' else s
  end.

Fixpoint rstrip (s : string) : string :=
  match s with
  | "" => ""
  | String c s' =>
      match rstrip s' with
      | "" => if isspace c then "" else String c ""
      | r => String c r
      end
  end.

Definition strip (s : string) : string := rstrip (lstrip s).

(** [s.startswith(p)]. *)
Fixpoint startswith (p s : string) : bool :=
  match p, s with
  | "", _ => true
  | String a p', String b s' => Ascii.eqb a b && startswith p' s'
  | String _ _, "" => false
  end.

(** [s.endswith(p)]. *)
Fixpoint endswith (p s : string) : bool :=
  (s =? p) ||
  match s with
  | "" => false
  | String _ s' => endswith p s'
  end.

(** [sub in s]. *)
Fixpoint contains (sub s : string) : bool :=
  startswith sub s ||
  match s with
  | "" => false
  | String _ s' => contains sub s'
  end.

(** [s.count(c)] for a one-character needle. *)
Fixpoint count_char (c : ascii) (s : string) : nat :=
  match s with
  | "" => 0
  | String a s' => (if Ascii.eqb a c then 1 else 0) + count_char c s'
  end.

(** [s.split(sep, 1)] for a one-character separator. *)
Fixpoint split1 (sep : ascii) (s : string) : list string :=
  match s with
  | "" => [""]
  | String c s' =>
      if Ascii.eqb c sep then [""; s']
      else match split1 sep s' with
           | w :: rest => String c w :: rest
           | [] => [String c ""]
           end
  end.

(** [s.split(sep)] for a one-character separator. *)
Fixpoint split (sep : ascii) (s : string) : list string :=
  match s with
  | "" => [""]
  | String c s' =>
      if Ascii.eqb c sep then "" :: split sep s'
      else match split sep s' with
           | w :: rest => String c w :: rest
           | [] => [String c ""]
           end
  end.

(** [s.splitlines()].  The flag records that the previous character was a
    carriage return, so that a following line feed belongs to the same
    boundary. *)
Fixpoint splitlines_from (after_cr : bool) (s : string) : list string :=
  match s with
  | "" => []
  | String c s' =>
      if after_cr && Ascii.eqb c LF then splitlines_from false s'
      else if is_linebreak c then "" :: splitlines_from (Ascii.eqb c CR) s'
      else match splitlines_from false s' with
           | l :: rest => String c l :: rest
           | [] => [String c ""]
           end
  end.

Definition splitlines (s : string) : list string := splitlines_from false s.

(** [sep.join(ls)]. *)
Definition join (sep : string) (ls : list string) : string :=
  String.concat sep ls.

(** [x in l] for a list of strings. *)
Definition in_list (x : string) (l : list string) : bool :=
  existsb (String.eqb x) l.

(** Python truthiness of a string. *)
Definition truthy (s : string) : bool := negb (s =? "").

(** The characters of a string, in order. *)
Fixpoint chars (s : string) : list ascii :=
  match s with
  | "" => []
  | String c s' => c :: chars s'
  end.

(** A text made of blanks only. *)
Definition all_space (s : string) : Prop :=
  Forall (fun c => isspace c = true) (chars s).

(** [s.split(sep, 1)[0]]. *)
Definition first_word (sep : ascii) (s : string) : string :=
  nth 0 (split1 sep s) "".

End Py.

(* ================================================================== *)
(** ** Query sanitizer and prefix injector ([execute_sparql], lines 186-249) *)
(* ================================================================== *)

Module Sanitizer.
Import Py.

Definition allowed_keywords : list string :=
  [ "PREFIX"; "SELECT"; "ASK"; "CONSTRUCT"; "DESCRIBE"; "INSERT";
    "FILTER"; "BIND"; "VALUES"; "OPTIONAL"; "UNION"; "GRAPH";
    "SERVICE"; "MINUS"; "WHERE"; "GROUP"; "HAVING"; "ORDER";
    "LIMIT"; "OFFSET"; "DATA" ].

Definition structural_chars : list string := ["{"; "}"; ";"; ","].

(** One iteration of the line loop: the new value of
    [filtered_query_lines]. *)
Definition sanitize_step (filtered_query_lines : list string)
    (line_content : string) : list string :=
  let stripped_line := strip line_content in
  if (stripped_line =? "") || startswith "#" stripped_line then
    filtered_query_lines
  else
    let first_word_upper := first_word SP (upper stripped_line) in
    let is_likely_triple_pattern :=
      (contains "wd:" stripped_line || contains "wdt:" stripped_line
       || contains "rdf:" stripped_line || contains ":" stripped_line
       || contains "?" stripped_line)
      && endswith "." stripped_line in
    if in_list first_word_upper allowed_keywords then
      (filtered_query_lines ++ [line_content])%list
    else if existsb (fun c => contains c stripped_line) structural_chars then
      (filtered_query_lines ++ [line_content])%list
    else if is_likely_triple_pattern then
      (filtered_query_lines ++ [line_content])%list
    else filtered_query_lines.

Definition filtered_query_lines (sparql_query : string) : list string :=
  fold_left sanitize_step (splitlines sparql_query) [].

Definition processed_query (sparql_query : string) : string :=
  join nl (filtered_query_lines sparql_query).

(** The triple-quoted literal [prefixes], with its leading and trailing
    line break and its twelve columns of indentation. *)
Definition indent12 : string := "            ".

Definition prefixes : string :=
  nl ++ indent12 ++ "PREFIX wd: <http://www.wikidata.org/entity/>" ++
  nl ++ indent12 ++ "PREFIX wdt: <http://www.wikidata.org/prop/direct/>" ++
  nl ++ indent12 ++ "PREFIX p: <http://www.wikidata.org/prop/>" ++
  nl ++ indent12 ++ "PREFIX ps: <http://www.wikidata.org/prop/statement/>" ++
  nl ++ indent12 ++ "PREFIX wikibase: <http://wikiba.se/ontology#>" ++
  nl ++ indent12 ++ "PREFIX bd: <http://www.bigdata.com/rdf#>" ++
  nl ++ indent12.

Definition starts_with_prefix_kw (line : string) : bool :=
  startswith "PREFIX" (upper (strip line)).

(** [any(not line.strip().upper().startswith("PREFIX")
         for line in filtered_query_lines if line.strip())]. *)
Definition has_non_prefix_lines (lines : list string) : bool :=
  existsb (fun line => negb (starts_with_prefix_kw line))
          (filter (fun line => truthy (strip line)) lines).

(** [any(line.strip().upper().startswith("PREFIX") for line in
         filtered_query_lines if line.strip().upper().startswith("PREFIX"))]. *)
Definition has_prefix_line (lines : list string) : bool :=
  existsb starts_with_prefix_kw (filter starts_with_prefix_kw lines).

(** The prefix injector, on the list of retained lines. *)
Definition inject_prefixes (lines : list string) : string :=
  let processed := join nl lines in
  if truthy processed && has_non_prefix_lines lines
     && negb (has_prefix_line lines)
  then strip prefixes ++ nl ++ processed
  else processed.

(** The text handed to [sparql.setQuery]. *)
Definition full_query (sparql_query : string) : string :=
  inject_prefixes (filtered_query_lines sparql_query).

End Sanitizer.


(* ================================================================== *)
(** ** Sanitizer and prefix injector: the vocabulary of their
       specification *)
(* ================================================================== *)

Module SanitizerSpec.
Import Py Sanitizer.

(** [sub] occurs in [s]; [s] begins with [p]; [s] ends with [p]. *)
Definition Contains (sub s : string) : Prop :=
  exists pre post, s = pre ++ sub ++ post.
Definition StartsWith (p s : string) : Prop := exists r, s = p ++ r.
Definition EndsWith (p s : string) : Prop := exists r, s = r ++ p.

(** A blank line, or a comment line. *)
Definition skipped (line : string) : Prop :=
  strip line = "" \/ StartsWith "#" (strip line).

(** Rule (a) in the words of the specification: the first
    whitespace-delimited token, uppercased, is a keyword. *)
Definition keyword_token_ws (line : string) : Prop :=
  exists w rest,
    strip line = w ++ rest /\
    (forall c, In c (chars w) -> isspace c = false) /\
    (rest = "" \/ exists c r, rest = String c r /\ isspace c = true) /\
    In (upper w) allowed_keywords.

(** Rule (a) as the code decides it: the token ends at the first space
    character, other blanks do not end it. *)
Definition keyword_token (line : string) : Prop :=
  exists w rest,
    strip line = w ++ rest /\
    ~ In SP (chars w) /\
    (rest = "" \/ exists r, rest = String SP r) /\
    In (upper w) allowed_keywords.

(** Rule (b): a structural character occurs in the line. *)
Definition has_structural_char (line : string) : Prop :=
  exists c, In c structural_chars /\ Contains c line.

(** Rule (c): a namespace marker or a variable mark occurs in the line and
    its stripped form ends with a period. *)
Definition looks_like_triple (line : string) : Prop :=
  (Contains "wd:" line \/ Contains "wdt:" line \/ Contains "rdf:" line \/
   Contains ":" line \/ Contains "?" line) /\
  EndsWith "." (strip line).

Definition retained_as_claimed (line : string) : Prop :=
  ~ skipped line /\
  (keyword_token_ws line \/ has_structural_char line \/ looks_like_triple line).

Definition retained (line : string) : Prop :=
  ~ skipped line /\
  (keyword_token line \/ has_structural_char line \/ looks_like_triple line).

(** Whether one pass of the loop body appends the line. *)
Definition keep_line (line_content : string) : bool :=
  match sanitize_step [] line_content with
  | [] => false
  | _ :: _ => true
  end.

(** The sanitizer as a function from text to text. *)
Definition sanitize (sparql_query : string) : string :=
  processed_query sparql_query.

(** A line that begins, after its indentation and in any letter case, with
    the word PREFIX. *)
Definition prefix_declaration (line : string) : Prop :=
  exists p r, strip line = p ++ r /\ upper p = "PREFIX".

(** The standard prefix block as it is prepended: six declarations, the
    last five indented as in the source. *)
Definition standard_prefix_block : string :=
  "PREFIX wd: <http://www.wikidata.org/entity/>" ++ nl ++
  indent12 ++ "PREFIX wdt: <http://www.wikidata.org/prop/direct/>" ++ nl ++
  indent12 ++ "PREFIX p: <http://www.wikidata.org/prop/>" ++ nl ++
  indent12 ++ "PREFIX ps: <http://www.wikidata.org/prop/statement/>" ++ nl ++
  indent12 ++ "PREFIX wikibase: <http://wikiba.se/ontology#>" ++ nl ++
  indent12 ++ "PREFIX bd: <http://www.bigdata.com/rdf#>".

(** The number of lines of a text that are PREFIX declarations. *)
Definition count_prefix_lines (text : string) : nat :=
  List.length (filter starts_with_prefix_kw (splitlines text)).

(** The condition under which the block is prepended, in the words of the
    specification. *)
Definition injection_due (lines : list string) : Prop :=
  join nl lines <> "" /\
  (exists l, In l lines /\ ~ prefix_declaration l) /\
  (forall l, In l lines -> ~ prefix_declaration l).

Definition no_linebreak (s : string) : Prop :=
  Forall (fun c => is_linebreak c = false) (chars s).

(** The lines of the standard block. *)
Definition prefix_block_lines : list string :=
  [ "PREFIX wd: <http://www.wikidata.org/entity/>";
    indent12 ++ "PREFIX wdt: <http://www.wikidata.org/prop/direct/>";
    indent12 ++ "PREFIX p: <http://www.wikidata.org/prop/>";
    indent12 ++ "PREFIX ps: <http://www.wikidata.org/prop/statement/>";
    indent12 ++ "PREFIX wikibase: <http://wikiba.se/ontology#>";
    indent12 ++ "PREFIX bd: <http://www.bigdata.com/rdf#>" ].

End SanitizerSpec.

(* ================================================================== *)
(** ** JSON values, [json.dumps] and [json.loads] *)
(* ================================================================== *)

Module Json.
Import Py.

(** Python values that the program serialises: [None], [bool], [int],
    [str], [list] and [dict] with string keys (insertion ordered).
    Floating-point numbers are outside the model. *)
Unset Elimination Schemes.
Inductive json : Type :=
| JNull
| JBool (b : bool)
| JInt (z : Z)
| JStr (s : string)
| JArr (items : list json)
| JObj (members : list (string * json)).
Set Elimination Schemes.

(** *** Dictionaries *)

(** [k in d] and [d.get(k)]. *)
Fixpoint assoc (k : string) (d : list (string * json)) : option json :=
  match d with
  | [] => None
  | (k', v) :: d' => if k' =? k then Some v else assoc k d'
  end.

(** [d[k] = v]: an existing key keeps its position. *)
Fixpoint dict_set (k : string) (v : json) (d : list (string * json))
  : list (string * json) :=
  match d with
  | [] => [(k, v)]
  | (k', v') :: d' =>
      if k' =? k then (k, v) :: d' else (k', v') :: dict_set k v d'
  end.

(** The dictionary built from a sequence of key/value pairs, as
    [dict(pairs)] does: a repeated key keeps the last value. *)
Definition dict_of_pairs (pairs : list (string * json))
  : list (string * json) :=
  fold_left (fun d kv => dict_set (fst kv) (snd kv) d) pairs [].

Definition is_dict (v : json) : bool :=
  match v with JObj _ => true | _ => false end.

(** [isinstance(v, dict) and k in v]. *)
Definition has_key (k : string) (v : json) : bool :=
  match v with
  | JObj d => match assoc k d with Some _ => true | None => false end
  | _ => false
  end.

(** [v.get(k)] on a dictionary. *)
Definition get (k : string) (v : json) : option json :=
  match v with JObj d => assoc k d | _ => None end.

(** *** Serialisation: [json.dumps] with its default arguments
    ([ensure_ascii=True], separators [", "] and [": "]). *)

Definition hex_digit (n : nat) : ascii :=
  if (n <? 10)%nat then ascii_of_nat (48 + n) else ascii_of_nat (87 + n).

(** ['\\u{0:04x}'.format(n)] for a character code below 256. *)
Definition u_escape (c : ascii) : string :=
  let n := nat_of_ascii c in
  String "\" (String "u" (String "0" (String "0"
    (String (hex_digit (n / 16)) (String (hex_digit (n mod 16)) ""))))).

Definition BS : ascii := "008"%char.
Definition DQ : ascii := "034"%char.
Definition BSL : ascii := "\"%char.

(** One character of [py_encode_basestring_ascii]. *)
Definition escape_char (c : ascii) : string :=
  if Ascii.eqb c DQ then String BSL (String DQ "")
  else if Ascii.eqb c BSL then String BSL (String BSL "")
  else if Ascii.eqb c LF then String BSL "n"
  else if Ascii.eqb c CR then String BSL "r"
  else if Ascii.eqb c TAB then String BSL "t"
  else if Ascii.eqb c BS then String BSL "b"
  else if Ascii.eqb c FF then String BSL "f"
  else if ((32 <=? nat_of_ascii c) && (nat_of_ascii c <=? 126))%nat
       then String c ""
  else u_escape c.

Fixpoint escape_body (s : string) : string :=
  match s with
  | "" => ""
  | String c s' => escape_char c ++ escape_body s'
  end.

Definition encode_string (s : string) : string :=
  String DQ (escape_body s ++ String DQ "").

(** [str(z)] for an integer. *)
Definition str_of_Z (z : Z) : string :=
  DecimalString.NilZero.string_of_int (Z.to_int z).

Definition str_of_nat (n : nat) : string := str_of_Z (Z.of_nat n).

(** [json.dumps(v)]; [JArr] and [JObj] print their first element, then the
    others each behind a comma, then the closing bracket. *)
Fixpoint dumps (v : json) : string :=
  match v with
  | JNull => "null"
  | JBool true => "true"
  | JBool false => "false"
  | JInt z => str_of_Z z
  | JStr s => encode_string s
  | JArr [] => "[]"
  | JArr (x :: xs) =>
      "[" ++ dumps x ++
      (fix more (l : list json) : string :=
         match l with
         | [] => "]"
         | y :: ys => ", " ++ dumps y ++ more ys
         end) xs
  | JObj [] => "{}"
  | JObj ((k, x) :: xs) =>
      "{" ++ encode_string k ++ ": " ++ dumps x ++
      (fix more (l : list (string * json)) : string :=
         match l with
         | [] => "}"
         | (k', y) :: ys => ", " ++ encode_string k' ++ ": " ++ dumps y ++ more ys
         end) xs
  end.

(** *** Parsing: [json.loads] (the scanner of [json.decoder]) *)

Definition is_json_ws (c : ascii) : bool := char_in c [SP; TAB; LF; CR].

Fixpoint skip_ws (s : string) : string :=
  match s with
  | "" => ""
  | String c s' => if is_json_ws c then skip_ws s' else s
  end.

Definition hex_value (c : ascii) : option nat :=
  let n := nat_of_ascii c in
  if is_digit c then Some (n - 48)
  else if ((97 <=? n) && (n <=? 102))%nat then Some (n - 87)
  else if ((65 <=? n) && (n <=? 70))%nat then Some (n - 55)
  else None.

Definition unescape (c : ascii) : option ascii :=
  if Ascii.eqb c DQ then Some DQ
  else if Ascii.eqb c BSL then Some BSL
  else if Ascii.eqb c "/"%char then Some "/"%char
  else if Ascii.eqb c "b"%char then Some BS
  else if Ascii.eqb c "f"%char then Some FF
  else if Ascii.eqb c "n"%char then Some LF
  else if Ascii.eqb c "r"%char then Some CR
  else if Ascii.eqb c "t"%char then Some TAB
  else None.

Definition cons_to (c : ascii) (r : option (string * string))
  : option (string * string) :=
  match r with
  | Some (x, rest) => Some (String c x, rest)
  | None => None
  end.

(** The body of a string literal, after its opening quote; returns the
    decoded text and the input after the closing quote.  Escapes for code
    points above 255 are outside the model and rejected. *)
Fixpoint scan_string (s : string) : option (string * string) :=
  match s with
  | "" => None
  | String c s' =>
      if Ascii.eqb c DQ then Some ("", s')
      else if Ascii.eqb c BSL then
        match s' with
        | "" => None
        | String e s'' =>
            if Ascii.eqb e "u"%char then
              match s'' with
              | String h1 (String h2 (String h3 (String h4 r))) =>
                  match hex_value h1, hex_value h2, hex_value h3, hex_value h4 with
                  | Some 0, Some 0, Some a, Some b =>
                      cons_to (ascii_of_nat (16 * a + b)) (scan_string r)
                  | _, _, _, _ => None
                  end
              | _ => None
              end
            else
              match unescape e with
              | Some ch => cons_to ch (scan_string s'')
              | None => None
              end
        end
      else if (nat_of_ascii c <? 32)%nat then None
      else cons_to c (scan_string s')
  end.

(** The longest prefix of decimal digits and what follows it. *)
Fixpoint take_digits (s : string) : string * string :=
  match s with
  | "" => ("", "")
  | String c s' =>
      if is_digit c then
        let (d, r) := take_digits s' in (String c d, r)
      else ("", s)
  end.

(** The text goes on with a fraction or an exponent. *)
Definition starts_fraction (s : string) : bool :=
  match s with
  | "" => false
  | String c _ => char_in c ["."; "e"; "E"]%char
  end.

(** An integer literal: an optional minus sign, then either a single zero
    or a non-zero digit followed by digits.  A literal continuing with a
    fraction or an exponent denotes a float and is rejected. *)
Definition scan_number (s : string) : option (json * string) :=
  let (neg, s1) :=
    match s with
    | "" => (false, s)
    | String c s' => if Ascii.eqb c "-" then (true, s') else (false, s)
    end in
  let (digits, rest) := take_digits s1 in
  match digits with
  | "" => None
  | String d ds =>
      let (int_part, rest') :=
        if Ascii.eqb d "0" then ("0", ds ++ rest) else (digits, rest) in
      if starts_fraction rest' then None
      else
        match DecimalString.NilZero.uint_of_string int_part with
        | Some u =>
            let n := Z.of_uint u in
            Some (JInt (if neg then Z.opp n else n), rest')
        | None => None
        end
  end.

(** The text after the prefix [p], when [s] starts with it. *)
Fixpoint after_prefix (p s : string) : option string :=
  match p, s with
  | "", _ => Some s
  | String a p', String b s' =>
      if Ascii.eqb a b then after_prefix p' s' else None
  | String _ _, "" => None
  end.

Fixpoint scan_value (fuel : nat) (s : string) : option (json * string) :=
  match fuel with
  | O => None
  | S fuel' =>
      match s with
      | "" => None
      | String c s' =>
          if Ascii.eqb c DQ then
            match scan_string s' with
            | Some (x, r) => Some (JStr x, r)
            | None => None
            end
          else if Ascii.eqb c "{" then
            match skip_ws s' with
            | "" => None
            | String c1 r =>
                if Ascii.eqb c1 "}" then Some (JObj [], r)
                else
                  match scan_members fuel' (String c1 r) with
                  | Some (ms, r') => Some (JObj (dict_of_pairs ms), r')
                  | None => None
                  end
            end
          else if Ascii.eqb c "[" then
            match skip_ws s' with
            | "" => None
            | String c1 r =>
                if Ascii.eqb c1 "]" then Some (JArr [], r)
                else
                  match scan_elements fuel' (String c1 r) with
                  | Some (vs, r') => Some (JArr vs, r')
                  | None => None
                  end
            end
          else
            match after_prefix "null" s with
            | Some r => Some (JNull, r)
            | None =>
                match after_prefix "true" s with
                | Some r => Some (JBool true, r)
                | None =>
                    match after_prefix "false" s with
                    | Some r => Some (JBool false, r)
                    | None => scan_number s
                    end
                end
            end
      end
  end

with scan_elements (fuel : nat) (s : string)
  : option (list json * string) :=
  match fuel with
  | O => None
  | S fuel' =>
      match scan_value fuel' s with
      | None => None
      | Some (v, r) =>
          match skip_ws r with
          | "" => None
          | String c r' =>
              if Ascii.eqb c "," then
                match scan_elements fuel' (skip_ws r') with
                | Some (vs, r2) => Some (v :: vs, r2)
                | None => None
                end
              else if Ascii.eqb c "]" then Some ([v], r')
              else None
          end
      end
  end

with scan_members (fuel : nat) (s : string)
  : option (list (string * json) * string) :=
  match fuel with
  | O => None
  | S fuel' =>
      match s with
      | "" => None
      | String q s' =>
          if Ascii.eqb q DQ then
            match scan_string s' with
            | None => None
            | Some (k, r) =>
                match skip_ws r with
                | "" => None
                | String c r1 =>
                    if Ascii.eqb c ":" then
                      match scan_value fuel' (skip_ws r1) with
                      | None => None
                      | Some (v, r2) =>
                          match skip_ws r2 with
                          | "" => None
                          | String c2 r3 =>
                              if Ascii.eqb c2 "," then
                                match scan_members fuel' (skip_ws r3) with
                                | Some (ms, r4) => Some ((k, v) :: ms, r4)
                                | None => None
                                end
                              else if Ascii.eqb c2 "}" then Some ([(k, v)], r3)
                              else None
                          end
                      end
                    else None
                end
            end
          else None
      end
  end.

(** [json.loads(s)]: [None] stands for [JSONDecodeError]. *)
Definition loads (s : string) : option json :=
  match scan_value (2 * String.length s + 2) (skip_ws s) with
  | Some (v, r) => if skip_ws r =? "" then Some v else None
  | None => None
  end.

(** A string is valid JSON when [json.loads] accepts it. *)
Definition valid_json (s : string) : Prop := exists v, loads s = Some v.

End Json.

(* ================================================================== *)
(** ** JSON: the vocabulary of its specification *)
(* ================================================================== *)

Module JsonSpec.
Import Py Json.

(** The text [dumps] prints after the first element of an array or of an
    object. *)
Fixpoint dumps_items (l : list json) : string :=
  match l with
  | [] => "]"
  | y :: ys => ", " ++ dumps y ++ dumps_items ys
  end.

Fixpoint dumps_members (l : list (string * json)) : string :=
  match l with
  | [] => "}"
  | (k, y) :: ys => ", " ++ encode_string k ++ ": " ++ dumps y ++ dumps_members ys
  end.

(** The value read back from the text of [v]: the same value, with the
    members of every object collected into a dictionary (a repeated key
    keeps its last value). *)
Fixpoint norm (v : json) : json :=
  match v with
  | JArr l => JArr (map norm l)
  | JObj l =>
      JObj (dict_of_pairs (map (fun kv => (fst kv, norm (snd kv))) l))
  | _ => v
  end.

(** Fuel that is enough to read the text of [v] back. *)
Fixpoint jsize (v : json) : nat :=
  match v with
  | JArr l => S (list_sum (map (fun x => S (jsize x)) l))
  | JObj l => S (list_sum (map (fun kv => S (jsize (snd kv))) l))
  | _ => 1
  end.

(** What may follow a value in a JSON text: nothing, or a comma or a
    closing bracket. *)
Definition delimited (rest : string) : Prop :=
  match rest with
  | "" => True
  | String c _ => c = ","%char \/ c = "]"%char \/ c = "}"%char
  end.

(** A character that can start a value. *)
Definition value_start (c : ascii) : Prop :=
  is_json_ws c = false /\ c <> "]"%char /\ c <> "}"%char.

(** The text parses as a JSON object that has the key [error]. *)
Definition error_object (s : string) : Prop :=
  exists d e, loads s = Some (JObj d) /\ assoc "error" d = Some e.

(** The text after a number does not go on with a digit. *)
Definition not_digit_next (rest : string) : Prop :=
  match rest with
  | "" => True
  | String c _ => is_digit c = false
  end.

(** The statement proved by induction on the value: enough fuel reads the
    text of [v] back, whatever follows it. *)
Definition reads_back (v : json) : Prop :=
  forall fuel rest,
    (jsize v <= fuel)%nat -> delimited rest ->
    scan_value fuel (dumps v ++ rest) = Some (norm v, rest).

End JsonSpec.

(* ================================================================== *)
(** ** SPARQL executor ([execute_sparql], the retry loop) *)
(* ================================================================== *)

Module Executor.
Import Py Json Sanitizer.

(** The exception classes that the handlers of [execute_sparql] tell
    apart.  [OtherException name] is any other [Exception], with the name
    of its class. *)
Inductive ErrorKind : Type :=
| Timeout
| ConnectionError
| QueryBadFormed
| OtherException (class_name : string).

(** A raised exception: its class, [str(e)] and the text of
    [traceback.format_exc()]. *)
Record exception : Type := mkException {
  exc_kind : ErrorKind;
  exc_str : string;
  exc_traceback : string
}.

(** [type(e).__name__]. *)
Definition type_name (k : ErrorKind) : string :=
  match k with
  | Timeout => "Timeout"
  | ConnectionError => "ConnectionError"
  | QueryBadFormed => "QueryBadFormed"
  | OtherException n => n
  end.

(** Errors that are retried: everything but [QueryBadFormed]. *)
Definition retryable (k : ErrorKind) : bool :=
  match k with QueryBadFormed => false | _ => true end.

(** What one pass through the [try] body does: the converted results, or
    the exception it raised; and the time it took, in seconds. *)
Record response : Type := mkResponse {
  reply : json + exception;
  duration : N
}.

(** The remote endpoint: its answer to the [n]-th call (counted from 0)
    with the given query text. *)
Definition endpoint : Type := nat -> string -> response.

(** The observable effects of one call of [execute_sparql]. *)
Record world : Type := mkWorld {
  now : N;                      (* the clock, in seconds *)
  attempt_starts : list N;      (* the clock at the start of each attempt *)
  queries_sent : list string;   (* the text given to [setQuery] *)
  sleeps : list N;              (* the arguments of [time.sleep] *)
  printed : list json           (* the error details that were printed *)
}.

Definition initial_world : world := mkWorld 0 [] [] [] [].

(** A state monad over [world]. *)
Definition M (A : Type) : Type := world -> A * world.

Definition ret {A} (a : A) : M A := fun w => (a, w).

Definition bind {A B} (m : M A) (k : A -> M B) : M B :=
  fun w => let (a, w') := m w in k a w'.

Notation "x <- m ;; k" := (bind m (fun x => k))
  (at level 61, m at next level, right associativity).
Notation "m ;;; k" := (bind m (fun _ => k))
  (at level 61, right associativity).

(** The [try] body up to [sparql.query().convert()]. *)
Definition call_endpoint (ep : endpoint) (attempt : nat)
    (full_query : string) : M (json + exception) :=
  fun w =>
    let r := ep attempt full_query in
    (reply r,
     mkWorld (now w + duration r)
             (attempt_starts w ++ [now w])
             (queries_sent w ++ [full_query])
             (sleeps w) (printed w)).

(** [time.sleep(secs)]. *)
Definition sleep (secs : N) : M unit :=
  fun w =>
    (tt, mkWorld (now w + secs) (attempt_starts w) (queries_sent w)
                 (sleeps w ++ [secs]) (printed w)).

(** [print(f"SPARQL Error Details: {json.dumps(error_details, indent=2)}")]. *)
Definition print_details (error_details : json) : M unit :=
  fun w =>
    (tt, mkWorld (now w) (attempt_starts w) (queries_sent w) (sleeps w)
                 (printed w ++ [error_details])).

Definition MAX_RETRIES : nat := 3.
Definition INITIAL_BACKOFF : N := 1.

(** The dictionary [error_details] of the three handlers. *)
Definition error_details (headline : string) (sparql_query : string)
    (e : exception) : json :=
  JObj [ ("error", JStr (headline ++ exc_str e));
         ("query", JStr sparql_query);
         ("error_type", JStr (type_name (exc_kind e)));
         ("traceback", JStr (exc_traceback e)) ].

Definition attempt_tag (attempt : nat) : string :=
  "(attempt " ++ str_of_nat (attempt + 1) ++ "/" ++ str_of_nat MAX_RETRIES
  ++ "): ".

Definition transient_details (attempt : nat) q e : json :=
  error_details ("Error executing query " ++ attempt_tag attempt) q e.

Definition bad_formed_details q e : json :=
  error_details "SPARQL Query Syntax Error: " q e.

Definition unexpected_details (attempt : nat) q e : json :=
  error_details ("An unexpected error occurred " ++ attempt_tag attempt) q e.

(** The fallback after the loop. *)
Definition final_error_details (sparql_query : string) : json :=
  JObj [ ("error", JStr "Max retries reached. Failed to execute SPARQL query.");
         ("query", JStr sparql_query);
         ("error_type", JStr "MaxRetriesExceeded") ].

(** [for attempt in range(MAX_RETRIES)], over the attempts still to make,
    with the current [backoff_time].  The value is the object given to
    [json.dumps] by the [return] that ends the call. *)
Fixpoint retry_loop (ep : endpoint) (sparql_query : string)
    (attempts : list nat) (backoff_time : N) : M json :=
  match attempts with
  | [] => ret (final_error_details sparql_query)
  | attempt :: rest =>
      r <- call_endpoint ep attempt (full_query sparql_query) ;;
      match r with
      | inl results => ret results
      | inr e =>
          match exc_kind e with
          | Timeout | ConnectionError =>
              let details := transient_details attempt sparql_query e in
              print_details details ;;;
              if (attempt <? MAX_RETRIES - 1)%nat then
                sleep backoff_time ;;;
                retry_loop ep sparql_query rest (backoff_time * 2)
              else ret details
          | QueryBadFormed =>
              let details := bad_formed_details sparql_query e in
              print_details details ;;;
              ret details
          | OtherException _ =>
              let details := unexpected_details attempt sparql_query e in
              print_details details ;;;
              if (attempt <? MAX_RETRIES - 1)%nat then
                sleep backoff_time ;;;
                retry_loop ep sparql_query rest (backoff_time * 2)
              else ret details
          end
      end
  end.

(** The returned object, before serialisation. *)
Definition execute_sparql_outcome (ep : endpoint) (sparql_query : string)
  : M json :=
  retry_loop ep sparql_query (seq 0 MAX_RETRIES) INITIAL_BACKOFF.

(** [execute_sparql(sparql_query)]. *)
Definition execute_sparql (ep : endpoint) (sparql_query : string)
  : M string :=
  v <- execute_sparql_outcome ep sparql_query ;; ret (dumps v).

(** Running a call from the initial state. *)
Definition run {A} (m : M A) : A * world := m initial_world.

(** The [error_type] entry of an outcome, when it has one. *)
Definition outcome_error_type (v : json) : option json := get "error_type" v.
Definition outcome_error (v : json) : option json := get "error" v.

(** The number of attempts made, and the delay between the start of the
    first attempt and the start of attempt [k]. *)
Definition attempts_made (w : world) : nat := List.length (attempt_starts w).

Definition start_of (k : nat) (w : world) : N := nth k (attempt_starts w) 0%N.

(** Stub endpoints. *)
Definition failing (k : ErrorKind) (msg : string) : response :=
  mkResponse (inr (mkException k msg "")) 0.

Definition succeeding (results : json) : response :=
  mkResponse (inl results) 0.

(** Fails on the first [n] calls with [k], then answers [results]. *)
Definition fail_then_succeed (n : nat) (k : ErrorKind) (results : json)
  : endpoint :=
  fun attempt _ =>
    if (attempt <? n)%nat then failing k "down" else succeeding results.

Definition always_failing (k : ErrorKind) : endpoint :=
  fun _ _ => failing k "down".

End Executor.

(* ================================================================== *)
(** ** Executor: the vocabulary of its specification *)
(* ================================================================== *)

Module ExecutorSpec.
Import Py Json Sanitizer Executor.

(** Attempt [n] of the run on [q] raises [e], and [e] is retried. *)
Definition fails_retryably (ep : endpoint) (q : string) (n : nat)
    (e : exception) : Prop :=
  reply (ep n (full_query q)) = inr e /\ retryable (exc_kind e) = true.

(** Attempt [n] raises the malformed-query error [e]. *)
Definition fails_bad_formed (ep : endpoint) (q : string) (n : nat)
    (e : exception) : Prop :=
  reply (ep n (full_query q)) = inr e /\ exc_kind e = QueryBadFormed.

Definition succeeds (ep : endpoint) (q : string) (n : nat) (results : json)
  : Prop :=
  reply (ep n (full_query q)) = inl results.

(** The sleeps of a run that makes [m] attempts: 1, 2, 4, ... *)
Definition backoff_schedule (m : nat) : list N :=
  map (fun n => (2 ^ N.of_nat n)%N) (seq 0 (m - 1)).

(** The opening words of the [error] text, by handler. *)
Definition headline (k : ErrorKind) : string :=
  match k with
  | Timeout | ConnectionError => "Error executing query "
  | QueryBadFormed => "SPARQL Query Syntax Error: "
  | OtherException _ => "An unexpected error occurred "
  end.

(** What one more attempt does to the world. *)
Definition after_call (ep : endpoint) (q : string) (a : nat) (w : world)
  : world :=
  snd (call_endpoint ep a (full_query q) w).

(** The error details built by the handler of a failure of attempt [a]. *)
Definition details_at (q : string) (a : nat) (e : exception) : json :=
  match exc_kind e with
  | Timeout | ConnectionError => transient_details a q e
  | QueryBadFormed => bad_formed_details q e
  | OtherException _ => unexpected_details a q e
  end.

(** The world after the handler of a failure has printed its details. *)
Definition after_failure (ep : endpoint) (q : string) (a : nat)
    (e : exception) (w : world) : world :=
  snd (print_details (details_at q a e) (after_call ep q a w)).

(** The shape of the effects of the loop over the attempts [a, a+1, ...]
    up to the last one, entered with backoff [b] in world [w0]: it makes
    [m] attempts, at least one; the sleeps are [b], [2b], [4b], ...; and
    attempt number [j] of the loop starts no earlier than the sum of the
    sleeps before it. *)
Definition loop_effects (n : nat) (b : N) (w0 w : world) : Prop :=
  exists starts : list N,
    attempt_starts w = (attempt_starts w0 ++ starts)%list /\
    (1 <= List.length starts <= n)%nat /\
    sleeps w =
      (sleeps w0 ++
       map (fun i => (b * 2 ^ N.of_nat i)%N) (seq 0 (List.length starts - 1)))%list /\
    nth 0 starts 0%N = now w0 /\
    (forall j, (j < List.length starts)%nat ->
       (now w0 + b * (2 ^ N.of_nat j - 1) <= nth j starts 0)%N).

End ExecutorSpec.

(* ================================================================== *)
(** ** Executor: the run, attempt by attempt *)
(* ================================================================== *)

Module ExecutorTraceSpec.
Import Py Json Sanitizer Executor ExecutorSpec.

(** What attempt [i] gives: the converted results, or the error details
    built by the handler of the exception. *)
Definition attempt_outcome (ep : endpoint) (q : string) (i : nat) : json :=
  match reply (ep i (full_query q)) with
  | inl results => results
  | inr e => details_at q i e
  end.

(** Attempt [i] ends the run: it succeeds, it raises the malformed-query
    error, or it is the last one allowed. *)
Definition final_attempt (ep : endpoint) (q : string) (i : nat) : bool :=
  match reply (ep i (full_query q)) with
  | inl _ => true
  | inr e => negb (retryable (exc_kind e)) || negb (i <? MAX_RETRIES - 1)%nat
  end.

(** The number of the attempt that ends a loop over the attempts
    [a, ..., a + m - 1]: the first final one. *)
Definition loop_end (ep : endpoint) (q : string) (a m : nat) : nat :=
  match find (final_attempt ep q) (seq a m) with
  | Some i => i
  | None => a + m - 1
  end.

(** The number of the attempt that ends the run. *)
Definition last_attempt (ep : endpoint) (q : string) : nat :=
  loop_end ep q 0 MAX_RETRIES.

(** What is printed for attempt [i]: the error details, when it fails. *)
Definition failure_report (ep : endpoint) (q : string) (i : nat)
  : list json :=
  match reply (ep i (full_query q)) with
  | inl _ => []
  | inr e => [details_at q i e]
  end.

(** The sum of a list of durations. *)
Definition total (l : list N) : N := fold_right N.add 0%N l.

(** The time taken by the [m] attempts from attempt [a] on. *)
Definition time_in_attempts (ep : endpoint) (q : string) (a m : nat) : N :=
  total (map (fun i => duration (ep i (full_query q))) (seq a m)).

(** The facts kept by the loop over the attempts [a, ..., a + m - 1],
    entered in the world [w0], about its result [r] and the number [j] of
    its last attempt. *)
Definition loop_facts (ep : endpoint) (q : string) (a : nat) (w0 : world)
    (j : nat) (r : json * world) : Prop :=
  fst r = attempt_outcome ep q j /\
  attempts_made (snd r) = (attempts_made w0 + (S j - a))%nat /\
  queries_sent (snd r)
  = (queries_sent w0 ++ repeat (full_query q) (S j - a))%list /\
  printed (snd r)
  = (printed w0 ++ flat_map (failure_report ep q) (seq a (S j - a)))%list /\
  (now (snd r) + total (sleeps w0)
   = now w0 + time_in_attempts ep q a (S j - a) + total (sleeps (snd r)))%N.

(** Every result set of the endpoint is a JSON object. *)
Definition answers_with_objects (ep : endpoint) : Prop :=
  forall i q results, reply (ep i q) = inl results -> is_dict results = true.

End ExecutorTraceSpec.

(* ================================================================== *)
(** ** Regular expressions ([re.search], [re.sub]) *)
(* ================================================================== *)

Module Re.
Import Py.

(** The fragment of Python's pattern language used by the validator. *)
Inductive regex : Type :=
| Eps
| Cls (p : ascii -> bool)          (* one character of a class *)
| Lit (ignorecase : bool) (t : string)   (* literal text *)
| Cat (r1 r2 : regex)
| Alt (r1 r2 : regex)
| Star (r : regex)                 (* greedy repetition *)
| NegLook (r : regex)              (* negative lookahead *)
| Eol (multiline : bool).          (* the dollar anchor *)

Definition Plus (r : regex) : regex := Cat r (Star r).

Definition eq_char (ignorecase : bool) (a b : ascii) : bool :=
  if ignorecase then Ascii.eqb (upper_char a) (upper_char b)
  else Ascii.eqb a b.

(** The text left after the literal [t], when [s] starts with it. *)
Fixpoint eat (ignorecase : bool) (t s : string) : option string :=
  match t, s with
  | "", _ => Some s
  | String a t', String b s' =>
      if eq_char ignorecase a b then eat ignorecase t' s' else None
  | String _ _, "" => None
  end.

(** Greedy repetition of a matcher [m]: one more round first, as long as
    the round consumes text, then none. *)
Fixpoint star_loop (m : string -> list string) (fuel : nat) (s : string)
  : list string :=
  match fuel with
  | O => [s]
  | S fuel' =>
      (flat_map
         (fun s' =>
            if (String.length s' <? String.length s)%nat
            then star_loop m fuel' s' else [])
         (m s) ++ [s])%list
  end.

(** All the ways [r] matches at the start of [s], in the order in which a
    backtracking matcher tries them; each way is given by the text left
    after the match. *)
Fixpoint rmatch (r : regex) (s : string) : list string :=
  match r with
  | Eps => [s]
  | Cls p =>
      match s with
      | String c s' => if p c then [s'] else []
      | "" => []
      end
  | Lit ci t =>
      match eat ci t s with
      | Some s' => [s']
      | None => []
      end
  | Cat r1 r2 => flat_map (rmatch r2) (rmatch r1 s)
  | Alt r1 r2 => (rmatch r1 s ++ rmatch r2 s)%list
  | Star r1 => star_loop (rmatch r1) (String.length s) s
  | NegLook r1 =>
      match rmatch r1 s with
      | [] => [s]
      | _ :: _ => []
      end
  | Eol multiline =>
      match s with
      | "" => [s]
      | String c s' =>
          if Ascii.eqb c LF && (multiline || (s' =? "")) then [s] else []
      end
  end.

(** [re.search(r, s) is not None]. *)
Fixpoint search (r : regex) (s : string) : bool :=
  match rmatch r s with
  | _ :: _ => true
  | [] =>
      match s with
      | "" => false
      | String _ s' => search r s'
      end
  end.

(** [re.sub(r, "", s)] for a pattern that matches no empty text. *)
Fixpoint sub_fuel (fuel : nat) (r : regex) (s : string) : string :=
  match fuel with
  | O => s
  | S fuel' =>
      match s with
      | "" => ""
      | String c s' =>
          match rmatch r s with
          | rest :: _ =>
              if (String.length rest <? String.length s)%nat
              then sub_fuel fuel' r rest
              else String c (sub_fuel fuel' r s')
          | [] => String c (sub_fuel fuel' r s')
          end
      end
  end.

Definition sub_empty (r : regex) (s : string) : string :=
  sub_fuel (String.length s) r s.

(** Character classes. *)
Definition ws : regex := Cls isspace.                        (* \s *)
Definition is_word (c : ascii) : bool :=
  is_alpha c || is_digit c || Ascii.eqb c "_"%char.
Definition word : regex := Cls is_word.                      (* \w *)
Definition digit : regex := Cls is_digit.                    (* \d *)
Definition dot : regex := Cls (fun c => negb (Ascii.eqb c LF)).
Definition chr (c : ascii) : regex := Cls (Ascii.eqb c).
Definition not_chr (c : ascii) : regex := Cls (fun a => negb (Ascii.eqb a c)).
Definition kw (t : string) : regex := Lit true t.

End Re.

(* ================================================================== *)
(** ** Query validator ([_validate_sparql_query]) *)
(* ================================================================== *)

Module Validator.
Import Py Re.

(** The dictionary returned by the validator: [{"is_valid": True}], or
    [is_valid] false with an error and a suggestion. *)
Inductive verdict : Type :=
| Valid
| Invalid (error suggestion : string).

Definition is_valid (v : verdict) : bool :=
  match v with Valid => true | Invalid _ _ => false end.

(** *** 1. Delimiter balance *)

Definition brackets_map : list (ascii * ascii) :=
  [ ("("%char, ")"%char); ("["%char, "]"%char); ("{"%char, "}"%char) ].

(** [char in brackets_map] and [brackets_map[char]]. *)
Definition closer_of (c : ascii) : option ascii :=
  match find (fun kv => Ascii.eqb (fst kv) c) brackets_map with
  | Some kv => Some (snd kv)
  | None => None
  end.

Definition is_opener (c : ascii) : bool :=
  match closer_of c with Some _ => true | None => false end.

(** [char in brackets_map.values()]. *)
Definition is_closer (c : ascii) : bool :=
  existsb (fun kv => Ascii.eqb (snd kv) c) brackets_map.

Definition quoted (c : ascii) : string := "'" ++ String c "'".

Definition unbalanced_closing (c : ascii) : verdict :=
  Invalid ("Unbalanced closing bracket/parenthesis/brace: " ++ quoted c)
    "Ensure all opening brackets, parentheses, and braces have a matching closing one in the correct order.".

Definition unclosed_opening (c : ascii) : verdict :=
  Invalid ("Unclosed opening bracket/parenthesis/brace: " ++ quoted c)
    "Ensure all opening brackets, parentheses, and braces are closed.".

(** The loop over the characters.  [open_brackets] is the Python list in
    reverse: its head is the last element, the one that [pop] removes.
    The result is the early verdict, or the stack left at the end. *)
Fixpoint scan_brackets (query : string) (open_brackets : list ascii)
  : verdict + list ascii :=
  match query with
  | "" => inr open_brackets
  | String char rest =>
      if is_opener char then scan_brackets rest (char :: open_brackets)
      else if is_closer char then
        match open_brackets with
        | [] => inl (unbalanced_closing char)
        | top :: below =>
            if match closer_of top with
               | Some c => negb (Ascii.eqb c char)
               | None => true
               end
            then inl (unbalanced_closing char)
            else scan_brackets rest below
        end
      else scan_brackets rest open_brackets
  end.

Definition check_brackets (query : string) : option verdict :=
  match scan_brackets query [] with
  | inl v => Some v
  | inr (top :: _) => Some (unclosed_opening top)
  | inr [] => None
  end.

(** *** 2. Keyword patterns *)

Definition any_of (l : list ascii) : ascii -> bool := fun c => char_in c l.

(** [SELECT\s*(?![?*\w(])] *)
Definition SELECT_RE : regex :=
  Cat (kw "SELECT") (Cat (Star ws)
    (NegLook (Cls (fun c => any_of ["?"; "*"; "("]%char c || is_word c)))).

(** [WHERE\s*(?!\{)] *)
Definition WHERE_RE : regex :=
  Cat (kw "WHERE") (Cat (Star ws) (NegLook (chr "{"))).

(** [WHERE\s*DATA\s*\{] *)
Definition WHERE_DATA_RE : regex :=
  Cat (kw "WHERE") (Cat (Star ws) (Cat (kw "DATA") (Cat (Star ws) (chr "{")))).

(** [PREFIX\s+\w*:\s*(?!<)] *)
Definition PREFIX_RE : regex :=
  Cat (kw "PREFIX") (Cat (Plus ws) (Cat (Star word) (Cat (chr ":")
    (Cat (Star ws) (NegLook (chr "<")))))).

(** [PREFIX\s+\w*:\s*<[^>]*$] *)
Definition PREFIX_URI_RE : regex :=
  Cat (kw "PREFIX") (Cat (Plus ws) (Cat (Star word) (Cat (chr ":")
    (Cat (Star ws) (Cat (chr "<") (Cat (Star (not_chr ">")) (Eol false))))))).

(** [FILTER\s*\((?!\s*(NOT\s+EXISTS|EXISTS)\s*\{)] *)
Definition FILTER_RE : regex :=
  Cat (kw "FILTER") (Cat (Star ws) (Cat (chr "(")
    (NegLook (Cat (Star ws)
      (Cat (Alt (Cat (kw "NOT") (Cat (Plus ws) (kw "EXISTS"))) (kw "EXISTS"))
        (Cat (Star ws) (chr "{"))))))).

(** [FILTER\s*\(\s*\)] *)
Definition FILTER_EMPTY_RE : regex :=
  Cat (kw "FILTER") (Cat (Star ws) (Cat (chr "(") (Cat (Star ws) (chr ")")))).

(** [(LIMIT|OFFSET)\s+(?!\d+)] *)
Definition LIMIT_OFFSET_RE : regex :=
  Cat (Alt (kw "LIMIT") (kw "OFFSET")) (Cat (Plus ws) (NegLook (Plus digit))).

(** [ORDER\s+BY\s+(?!(ASC|DESC)\s*\(|\?\w+|IRI|STR|LANG|DATATYPE)] *)
Definition ORDER_BY_RE : regex :=
  Cat (kw "ORDER") (Cat (Plus ws) (Cat (kw "BY") (Cat (Plus ws)
    (NegLook
      (Alt (Cat (Alt (kw "ASC") (kw "DESC")) (Cat (Star ws) (chr "(")))
      (Alt (Cat (chr "?") (Plus word))
      (Alt (kw "IRI") (Alt (kw "STR") (Alt (kw "LANG") (kw "DATATYPE")))))))))).

(** [GROUP\s+BY\s+(?!\?\w+)] *)
Definition GROUP_BY_RE : regex :=
  Cat (kw "GROUP") (Cat (Plus ws) (Cat (kw "BY") (Cat (Plus ws)
    (NegLook (Cat (chr "?") (Plus word)))))).

Definition DQ : ascii := "034"%char.
Definition SQ : ascii := "'"%char.

(** A language tag followed by the quote character [quote]:
    [@[a-zA-Z]{2,}(?:-[a-zA-Z0-9]+)*\s*(quote)], case-sensitive. *)
Definition lang_tag_then (quote : ascii) : regex :=
  Cat (chr "@") (Cat (Cls is_alpha) (Cat (Cls is_alpha) (Cat (Star (Cls is_alpha))
    (Cat (Star (Cat (chr "-") (Plus (Cls (fun c => is_alpha c || is_digit c)))))
      (Cat (Star ws) (chr quote)))))).

(** A datatype annotation followed by the quote character [quote]:
    [\^\^<[^>]*>\s*(quote)], case-sensitive. *)
Definition datatype_then (quote : ascii) : regex :=
  Cat (Lit false "^^<") (Cat (Star (not_chr ">")) (Cat (chr ">")
    (Cat (Star ws) (chr quote)))).

(** The two patterns of the source, both with the double quote. *)
Definition LANG_TAG_RE : regex := lang_tag_then DQ.
Definition DATATYPE_RE : regex := datatype_then DQ.

(** [#.*$] with [re.MULTILINE] *)
Definition COMMENT_RE : regex :=
  Cat (chr "#") (Cat (Star dot) (Eol true)).

Definition check_select (query : string) : option verdict :=
  if search SELECT_RE query then
    Some (Invalid "Invalid SELECT clause."
      "SELECT keyword should be followed by variables (e.g., ?var), '*', or aggregate functions (e.g., COUNT(?var)).")
  else None.

Definition check_where (query : string) : option verdict :=
  if search WHERE_RE query && negb (search WHERE_DATA_RE query) then
    Some (Invalid "Invalid WHERE clause."
      "WHERE keyword should be followed by a graph pattern enclosed in curly braces {} (e.g., WHERE { ?s ?p ?o . }).")
  else None.

Definition check_prefix (query : string) : option verdict :=
  if search PREFIX_RE query then
    Some (Invalid "Invalid PREFIX declaration."
      "PREFIX declarations should use URIs enclosed in < > (e.g., PREFIX foaf: <http://xmlns.com/foaf/0.1/>).")
  else None.

Definition check_prefix_uri (query : string) : option verdict :=
  if search PREFIX_URI_RE query then
    Some (Invalid "Incomplete URI in PREFIX declaration."
      "Ensure URIs in PREFIX declarations are properly closed with '>'.")
  else None.

(** The two further searches of this block only guard a [pass]. *)
Definition check_filter (query : string) : option verdict :=
  if search FILTER_RE query then
    if search FILTER_EMPTY_RE query then
      Some (Invalid "Empty FILTER clause."
        "FILTER clauses must contain an expression (e.g., FILTER(?age > 18)).")
    else None
  else None.

Definition check_limit_offset (query : string) : option verdict :=
  if search LIMIT_OFFSET_RE query then
    Some (Invalid "Invalid LIMIT or OFFSET clause."
      "LIMIT and OFFSET keywords must be followed by a non-negative integer.")
  else None.

Definition check_order_by (query : string) : option verdict :=
  if search ORDER_BY_RE query then
    Some (Invalid "Invalid ORDER BY clause."
      "ORDER BY should be followed by a variable (e.g., ?name), or a function call like ASC(?date) or DESC(?value).")
  else None.

Definition check_group_by (query : string) : option verdict :=
  if search GROUP_BY_RE query then
    Some (Invalid "Invalid GROUP BY clause."
      "GROUP BY should be followed by one or more variables (e.g., GROUP BY ?type).")
  else None.

(** *** 3. Quote parity *)

Definition odd_count (c : ascii) (s : string) : bool :=
  negb (count_char c s mod 2 =? 0)%nat.

Definition clean_query_for_quotes (query : string) : string :=
  sub_empty COMMENT_RE query.

Definition double_quote_suggestion : string :=
  "Ensure all string literals using double quotes are properly opened and closed. Escape internal quotes if necessary (e.g., \"
  ++ String DQ " ).".

Definition single_quote_suggestion : string :=
  "Ensure all string literals using single quotes are properly opened and closed. Escape internal quotes if necessary (e.g., \' ).".

Definition check_double_quotes (query : string) : option verdict :=
  if odd_count DQ query then
    if negb (search LANG_TAG_RE query) && negb (search DATATYPE_RE query) then
      if odd_count DQ (clean_query_for_quotes query) then
        Some (Invalid "Unbalanced double quotes." double_quote_suggestion)
      else None
    else None
  else None.

Definition check_single_quotes (query : string) : option verdict :=
  if odd_count SQ query then
    if odd_count SQ (clean_query_for_quotes query) then
      Some (Invalid "Unbalanced single quotes." single_quote_suggestion)
    else None
  else None.

(** *** The validator: the checks in source order, the first failing one
    decides.  The closing loop over the lines of the query only reaches a
    [pass] and returns nothing. *)

Definition checks_before_filter : list (string -> option verdict) :=
  [ check_brackets; check_select; check_where; check_prefix;
    check_prefix_uri ].

Definition checks_after_filter : list (string -> option verdict) :=
  [ check_limit_offset; check_order_by; check_group_by ].

Definition quote_checks : list (string -> option verdict) :=
  [ check_double_quotes; check_single_quotes ].

Definition checks_before_quotes : list (string -> option verdict) :=
  (checks_before_filter ++ [check_filter] ++ checks_after_filter)%list.

Fixpoint first_failure (checks : list (string -> option verdict))
    (query : string) : option verdict :=
  match checks with
  | [] => None
  | check :: more =>
      match check query with
      | Some v => Some v
      | None => first_failure more query
      end
  end.

Definition _validate_sparql_query (query : string) : verdict :=
  match first_failure (checks_before_quotes ++ quote_checks)%list query with
  | Some v => v
  | None => Valid
  end.

End Validator.

(* ================================================================== *)
(** ** Validator: the vocabulary of its specification *)
(* ================================================================== *)

Module ValidatorSpec.
Import Py Re Validator.

(** Texts whose delimiters are balanced: every closer matches the nearest
    opener still open, and no opener is left open.  Other characters are
    ignored. *)
Inductive Balanced : string -> Prop :=
| Balanced_nil : Balanced ""
| Balanced_other (c : ascii) (s : string) :
    is_opener c = false -> is_closer c = false ->
    Balanced s -> Balanced (String c s)
| Balanced_pair (o c : ascii) (s t : string) :
    closer_of o = Some c ->
    Balanced s -> Balanced t -> Balanced (String o (s ++ String c t)).

(** A text that closes, in order, the openers of a stack (innermost
    first) and is balanced in between and after. *)
Inductive Closes : list ascii -> string -> Prop :=
| Closes_nil (s : string) : Balanced s -> Closes [] s
| Closes_cons (o c : ascii) (st : list ascii) (b s : string) :
    closer_of o = Some c ->
    Balanced b -> Closes st s -> Closes (o :: st) (b ++ String c s).

(** A text in which every closer closes the nearest opener still open,
    and which leaves the openers of the stack open at its end (innermost
    first). *)
Inductive Leaves : string -> list ascii -> Prop :=
| Leaves_none (s : string) : Balanced s -> Leaves s []
| Leaves_open (s b : string) (o : ascii) (st : list ascii) :
    Leaves s st -> is_opener o = true -> Balanced b ->
    Leaves (s ++ String o b) (o :: st).



(** The offending opener of a text in which every closer matches: the
    innermost opener that is still open at the end. *)
Definition left_open (q : string) (o : ascii) : Prop :=
  exists st, Leaves q (o :: st).

(** The query holds the word FILTER, in any letter case, then optional
    blanks, an opening parenthesis, optional blanks and a closing
    parenthesis. *)
Definition has_empty_filter (q : string) : Prop :=
  exists pre f ws1 ws2 post,
    q = pre ++ f ++ ws1 ++ String "(" (ws2 ++ String ")" post) /\
    upper f = "FILTER" /\ all_space ws1 /\ all_space ws2.

Definition empty_filter_verdict : verdict :=
  Invalid "Empty FILTER clause."
    "FILTER clauses must contain an expression (e.g., FILTER(?age > 18)).".

Definition unbalanced_double_quotes : verdict :=
  Invalid "Unbalanced double quotes." double_quote_suggestion.

Definition unbalanced_single_quotes : verdict :=
  Invalid "Unbalanced single quotes." single_quote_suggestion.

(** The query passes every check that comes before the quote checks. *)
Definition reaches_quote_check (q : string) : Prop :=
  first_failure checks_before_quotes q = None.

(** The query passes every check that comes before the FILTER check. *)
Definition reaches_filter_check (q : string) : Prop :=
  first_failure checks_before_filter q = None.

(** The quote-parity rule in the words of the specification: the count of
    quote characters [c], taken after stripping the comments, must be
    even unless a language tag or a datatype annotation is followed by
    that quote character. *)
Definition quote_rule_as_claimed (c : ascii) (q : string) : Prop :=
  odd_count c (clean_query_for_quotes q) = true ->
  search (lang_tag_then c) q = false ->
  search (datatype_then c) q = false ->
  is_valid (_validate_sparql_query q) = false.

End ValidatorSpec.

(* ================================================================== *)
(** ** Validator: the keyword checks in words *)
(* ================================================================== *)

Module KeywordSpec.
Import Py Re Validator.

(** The word [k] (given in upper case) occurs in [q] in any letter case,
    and the text after that occurrence satisfies [follow]. *)
Definition keyword_then (k q : string) (follow : string -> Prop) : Prop :=
  exists pre f post, q = pre ++ f ++ post /\ upper f = k /\ follow post.

(** [k in q.upper()] *)
Definition mentions (k q : string) : bool := contains k (upper q).

(** A character with which the operand of SELECT may start: a question
    mark, a star, an opening parenthesis or a word character. *)
Definition starts_projection (c : ascii) : bool :=
  Ascii.eqb c "?" || Ascii.eqb c "*" || Ascii.eqb c "(" || is_word c.

(** The text ends here, or goes on with a character that starts no
    operand of SELECT. *)
Definition no_projection_next (post : string) : Prop :=
  match post with
  | "" => True
  | String c _ => starts_projection c = false
  end.

(** Some occurrence of SELECT is not directly followed by an operand. *)
Definition select_without_projection (q : string) : Prop :=
  keyword_then "SELECT" q no_projection_next.

(** Some occurrence of SELECT is followed by a blank. *)
Definition select_then_blank (q : string) : Prop :=
  keyword_then "SELECT" q
    (fun post => exists c r, post = String c r /\ isspace c = true).

Definition select_verdict : verdict :=
  Invalid "Invalid SELECT clause."
    "SELECT keyword should be followed by variables (e.g., ?var), '*', or aggregate functions (e.g., COUNT(?var)).".

(** The text ends here, or goes on with a character other than the
    opening brace. *)
Definition no_brace_next (post : string) : Prop :=
  match post with
  | "" => True
  | String c _ => c <> "{"%char
  end.

(** Some occurrence of WHERE is not directly followed by an opening
    brace. *)
Definition where_without_brace (q : string) : Prop :=
  keyword_then "WHERE" q no_brace_next.

(** The form WHERE DATA followed by an opening brace, blanks allowed
    between the three. *)
Definition where_data_form (q : string) : Prop :=
  keyword_then "WHERE" q
    (fun post => exists w1 d w2 r,
       post = w1 ++ d ++ w2 ++ String "{" r /\
       all_space w1 /\ upper d = "DATA" /\ all_space w2).

Definition where_verdict : verdict :=
  Invalid "Invalid WHERE clause."
    "WHERE keyword should be followed by a graph pattern enclosed in curly braces {} (e.g., WHERE { ?s ?p ?o . }).".

(** The text ends here, or goes on with a character other than the
    opening angle bracket. *)
Definition no_angle_next (post : string) : Prop :=
  match post with
  | "" => True
  | String c _ => c <> "<"%char
  end.

(** A text made of word characters only. *)
Definition all_word (s : string) : Prop :=
  Forall (fun c => is_word c = true) (chars s).

(** Some occurrence of PREFIX, blanks, a name of word characters (it may
    be empty) and a colon is not directly followed by an opening angle
    bracket. *)
Definition prefix_without_bracket (q : string) : Prop :=
  keyword_then "PREFIX" q
    (fun post => exists blanks name r,
       post = blanks ++ name ++ String ":" r /\
       blanks <> "" /\ all_space blanks /\ all_word name /\
       no_angle_next r).

Definition prefix_verdict : verdict :=
  Invalid "Invalid PREFIX declaration."
    "PREFIX declarations should use URIs enclosed in < > (e.g., PREFIX foaf: <http://xmlns.com/foaf/0.1/>).".

(** The query passes the delimiter, SELECT and WHERE checks. *)
Definition reaches_prefix_check (q : string) : Prop :=
  first_failure [check_brackets; check_select; check_where] q = None.

(** One blank, then the end of the text or a character that is no
    digit. *)
Definition blank_then_no_digit (post : string) : Prop :=
  exists c r, post = String c r /\ isspace c = true /\
    match r with
    | "" => True
    | String d _ => is_digit d = false
    end.

(** Some occurrence of LIMIT or OFFSET is followed by one blank and then
    by no digit. *)
Definition limit_without_number (q : string) : Prop :=
  keyword_then "LIMIT" q blank_then_no_digit \/
  keyword_then "OFFSET" q blank_then_no_digit.

Definition limit_verdict : verdict :=
  Invalid "Invalid LIMIT or OFFSET clause."
    "LIMIT and OFFSET keywords must be followed by a non-negative integer.".

(** The query passes every check before the LIMIT/OFFSET check. *)
Definition reaches_limit_check (q : string) : Prop :=
  first_failure (checks_before_filter ++ [check_filter]) q = None.

(** The keywords that the pattern checks look for. *)
Definition checked_keywords : list string :=
  [ "SELECT"; "WHERE"; "PREFIX"; "FILTER"; "LIMIT"; "OFFSET"; "ORDER";
    "GROUP" ].

End KeywordSpec.

(* ================================================================== *)
(** ** Validator: the comments that the quote checks leave out *)
(* ================================================================== *)

Module CommentSpec.
Import Py Re Validator.

(** The text from the next line feed on (the line feed included), or the
    empty text when there is none. *)
Fixpoint rest_of_line (s : string) : string :=
  match s with
  | "" => ""
  | String c s' => if Ascii.eqb c LF then s else rest_of_line s'
  end.

(** The text without its comments: on every line, the characters from the
    first hash sign to the end of the line are dropped; the line feeds
    stay.  [in_comment] tells whether a hash sign came before on the
    line. *)
Fixpoint uncomment (in_comment : bool) (s : string) : string :=
  match s with
  | "" => ""
  | String c s' =>
      if in_comment then
        if Ascii.eqb c LF then String c (uncomment false s')
        else uncomment true s'
      else if Ascii.eqb c "#" then uncomment true s'
      else String c (uncomment false s')
  end.

End CommentSpec.

(* ================================================================== *)
(** ** Tool facade ([server_sse.py], the functions under [@mcp.tool]) *)
(* ================================================================== *)

Module Facade.
Import Py Json Executor Validator.

(** The exceptions raised by the library calls of the facade. *)
Inductive exception_class : Type :=
| JSONDecodeError
| TypeError.

(** The outcome of a Python call: a returned value, or an exception that
    leaves the function. *)
Inductive py_result (A : Type) : Type :=
| Returned (a : A)
| Raised (exception_class : exception_class).
Arguments Returned {A} a.
Arguments Raised {A} exception_class.

Definition dquote (s : string) : string :=
  String Json.DQ (s ++ String Json.DQ "").

Definition obj3 (error details suggestion : string) : json :=
  JObj [ ("error", JStr error); ("details", JStr details);
         ("suggestion", JStr suggestion) ].

(** [v == s] for a string constant [s]. *)
Definition is_str (s : string) (v : json) : bool :=
  match v with JStr x => x =? s | _ => false end.

(** [needle in v]: substring, membership or key test; any other operand
    raises [TypeError]. *)
Definition py_in (needle : string) (v : json) : py_result bool :=
  match v with
  | JStr s => Returned (contains needle s)
  | JArr l => Returned (existsb (is_str needle) l)
  | JObj d => Returned (has_key needle v)
  | _ => Raised TypeError
  end.

(** [d.get(k, default)] *)
Definition get_default (k : string) (default : json) (v : json) : json :=
  match get k v with Some x => x | None => default end.

(** [d.get(k)]: a missing key gives [None]. *)
Definition get_none (k : string) (v : json) : json := get_default k JNull v.

Section Tools.

(** The functions of [wikidata_api.py] that wrap one HTTP request, taken by
    their results: a string for the two searches, a dictionary for the
    metadata lookup. *)
Variable search_entity : string -> string.
Variable search_property : string -> string.
Variable get_entity_metadata : string -> list (string * json).

(** The SPARQL endpoint behind [execute_sparql]. *)
Variable ep : endpoint.

(** Text produced by the interpreter and not modelled: [str(x)] of a value
    that is not a string, and [str(e)] of the [TypeError] raised by
    [needle in x]. *)
Variable py_repr : json -> string.
Variable type_error_str : json -> string.

(** [str(v)] as an f-string formats it. *)
Definition py_str (v : json) : string :=
  match v with JStr s => s | _ => py_repr v end.

Definition search_wikidata_entity (query : string) : string :=
  let result := search_entity query in
  if startswith "Error searching for entity:" result then
    dumps (obj3 "Failed to search Wikidata entity." result
      "Check your network connection or try a different search query.")
  else if result =? "No entity found" then
    dumps (obj3 "No entity found on Wikidata."
      ("The query '" ++ query ++ "' did not return any results.")
      "Try alternative spellings, more general or specific terms, or ensure the entity exists on Wikidata.")
  else result.

Definition search_wikidata_property (query : string) : string :=
  let result := search_property query in
  if startswith "Error searching for property:" result then
    dumps (obj3 "Failed to search Wikidata property." result
      "Check your network connection or try a different search query.")
  else if result =? "No property found" then
    dumps (obj3 "No property found on Wikidata."
      ("The query '" ++ query ++ "' did not return any results for a property.")
      "Try alternative spellings, or ensure the property exists on Wikidata (e.g., check common properties list).")
  else result.

Definition get_wikidata_metadata (entity_id : string) : string :=
  let metadata := get_entity_metadata entity_id in
  match assoc "error" metadata with
  | Some err =>
      dumps (JObj
        [ ("error", JStr ("Failed to get metadata for entity ID '" ++ entity_id ++ "'."));
          ("details", err);
          ("suggestion", JStr "The entity ID might be invalid, the entity may not exist, or there could be an issue with the metadata service.") ])
  | None => dumps (JObj metadata)
  end.

(** The query text of [get_entity_properties]. *)
Definition properties_query (entity_id : string) : string :=
  nl ++
  "    # Fetches properties and their values for a given entity." ++ nl ++
  "    # Uses a subquery to get core data before fetching labels for efficiency." ++ nl ++
  "    SELECT ?property ?propertyLabel ?value ?valueLabel" ++ nl ++
  "    WHERE {" ++ nl ++
  "      {" ++ nl ++
  "        SELECT ?property ?value" ++ nl ++
  "        WHERE {" ++ nl ++
  "          # Core query to get property-value pairs for the entity" ++ nl ++
  "          wd:" ++ entity_id ++ " ?p ?statement. # ?p is the property predicate" ++ nl ++
  "          ?statement ?ps ?value.      # ?ps is the property statement value predicate" ++ nl ++
  nl ++
  "          # Link predicates to actual property entities" ++ nl ++
  "          ?property wikibase:claim ?p." ++ nl ++
  "          ?property wikibase:statementProperty ?ps." ++ nl ++
  "        }" ++ nl ++
  "        LIMIT 50" ++ nl ++
  "      }" ++ nl ++
  "      # Apply labels to the results of the subquery" ++ nl ++
  "      SERVICE wikibase:label { bd:serviceParam wikibase:language " ++ dquote "en" ++ ". }" ++ nl ++
  "    }" ++ nl ++
  "    ".

(** [get_entity_properties]: the parsed result of [execute_sparql]. *)
Definition get_entity_properties (entity_id : string)
  : M (py_result json) :=
  raw <- execute_sparql ep (properties_query entity_id) ;;
  ret (match loads raw with
       | Some v => Returned v
       | None => Raised JSONDecodeError
       end).

(** [json.loads(x)] where [x] is any value: only a string is parsed. *)
Definition loads_any (x : json) : py_result json :=
  match x with
  | JStr s =>
      match loads s with
      | Some v => Returned v
      | None => Raised JSONDecodeError
      end
  | _ => Raised TypeError
  end.

Definition properties_suggestion (error_type : json) : string :=
  if is_str "QueryBadFormed" error_type then
    "The underlying SPARQL query for fetching properties might be malformed (unlikely for default queries) or there's an issue with the entity ID affecting the query."
  else if is_str "Timeout" error_type || is_str "ConnectionError" error_type
          || is_str "MaxRetriesExceeded" error_type then
    "Fetching properties failed due to network issues or timeout. Please try again later."
  else
    "Review the error details. If it's a query issue, the default query for properties might be failing for this entity.".

(** [get_wikidata_properties]: the value bound to [properties_json_str] is
    what [get_entity_properties] returns, an already parsed object. *)
Definition get_wikidata_properties (entity_id : string)
  : M (py_result string) :=
  r <- get_entity_properties entity_id ;;
  match r with
  | Raised c => ret (Raised c)
  | Returned properties_json_str =>
      match loads_any properties_json_str with
      | Raised JSONDecodeError =>
          ret (Returned (dumps (JObj
            [ ("error", JStr "Received non-JSON response when fetching entity properties.");
              ("details", properties_json_str);
              ("suggestion", JStr "This indicates an unexpected response format from the properties retrieval function.") ])))
      | Raised TypeError => ret (Raised TypeError)
      | Returned properties_data =>
          if has_key "error" properties_data
             && has_key "error_type" properties_data then
            let error_type := get_none "error_type" properties_data in
            ret (Returned (dumps (JObj
              [ ("error", JStr ("Failed to get properties for entity ID '" ++ entity_id ++ "'."));
                ("details", get_none "error" properties_data);
                ("error_type", error_type);
                ("original_query", get_none "query" properties_data);
                ("suggestion", JStr (properties_suggestion error_type)) ])))
          else
            match properties_json_str with
            | JStr s => ret (Returned s)
            | _ => ret (Raised TypeError)
            end
      end
  end.

(** The [suggestion] of [execute_wikidata_sparql]; the last test can raise
    [TypeError]. *)
Definition execution_suggestion (result_data error_msg error_type : json)
  : py_result string :=
  if is_str "QueryBadFormed" error_type then
    Returned "The SPARQL query syntax is incorrect. Please check for typos, keyword misuse, or structural issues. Refer to SPARQL documentation or use a SPARQL validator for assistance."
  else if is_str "Timeout" error_type then
    Returned "The query execution timed out. Try simplifying the query, adding or adjusting LIMIT/OFFSET clauses, or reducing its complexity. Executing it at a later time might also help."
  else if is_str "ConnectionError" error_type then
    Returned "A network connection error occurred while trying to reach the SPARQL endpoint. Please check your internet connection and try again later."
  else if is_str "MaxRetriesExceeded" error_type then
    let original_error_type :=
      get_default "original_error_type" (JStr "transient issues") result_data in
    Returned ("The query failed after multiple retries due to repeated '"
              ++ py_str original_error_type
              ++ "'. This could be due to network issues or endpoint overload. Try again later. Original error: "
              ++ py_str error_msg)
  else
    match py_in "Error executing query" error_msg with
    | Raised c => Raised c
    | Returned true =>
        Returned "An error occurred during query execution. Check the syntax and ensure all identifiers (URIs, variables) are correct."
    | Returned false =>
        Returned "Please review your query and the error details."
    end.

(** The handler [except Exception as e] of [execute_wikidata_sparql]. *)
Definition on_exception (error_message : string) : string :=
  if contains "Lexical error" error_message
     && contains "Encountered: " error_message then
    dumps (JObj [ ("error", JStr ("SPARQL syntax error: " ++ error_message
                    ++ ". Check for unescaped quotes or special characters.")) ])
  else
    dumps (JObj [ ("error", JStr ("Error executing SPARQL query: " ++ error_message)) ]).

Definition execute_wikidata_sparql (sparql_query : string) : M string :=
  match _validate_sparql_query sparql_query with
  | Invalid error suggestion =>
      ret (dumps (obj3 "SPARQL query validation failed" error suggestion))
  | Valid =>
      raw_result <- execute_sparql ep sparql_query ;;
      match loads raw_result with
      | None =>
          ret (dumps (obj3 "Received non-JSON response from SPARQL execution."
                 raw_result
                 "Check the SPARQL endpoint or the API's response format."))
      | Some result_data =>
          if has_key "error" result_data && has_key "error_type" result_data
          then
            let error_msg :=
              get_default "error" (JStr "Unknown error from wikidata_api") result_data in
            let error_type :=
              get_default "error_type" (JStr "UnknownErrorType") result_data in
            let original_query :=
              get_default "query" (JStr sparql_query) result_data in
            match execution_suggestion result_data error_msg error_type with
            | Raised _ =>
                print_details (JStr "Exception in execute_wikidata_sparql") ;;;
                ret (on_exception (type_error_str error_msg))
            | Returned suggestion =>
                print_details result_data ;;;
                ret (dumps (JObj
                  [ ("error", JStr "SPARQL query execution failed.");
                    ("original_error_message", error_msg);
                    ("error_type", error_type);
                    ("query", original_query);
                    ("suggestion", JStr suggestion) ]))
            end
          else ret raw_result
      end
  end.

(** [if s:] for an optional string. *)
Definition truthy_opt (s : option string) : bool :=
  match s with Some x => truthy x | None => false end.

Definition json_of_opt (s : option string) : json :=
  match s with Some x => JStr x | None => JNull end.

Definition label_service_line : string :=
  "SERVICE wikibase:label { bd:serviceParam wikibase:language "
  ++ dquote "en" ++ ". }".

(** The two query texts of [find_entity_facts]. *)
Definition facts_query_for (entity_id property_id : string) : string :=
  nl ++
  "        SELECT ?value ?valueLabel" ++ nl ++
  "        WHERE {" ++ nl ++
  "          wd:" ++ entity_id ++ " wdt:" ++ property_id ++ " ?value." ++ nl ++
  "          " ++ label_service_line ++ nl ++
  "        }" ++ nl ++
  "        ".

Definition facts_query_general (entity_id : string) : string :=
  nl ++
  "        # General entity info: Fetch core data then labels for efficiency." ++ nl ++
  "        SELECT ?property ?propertyLabel ?value ?valueLabel" ++ nl ++
  "        WHERE {" ++ nl ++
  "          {" ++ nl ++
  "            SELECT ?property ?value" ++ nl ++
  "            WHERE {" ++ nl ++
  "              wd:" ++ entity_id ++ " ?p ?statement." ++ nl ++
  "              ?statement ?ps ?value." ++ nl ++
  nl ++
  "              ?property wikibase:claim ?p." ++ nl ++
  "              ?property wikibase:statementProperty ?ps." ++ nl ++
  "            }" ++ nl ++
  "            LIMIT 10" ++ nl ++
  "          }" ++ nl ++
  "          " ++ label_service_line ++ nl ++
  "        }" ++ nl ++
  "        ".

(** The last part of [find_entity_facts]: build the query, run it through
    the tool, combine the results. *)
Definition fetch_facts (entity_id : string) (metadata : json)
    (property_id property_name : option string) : M string :=
  let sparql_query :=
    match property_id with
    | Some pid =>
        if truthy pid then facts_query_for entity_id pid
        else facts_query_general entity_id
    | None => facts_query_general entity_id
    end in
  facts_json_str <- execute_wikidata_sparql sparql_query ;;
  match loads facts_json_str with
  | None =>
      ret (dumps (JObj
        [ ("error", JStr "Failed to parse SPARQL result from internal call to execute_wikidata_sparql.");
          ("details", JStr "The response from execute_wikidata_sparql was not valid JSON.");
          ("context", JObj [ ("entity_id", JStr entity_id);
                             ("property_id", json_of_opt property_id);
                             ("query", JStr sparql_query) ]);
          ("suggestion", JStr "This indicates an internal issue with the server's SPARQL execution tool chain.") ]))
  | Some facts_data =>
      ret (dumps (JObj
        [ ("entity", metadata);
          ("property",
           if truthy_opt property_id
           then JObj [ ("id", json_of_opt property_id);
                       ("name", json_of_opt property_name) ]
           else JNull);
          ("facts", facts_data) ]))
  end.

(** [find_entity_facts] once the metadata is known: the optional property
    search, then the facts. *)
Definition facts_after_metadata (entity_name entity_id : string)
    (metadata : json) (property_name : option string) : M string :=
  match property_name with
  | Some pname =>
      if truthy pname then
        let property_id_json_str := search_wikidata_property pname in
        if match loads property_id_json_str with
           | Some property_id_data => has_key "error" property_id_data
           | None => false
           end
        then
          ret (dumps (JObj
            [ ("entity_found", metadata);
              ("error_searching_property",
               match loads property_id_json_str with
               | Some property_id_data => property_id_data
               | None => JNull
               end);
              ("suggestion", JStr ("Could not find property '" ++ pname
                  ++ "' while looking up facts for '" ++ entity_name ++ "'.")) ]))
        else fetch_facts entity_id metadata (Some property_id_json_str)
               property_name
      else fetch_facts entity_id metadata None property_name
  | None => fetch_facts entity_id metadata None property_name
  end.

(** [metadata[k] = v] *)
Definition set_item (k : string) (v : json) (d : json) : json :=
  match d with JObj m => JObj (dict_set k v m) | _ => d end.

Definition find_entity_facts (entity_name : string)
    (property_name : option string) : M string :=
  let entity_id_json_str := search_wikidata_entity entity_name in
  if match loads entity_id_json_str with
     | Some entity_id_data => has_key "error" entity_id_data
     | None => false
     end
  then ret entity_id_json_str
  else
    let entity_id := entity_id_json_str in
    let metadata_json_str := get_wikidata_metadata entity_id in
    match loads metadata_json_str with
    | None =>
        ret (dumps (obj3 "Failed to parse metadata response."
               metadata_json_str
               "Metadata service might have returned an unexpected format."))
    | Some metadata =>
        if has_key "error" metadata then
          ret (dumps (set_item "context"
                 (JStr ("Error fetching metadata for entity '" ++ entity_name
                        ++ "' (ID: " ++ entity_id ++ ")."))
                 metadata))
        else facts_after_metadata entity_name entity_id metadata property_name
    end.

(** The two query texts of [get_related_entities]. *)
Definition related_query_for (entity_id relation_property : string)
    (limit : Z) : string :=
  nl ++
  "        SELECT ?related ?relatedLabel" ++ nl ++
  "        WHERE {" ++ nl ++
  "          wd:" ++ entity_id ++ " wdt:" ++ relation_property ++ " ?related." ++ nl ++
  "          " ++ label_service_line ++ nl ++
  "        }" ++ nl ++
  "        LIMIT " ++ str_of_Z limit ++ nl ++
  "        ".

Definition related_query_general (entity_id : string) (limit : Z) : string :=
  nl ++
  "        # Find related entities: Apply LIMIT before fetching labels." ++ nl ++
  "        SELECT ?relation ?relationLabel ?related ?relatedLabel" ++ nl ++
  "        WHERE {" ++ nl ++
  "          {" ++ nl ++
  "            SELECT ?relation ?related" ++ nl ++
  "            WHERE {" ++ nl ++
  "              wd:" ++ entity_id ++ " ?p ?related." ++ nl ++
  "              ?property wikibase:directClaim ?p." ++ nl ++
  "              BIND(?property as ?relation)" ++ nl ++
  "              # Ensure ?related is a Wikidata entity" ++ nl ++
  "              FILTER(STRSTARTS(STR(?related), " ++ dquote "http://www.wikidata.org/entity/" ++ "))" ++ nl ++
  "            }" ++ nl ++
  "            LIMIT " ++ str_of_Z limit ++ nl ++
  "          }" ++ nl ++
  "          " ++ label_service_line ++ nl ++
  "        }" ++ nl ++
  "        ".

Definition get_related_entities (entity_id : string)
    (relation_property : option string) (limit : Z) : M string :=
  let sparql_query :=
    match relation_property with
    | Some rp =>
        if truthy rp then related_query_for entity_id rp limit
        else related_query_general entity_id limit
    | None => related_query_general entity_id limit
    end in
  related_entities_json_str <- execute_wikidata_sparql sparql_query ;;
  match loads related_entities_json_str with
  | None =>
      ret (dumps (JObj
        [ ("error", JStr "Failed to parse SPARQL result from internal call to execute_wikidata_sparql for related entities.");
          ("details", JStr "The response was not valid JSON.");
          ("context", JObj [ ("entity_id", JStr entity_id);
                             ("relation_property", json_of_opt relation_property);
                             ("query", JStr sparql_query) ]);
          ("suggestion", JStr "This indicates an internal issue with the server's SPARQL execution tool chain.") ]))
  | Some _ => ret related_entities_json_str
  end.

End Tools.

End Facade.

(* ================================================================== *)
(** ** Tool facade: the vocabulary of its specification *)
(* ================================================================== *)

Module FacadeSpec.
Import Py Json JsonSpec Executor Facade.

(** The result of a search function reports a failure: it starts with the
    prefix of the error message, or it is the message for an empty result
    list. *)
Definition search_failed (error_prefix nothing_found result : string)
  : bool :=
  startswith error_prefix result || (result =? nothing_found).

(** The output is the raw payload or an object that has the key [error]. *)
Definition payload_or_error (payload out : string) : Prop :=
  out = payload \/ error_object out.

(** A search function that finds the entity [Q937] for every name. *)
Definition finds_Q937 : string -> string := fun _ => "Q937".

(** A metadata lookup that knows a label for every entity. *)
Definition labelled : string -> list (string * json) :=
  fun _ => [ ("label", JStr "Albert Einstein");
             ("description", JStr "physicist") ].

End FacadeSpec.

(* ================================================================== *)
(** ** Tool facade: how the tools use the validator and the executor *)
(* ================================================================== *)

Module ToolFlowSpec.
Import Py Json JsonSpec Executor Validator Facade.

(** The object returned for a query that the validator rejects. *)
Definition validation_failure (error suggestion : string) : json :=
  obj3 "SPARQL query validation failed" error suggestion.

(** The object returned by [find_entity_facts] when it gets as far as the
    facts. *)
Definition facts_report (metadata property facts : json) : json :=
  JObj [ ("entity", metadata); ("property", property); ("facts", facts) ].

(** The object into which [execute_wikidata_sparql] turns an error
    reported by [execute_sparql]. *)
Definition execution_failure (message error_type query suggestion : json)
  : json :=
  JObj [ ("error", JStr "SPARQL query execution failed.");
         ("original_error_message", message);
         ("error_type", error_type);
         ("query", query);
         ("suggestion", suggestion) ].

(** The text parses as an object that has the key [error]:
    [isinstance(json.loads(s), dict) and "error" in json.loads(s)], and
    false when [json.loads] raises. *)
Definition reports_error (s : string) : bool :=
  match loads s with
  | Some d => has_key "error" d
  | None => false
  end.

(** The object returned by [find_entity_facts] when the metadata lookup
    reported the error [details] for the entity [entity_id] found for
    [entity_name]. *)
Definition metadata_failure (entity_name entity_id : string) (details : json)
  : json :=
  JObj [ ("error", JStr ("Failed to get metadata for entity ID '" ++ entity_id ++ "'."));
         ("details", details);
         ("suggestion", JStr "The entity ID might be invalid, the entity may not exist, or there could be an issue with the metadata service.");
         ("context", JStr ("Error fetching metadata for entity '" ++ entity_name
                           ++ "' (ID: " ++ entity_id ++ ").")) ].

(** A metadata lookup that fails for every entity. *)
Definition not_found : string -> list (string * json) :=
  fun entity_id => [ ("error", JStr ("Entity " ++ entity_id ++ " not found")) ].

End ToolFlowSpec.

(* ================================================================== *)
(** ** The wrappers of the Wikidata API ([search_entity],
       [search_property], [get_entity_metadata]) *)
(* ================================================================== *)

Module Api.
Import Py Json.

(** What the three calls [requests.get], [raise_for_status] and
    [response.json] of a wrapper give: the decoded body of the response,
    or a [RequestException] with its text [str(e)].  An exception of
    another class raised by these calls leaves the wrapper and is outside
    the model. *)
Inductive http_outcome : Type :=
| Body (data : json)
| RequestException (text : string).

(** The Wikidata API, by the parameters of the request. *)
Definition api : Type := list (string * string) -> http_outcome.

(** The exceptions that the expressions of the wrappers can raise on a
    body of an unexpected shape; the wrappers catch none of them. *)
Inductive error : Type :=
| KeyError
| TypeError
| IndexError
| AttributeError.

Inductive result (A : Type) : Type :=
| Return (a : A)
| Raise (e : error).
Arguments Return {A} a.
Arguments Raise {A} e.

Definition and_then {A B : Type} (r : result A) (k : A -> result B)
  : result B :=
  match r with
  | Return a => k a
  | Raise e => Raise e
  end.

(** [needle in v] for a string [needle]. *)
Definition py_contains (needle : string) (v : json) : result bool :=
  match v with
  | JObj d => Return (match assoc needle d with Some _ => true | None => false end)
  | JArr l =>
      Return (existsb (fun x => match x with
                                | JStr s => s =? needle
                                | _ => false
                                end) l)
  | JStr s => Return (contains needle s)
  | _ => Raise TypeError
  end.

(** [v[k]] for a string [k]. *)
Definition subscript (k : string) (v : json) : result json :=
  match v with
  | JObj d => match assoc k d with Some x => Return x | None => Raise KeyError end
  | _ => Raise TypeError
  end.

(** [v[0]]. *)
Definition subscript_0 (v : json) : result json :=
  match v with
  | JArr (x :: _) => Return x
  | JArr [] => Raise IndexError
  | JStr (String c _) => Return (JStr (String c ""))
  | JStr "" => Raise IndexError
  | JObj _ => Raise KeyError
  | _ => Raise TypeError
  end.

(** [len(v)]. *)
Definition py_len (v : json) : result nat :=
  match v with
  | JStr s => Return (String.length s)
  | JArr l => Return (List.length l)
  | JObj d => Return (List.length d)
  | _ => Raise TypeError
  end.

(** [v.get(k, default)]. *)
Definition get_method (k : string) (default : json) (v : json)
  : result json :=
  match v with
  | JObj d => Return (match assoc k d with Some x => x | None => default end)
  | _ => Raise AttributeError
  end.

(** The body of the [try] block of the two searches, after the request:
    the identifier of the first hit, or the text for an empty result. *)
Definition first_hit_id (nothing_found : string) (data : json)
  : result json :=
  and_then (py_contains "search" data) (fun has_search =>
  if has_search then
    and_then (subscript "search" data) (fun hits =>
    and_then (py_len hits) (fun n =>
    if (0 <? n)%nat then
      and_then (subscript_0 hits) (fun hit => subscript "id" hit)
    else Return (JStr nothing_found)))
  else Return (JStr nothing_found)).

Definition search_params (query kind : string) : list (string * string) :=
  [ ("action", "wbsearchentities"); ("format", "json"); ("language", "en");
    ("search", query); ("type", kind) ].

Definition search_entity (http : api) (query : string) : result json :=
  match http (search_params query "item") with
  | Body data => first_hit_id "No entity found" data
  | RequestException text =>
      Return (JStr ("Error searching for entity: " ++ text))
  end.

Definition search_property (http : api) (query : string) : result json :=
  match http (search_params query "property") with
  | Body data => first_hit_id "No property found" data
  | RequestException text =>
      Return (JStr ("Error searching for property: " ++ text))
  end.

Definition metadata_params (entity_id : string) : list (string * string) :=
  [ ("action", "wbgetentities"); ("format", "json"); ("ids", entity_id);
    ("languages", "en"); ("props", "labels|descriptions") ].

(** [entity.get(field, {}).get("en", {}).get("value", default)]. *)
Definition english_value (field default : string) (entity : json)
  : result json :=
  and_then (get_method field (JObj []) entity) (fun by_language =>
  and_then (get_method "en" (JObj []) by_language) (fun english =>
  get_method "value" (JStr default) english)).

Definition get_entity_metadata (http : api) (entity_id : string)
  : result (list (string * json)) :=
  match http (metadata_params entity_id) with
  | Body data =>
      and_then (py_contains "entities" data) (fun has_entities =>
      if has_entities then
        and_then (subscript "entities" data) (fun entities =>
        and_then (py_contains entity_id entities) (fun listed =>
        if listed then
          and_then (subscript entity_id entities) (fun entity =>
          and_then (english_value "labels" "No label found" entity)
            (fun label =>
          and_then (english_value "descriptions" "No description found" entity)
            (fun description =>
          Return [ ("id", JStr entity_id); ("label", label);
                   ("description", description) ])))
        else
          Return [ ("error", JStr ("Entity " ++ entity_id ++ " not found")) ]))
      else Return [ ("error", JStr ("Entity " ++ entity_id ++ " not found")) ])
  | RequestException text =>
      Return [ ("error", JStr ("Error retrieving entity metadata: " ++ text)) ]
  end.

End Api.

(* ================================================================== *)
(** ** The tools over the wrappers *)
(* ================================================================== *)

Module LiveTools.
Import Py Json Api Facade.

(** [search_wikidata_entity] with [search_entity] behind it: a result that
    is not a string fails both tests and is returned as it is. *)
Definition search_wikidata_entity (http : api) (query : string)
  : result json :=
  match Api.search_entity http query with
  | Return (JStr result) =>
      Return (JStr (Facade.search_wikidata_entity (fun _ => result) query))
  | Return result => Return result
  | Raise e => Raise e
  end.

Definition search_wikidata_property (http : api) (query : string)
  : result json :=
  match Api.search_property http query with
  | Return (JStr result) =>
      Return (JStr (Facade.search_wikidata_property (fun _ => result) query))
  | Return result => Return result
  | Raise e => Raise e
  end.

(** [get_wikidata_metadata] with [get_entity_metadata] behind it. *)
Definition get_wikidata_metadata (http : api) (entity_id : string)
  : result string :=
  match Api.get_entity_metadata http entity_id with
  | Return metadata =>
      Return (Facade.get_wikidata_metadata (fun _ => metadata) entity_id)
  | Raise e => Raise e
  end.

End LiveTools.

(* ================================================================== *)
(** ** The API wrappers: the vocabulary of their specification *)
(* ================================================================== *)

Module ApiSpec.
Import Py Json JsonSpec Api Facade.

(** The body is an object without hits: no key [search], or an empty
    list under it. *)
Definition no_hits (data : json) : Prop :=
  exists d, data = JObj d /\
    (assoc "search" d = None \/ assoc "search" d = Some (JArr [])).

(** The body is an object whose list of hits begins with [hit]. *)
Definition first_hit (data hit : json) : Prop :=
  exists d more, data = JObj d /\ assoc "search" d = Some (JArr (hit :: more)).

(** The error object of a tool: an error, its details and a suggestion. *)
Definition error_report (error details suggestion : string) : string :=
  dumps (obj3 error details suggestion).

(** The two shapes of the text returned by [get_wikidata_metadata]. *)
Definition metadata_error_text (entity_id : string) (details : json)
  : string :=
  dumps (JObj
    [ ("error", JStr ("Failed to get metadata for entity ID '" ++ entity_id ++ "'."));
      ("details", details);
      ("suggestion", JStr "The entity ID might be invalid, the entity may not exist, or there could be an issue with the metadata service.") ]).

Definition metadata_text (entity_id : string) (label description : json)
  : string :=
  dumps (JObj [ ("id", JStr entity_id); ("label", label);
                ("description", description) ]).

(** The body lists the entity [entity_id] as the object [entity]. *)
Definition lists_entity (data : json) (entity_id : string)
    (entity : list (string * json)) : Prop :=
  exists d entities,
    data = JObj d /\ assoc "entities" d = Some (JObj entities) /\
    assoc entity_id entities = Some (JObj entity).

(** The entity has no English text under [field]: the field is missing,
    or it is an object without the key [en], or the entry under [en] is
    an object without the key [value]. *)
Definition no_english (field : string) (entity : list (string * json))
  : Prop :=
  assoc field entity = None \/
  exists by_language,
    assoc field entity = Some (JObj by_language) /\
    (assoc "en" by_language = None \/
     exists english,
       assoc "en" by_language = Some (JObj english) /\
       assoc "value" english = None).

(** An API that answers every request with the same outcome. *)
Definition always (r : http_outcome) : api := fun _ => r.

End ApiSpec.

(* ================================================================== *)
(** * Properties of the string primitives *)
(* ================================================================== *)

Module PyFacts.
Import Py.

Lemma app_nil_r (s : string) : s ++ "" = s.
Proof. induction s; simpl; congruence. Qed.

Lemma app_assoc (a b c : string) : (a ++ b) ++ c = a ++ (b ++ c).
Proof. induction a; simpl; congruence. Qed.

Lemma length_app (a b : string) :
  String.length (a ++ b) = (String.length a + String.length b)%nat.
Proof. induction a; simpl; congruence. Qed.

Lemma app_inv_head (a b c : string) : a ++ b = a ++ c -> b = c.
Proof. induction a; simpl; intros H; [auto|inversion H; auto]. Qed.

Lemma app_eq_nil (a b : string) : a ++ b = "" -> a = "" /\ b = "".
Proof. destruct a; simpl; intros H; [auto|discriminate]. Qed.

(** *** [startswith], [contains], [endswith] against their meaning *)

Lemma startswith_spec (p s : string) :
  startswith p s = true <-> exists r, s = p ++ r.
Proof.
  revert s. induction p as [|a p IH]; intros s; simpl.
  - split; eauto.
  - destruct s as [|b s].
    + split; [discriminate|intros [r H]; discriminate].
    + rewrite andb_true_iff, Ascii.eqb_eq, IH. split.
      * intros [-> [r ->]]. eauto.
      * intros [r H]. inversion H; subst. eauto.
Qed.

Lemma startswith_app (p r : string) : startswith p (p ++ r) = true.
Proof. apply startswith_spec; eauto. Qed.

Lemma contains_spec (sub s : string) :
  contains sub s = true <-> exists pre post, s = pre ++ sub ++ post.
Proof.
  induction s as [|c s IH]; simpl.
  - rewrite orb_false_r, startswith_spec. split.
    + intros [r H]. exists "", r. exact H.
    + intros (pre & post & H). symmetry in H.
      apply app_eq_nil in H. destruct H as [-> H]. eauto.
  - rewrite orb_true_iff, startswith_spec, IH. split.
    + intros [[r H]|(pre & post & H)].
      * exists "", r. exact H.
      * exists (String c pre), post. simpl. congruence.
    + intros (pre & post & H). destruct pre as [|a pre]; simpl in H.
      * left; eauto.
      * inversion H; subst. right; eauto.
Qed.

Lemma endswith_nil (p : string) : endswith p "" = ("" =? p).
Proof. unfold endswith. apply orb_false_r. Qed.

Lemma endswith_cons (p : string) c s :
  endswith p (String c s) = (String c s =? p) || endswith p s.
Proof. reflexivity. Qed.

Lemma endswith_spec (p s : string) :
  endswith p s = true <-> exists r, s = r ++ p.
Proof.
  induction s as [|c s IH]; [rewrite endswith_nil|rewrite endswith_cons].
  - rewrite String.eqb_eq. split.
    + intros <-. exists "". reflexivity.
    + intros [r H]. symmetry in H. apply app_eq_nil in H. symmetry; tauto.
  - rewrite orb_true_iff, String.eqb_eq, IH. split.
    + intros [<-|[r ->]].
      * exists "". reflexivity.
      * exists (String c r). reflexivity.
    + intros [r H]. destruct r as [|a r]; simpl in H.
      * left; auto.
      * inversion H; subst. right; eauto.
Qed.

Lemma in_list_spec (x : string) (l : list string) :
  in_list x l = true <-> In x l.
Proof.
  unfold in_list. rewrite existsb_exists. split.
  - intros (y & Hy & E). apply String.eqb_eq in E. subst; auto.
  - intros H. exists x. split; auto. apply String.eqb_refl.
Qed.

(** *** Characters of a string *)


Lemma chars_app (a b : string) : chars (a ++ b) = (chars a ++ chars b)%list.
Proof. induction a; simpl; congruence. Qed.

Lemma contains_char (c : ascii) (s : string) :
  contains (String c "") s = true <-> In c (chars s).
Proof.
  induction s as [|a s IH]; simpl.
  - split; [discriminate|tauto].
  - rewrite orb_true_iff, IH, andb_true_r, Ascii.eqb_eq. split.
    + intros [->|H]; auto.
    + intros [->|H]; auto.
Qed.

(** *** [strip] *)


Lemma lstrip_decompose (s : string) :
  exists lead, s = lead ++ lstrip s /\ all_space lead.
Proof.
  induction s as [|c s (lead & H & A)]; simpl.
  - exists "". split; [reflexivity|constructor].
  - destruct (isspace c) eqn:E.
    + exists (String c lead). split; [simpl; congruence|].
      constructor; auto.
    + exists "". split; [reflexivity|constructor].
Qed.

Lemma rstrip_decompose (s : string) :
  exists trail, s = rstrip s ++ trail /\ all_space trail.
Proof.
  induction s as [|c s (trail & H & A)]; simpl.
  - exists "". split; [reflexivity|constructor].
  - destruct (rstrip s) as [|a r] eqn:R.
    + destruct (isspace c) eqn:E.
      * exists (String c trail). simpl in *. split; [congruence|].
        constructor; auto.
      * exists trail. simpl in *. split; [congruence|auto].
    + exists trail. simpl in *. split; [congruence|auto].
Qed.

Lemma strip_decompose (s : string) :
  exists lead trail,
    s = lead ++ strip s ++ trail /\ all_space lead /\ all_space trail.
Proof.
  destruct (lstrip_decompose s) as (lead & H & A).
  destruct (rstrip_decompose (lstrip s)) as (trail & K & B).
  exists lead, trail. unfold strip. rewrite <- K. auto.
Qed.

Lemma in_chars_strip (c : ascii) (s : string) :
  isspace c = false -> (In c (chars (strip s)) <-> In c (chars s)).
Proof.
  intros Hc. destruct (strip_decompose s) as (lead & trail & H & A & B).
  rewrite H at 2. rewrite !chars_app, !in_app_iff.
  unfold all_space in *. rewrite Forall_forall in A, B.
  split; [tauto|].
  intros [K|[K|K]]; auto.
  - apply A in K. congruence.
  - apply B in K. congruence.
Qed.

Lemma strip_nonempty (s : string) : strip s <> "" -> s <> "".
Proof. intros H ->. apply H. reflexivity. Qed.

(** *** [upper] *)

Lemma upper_app (a b : string) : upper (a ++ b) = upper a ++ upper b.
Proof. unfold upper. induction a; simpl; congruence. Qed.

Lemma upper_char_space (c : ascii) :
  Ascii.eqb (upper_char c) SP = Ascii.eqb c SP.
Proof.
  destruct c as [[] [] [] [] [] [] [] []]; reflexivity.
Qed.

(** *** [split1]: the text before the first separator *)


Lemma split1_nonempty sep s : split1 sep s <> [].
Proof.
  destruct s as [|c s]; simpl; [discriminate|].
  destruct (Ascii.eqb c sep); [discriminate|].
  destruct (split1 sep s); discriminate.
Qed.

Lemma first_word_cons sep c s :
  first_word sep (String c s) =
  if Ascii.eqb c sep then "" else String c (first_word sep s).
Proof.
  unfold first_word. simpl. destruct (Ascii.eqb c sep); [reflexivity|].
  destruct (split1 sep s) eqn:E; [|reflexivity].
  exfalso. eapply split1_nonempty; eauto.
Qed.

Lemma first_word_spec sep s w :
  first_word sep s = w <->
  exists rest, s = w ++ rest /\ ~ In sep (chars w) /\
               (rest = "" \/ exists r, rest = String sep r).
Proof.
  revert w. induction s as [|c s IH]; intros w.
  - unfold first_word; simpl. split.
    + intros <-. exists "". simpl. tauto.
    + intros (rest & H & _). symmetry in H. apply app_eq_nil in H.
      symmetry; tauto.
  - rewrite first_word_cons. destruct (Ascii.eqb c sep) eqn:E.
    + apply Ascii.eqb_eq in E. subst c. split.
      * intros <-. exists (String sep s). simpl. split; auto.
        split; [tauto|]. right; eauto.
      * intros (rest & H & N & _). destruct w as [|a w]; [reflexivity|].
        simpl in H. inversion H; subst. exfalso. apply N. simpl; auto.
    + apply Ascii.eqb_neq in E. split.
      * intros <-. destruct (proj1 (IH _) eq_refl) as (rest & H & N & R).
        exists rest. split; [simpl; congruence|]. split; auto.
        simpl. intros [K|K]; auto.
      * intros (rest & H & N & R). destruct w as [|a w].
        { simpl in H. destruct R as [->|[r ->]]; [discriminate|].
          inversion H; subst. congruence. }
        simpl in H. inversion H; subst. f_equal. apply IH.
        exists rest. split; auto. split; auto.
        intros K. apply N. simpl; auto.
Qed.

Lemma first_word_upper (s : string) :
  first_word SP (upper s) = upper (first_word SP s).
Proof.
  induction s as [|c s IH]; [reflexivity|].
  change (upper (String c s)) with (String (upper_char c) (upper s)).
  rewrite !first_word_cons, upper_char_space.
  destruct (Ascii.eqb c SP); [reflexivity|].
  rewrite IH. reflexivity.
Qed.

End PyFacts.

(* ================================================================== *)
(** * Properties of the sanitizer and of the prefix injector *)
(* ================================================================== *)

Module SanitizerProofs.
Import Py PyFacts Sanitizer SanitizerSpec.

(** The decision of the loop body, written out. *)
Lemma keep_line_unfold (line : string) :
  keep_line line =
  let st := strip line in
  negb ((st =? "") || startswith "#" st) &&
  (in_list (first_word SP (upper st)) allowed_keywords
   || existsb (fun c => contains c st) structural_chars
   || ((contains "wd:" st || contains "wdt:" st || contains "rdf:" st
        || contains ":" st || contains "?" st) && endswith "." st)).
Proof.
  unfold keep_line, sanitize_step. cbv zeta.
  destruct ((strip line =? "") || startswith "#" (strip line)); [reflexivity|].
  cbn [negb andb].
  destruct (in_list _ allowed_keywords); [reflexivity|].
  destruct (existsb _ structural_chars); [reflexivity|].
  cbn [orb].
  destruct ((_ || _) && _); reflexivity.
Qed.

Lemma sanitize_step_keep (acc : list string) (line : string) :
  sanitize_step acc line =
  (if keep_line line then acc ++ [line] else acc)%list.
Proof.
  unfold keep_line, sanitize_step. cbv zeta.
  destruct ((strip line =? "") || startswith "#" (strip line)); [reflexivity|].
  destruct (in_list _ allowed_keywords); [reflexivity|].
  destruct (existsb _ structural_chars); [reflexivity|].
  destruct ((_ || _) && _); reflexivity.
Qed.

Lemma fold_sanitize_step (lines acc : list string) :
  fold_left sanitize_step lines acc = (acc ++ filter keep_line lines)%list.
Proof.
  revert acc. induction lines as [|l lines IH]; intros acc; simpl.
  - symmetry. apply List.app_nil_r.
  - rewrite IH, sanitize_step_keep.
    destruct (keep_line l); [rewrite <- List.app_assoc|]; reflexivity.
Qed.

Lemma filtered_query_lines_filter (q : string) :
  filtered_query_lines q = filter keep_line (splitlines q).
Proof. unfold filtered_query_lines. apply fold_sanitize_step. Qed.

(** *** The three rules against their meaning *)

Lemma skipped_spec (line : string) :
  (strip line =? "") || startswith "#" (strip line) = true <-> skipped line.
Proof.
  unfold skipped, StartsWith.
  rewrite orb_true_iff, String.eqb_eq, startswith_spec. tauto.
Qed.

Lemma keyword_token_spec (line : string) :
  in_list (first_word SP (upper (strip line))) allowed_keywords = true
  <-> keyword_token line.
Proof.
  rewrite in_list_spec, first_word_upper. unfold keyword_token. split.
  - intros H.
    destruct (proj1 (first_word_spec SP (strip line) _) eq_refl)
      as (rest & E & N & R).
    exists (first_word SP (strip line)), rest. auto.
  - intros (w & rest & E & N & R & K).
    assert (first_word SP (strip line) = w) as ->; [|exact K].
    apply first_word_spec. eauto.
Qed.

Lemma Contains_char (c : ascii) (s : string) :
  Contains (String c "") s <-> In c (chars s).
Proof. unfold Contains. rewrite <- contains_spec. apply contains_char. Qed.

Lemma Contains_strip_char (c : ascii) (line : string) :
  isspace c = false ->
  (contains (String c "") (strip line) = true <-> Contains (String c "") line).
Proof.
  intros H. rewrite contains_char, Contains_char. apply in_chars_strip, H.
Qed.

Lemma structural_char_spec (line : string) :
  existsb (fun c => contains c (strip line)) structural_chars = true
  <-> has_structural_char line.
Proof.
  unfold has_structural_char. rewrite existsb_exists.
  split; intros (c & Hin & H); exists c; (split; [exact Hin|]);
    simpl in Hin;
    destruct Hin as [<-|[<-|[<-|[<-|[]]]]];
    apply Contains_strip_char in H || apply Contains_strip_char;
    auto.
Qed.

Lemma Contains_last_char (a : string) (c : ascii) (s : string) :
  Contains (a ++ String c "") s -> In c (chars s).
Proof.
  intros (pre & post & ->). rewrite !chars_app, !in_app_iff.
  right; left; right. simpl; auto.
Qed.

Lemma marker_spec (line : string) :
  contains "wd:" (strip line) || contains "wdt:" (strip line)
  || contains "rdf:" (strip line) || contains ":" (strip line)
  || contains "?" (strip line) = true
  <->
  (Contains "wd:" line \/ Contains "wdt:" line \/ Contains "rdf:" line \/
   Contains ":" line \/ Contains "?" line).
Proof.
  assert (Hc : isspace ":" = false) by reflexivity.
  assert (Hq : isspace "?" = false) by reflexivity.
  transitivity (In ":"%char (chars line) \/ In "?"%char (chars line)).
  - rewrite !orb_true_iff.
    rewrite (@Contains_strip_char _ line Hc), (@Contains_strip_char _ line Hq).
    rewrite !Contains_char, !contains_spec.
    split; [|tauto].
    intros [[[[H|H]|H]|H]|H]; auto; left;
      apply (@in_chars_strip _ line Hc).
    + apply (@Contains_last_char "wd" ":"%char), H.
    + apply (@Contains_last_char "wdt" ":"%char), H.
    + apply (@Contains_last_char "rdf" ":"%char), H.
  - rewrite <- !Contains_char. split; [tauto|].
    intros [H|[H|[H|[H|H]]]]; auto; left; apply Contains_char.
    + apply (@Contains_last_char "wd" ":"%char), H.
    + apply (@Contains_last_char "wdt" ":"%char), H.
    + apply (@Contains_last_char "rdf" ":"%char), H.
Qed.

Lemma keep_line_spec (line : string) :
  keep_line line = true <-> retained line.
Proof.
  rewrite keep_line_unfold. cbv zeta. unfold retained, looks_like_triple.
  rewrite andb_true_iff, negb_true_iff, !orb_true_iff, andb_true_iff.
  rewrite keyword_token_spec, structural_char_spec, marker_spec.
  unfold EndsWith. rewrite endswith_spec.
  rewrite <- skipped_spec.
  destruct ((strip line =? "") || startswith "#" (strip line));
    intuition congruence.
Qed.

Lemma keep_line_nonempty (line : string) : keep_line line = true -> line <> "".
Proof.
  intros H. apply keep_line_spec in H. destruct H as [H _].
  intros ->. apply H. left. reflexivity.
Qed.

(** *** [splitlines] and [join] *)

Lemma splitlines_from_no_linebreak (s : string) :
  forall after_cr, Forall no_linebreak (splitlines_from after_cr s).
Proof.
  induction s as [|c s IH]; intros after_cr; simpl; [constructor|].
  destruct (after_cr && Ascii.eqb c LF); [apply IH|].
  destruct (is_linebreak c) eqn:E.
  - constructor; [constructor|apply IH].
  - specialize (IH false). destruct (splitlines_from false s) as [|l rest].
    + constructor; [|constructor]. constructor; [exact E|constructor].
    + inversion IH; subst. constructor; [|assumption].
      constructor; assumption.
Qed.

Lemma splitlines_line_then_newline (l t : string) :
  no_linebreak l ->
  splitlines_from false (l ++ String LF t) = l :: splitlines_from false t.
Proof.
  induction l as [|c l IH]; intros H.
  - reflexivity.
  - inversion H as [|? ? Hc Hl]; subst.
    cbn [append splitlines_from andb]. rewrite Hc, (IH Hl). reflexivity.
Qed.

Lemma splitlines_single_line (l : string) :
  no_linebreak l -> l <> "" -> splitlines_from false l = [l].
Proof.
  induction l as [|c l IH]; intros H N; [congruence|].
  inversion H as [|? ? Hc Hl]; subst.
  cbn [splitlines_from andb]. rewrite Hc.
  destruct l as [|d l]; [reflexivity|].
  rewrite (IH Hl) by discriminate. reflexivity.
Qed.

Lemma join_cons2 (sep a b : string) (ls : list string) :
  join sep (a :: b :: ls) = a ++ sep ++ join sep (b :: ls).
Proof. reflexivity. Qed.

Lemma splitlines_join (ls : list string) :
  Forall no_linebreak ls -> Forall (fun l => l <> "") ls ->
  splitlines (join nl ls) = ls.
Proof.
  unfold splitlines. induction ls as [|a ls IH]; intros H N; [reflexivity|].
  inversion H; inversion N; subst.
  destruct ls as [|b ls].
  - apply splitlines_single_line; assumption.
  - rewrite join_cons2. unfold nl at 1. cbn [append].
    rewrite splitlines_line_then_newline by assumption.
    f_equal. apply IH; assumption.
Qed.

Lemma join_app (sep : string) (xs ys : list string) :
  xs <> [] -> ys <> [] ->
  join sep (xs ++ ys) = join sep xs ++ sep ++ join sep ys.
Proof.
  intros Hx Hy. induction xs as [|a xs IH]; [congruence|].
  destruct xs as [|b xs].
  - destruct ys; [congruence|]. reflexivity.
  - cbn [app]. rewrite !join_cons2, PyFacts.app_assoc. f_equal.
    rewrite PyFacts.app_assoc. f_equal. apply IH. discriminate.
Qed.

Lemma join_eq_nil (ls : list string) :
  Forall (fun l => l <> "") ls -> (join nl ls = "" <-> ls = []).
Proof.
  intros N. split; [|intros ->; reflexivity].
  destruct ls as [|a ls]; [reflexivity|]. inversion N; subst.
  destruct ls as [|b ls]; simpl.
  - congruence.
  - intros H. apply app_eq_nil in H. tauto.
Qed.

(** The retained lines carry no line boundary and are not blank. *)
Lemma filtered_lines_no_linebreak (q : string) :
  Forall no_linebreak (filtered_query_lines q).
Proof.
  rewrite filtered_query_lines_filter.
  apply Forall_forall. intros l H. apply filter_In in H.
  pose proof (splitlines_from_no_linebreak q false) as A.
  rewrite Forall_forall in A. apply A. apply H.
Qed.

Lemma filtered_lines_kept (q : string) :
  Forall (fun l => keep_line l = true) (filtered_query_lines q).
Proof.
  rewrite filtered_query_lines_filter.
  apply Forall_forall. intros l H. apply filter_In in H. apply H.
Qed.

Lemma filtered_lines_nonempty (q : string) :
  Forall (fun l => l <> "") (filtered_query_lines q).
Proof.
  eapply Forall_impl; [|apply filtered_lines_kept].
  intros l. apply keep_line_nonempty.
Qed.

Lemma filter_all_true {A} (f : A -> bool) (l : list A) :
  Forall (fun x => f x = true) l -> filter f l = l.
Proof.
  induction 1 as [|x l Hx _ IH]; simpl; [reflexivity|].
  rewrite Hx, IH. reflexivity.
Qed.

(** C5 (as amended).  The sanitizer keeps the lines of the input in order,
    joined by line feeds, and a line is kept exactly when it is neither
    blank nor a comment and (a) the text of its stripped form before the
    first space character, uppercased, is one of the keywords, or (b) it
    contains one of the four structural characters, or (c) it contains a
    colon or a question mark (in particular [wd:], [wdt:], [rdf:]) and its
    stripped form ends with a period. *)
Theorem sanitizer_keeps_exactly (q : string) :
  filtered_query_lines q = filter keep_line (splitlines q) /\
  sanitize q = join nl (filter keep_line (splitlines q)) /\
  (forall line, keep_line line = true <-> retained line).
Proof.
  split; [apply filtered_query_lines_filter|].
  split; [|apply keep_line_spec].
  unfold sanitize, processed_query. rewrite filtered_query_lines_filter.
  reflexivity.
Qed.

(** C5 as stated fails: the line [SELECT<TAB>?x] has the first
    whitespace-delimited token [SELECT], a keyword, and yet the sanitizer
    drops it, because the code ends the first word at a space character
    only. *)
Lemma tab_separated_keyword_line_dropped :
  retained_as_claimed ("SELECT" ++ tab ++ "?x") /\
  keep_line ("SELECT" ++ tab ++ "?x") = false /\
  sanitize ("SELECT" ++ tab ++ "?x") = "".
Proof.
  split; [|split; reflexivity].
  split.
  - intros [H|[r H]]; vm_compute in H; discriminate.
  - left. exists "SELECT", (tab ++ "?x"). split; [reflexivity|].
    split.
    + intros c H. simpl in H.
      destruct H as [<-|[<-|[<-|[<-|[<-|[<-|[]]]]]]]; reflexivity.
    + split.
      * right. exists TAB, "?x". split; reflexivity.
      * simpl. tauto.
Qed.

(** C9.  Sanitizing is idempotent. *)
Theorem sanitize_idempotent (q : string) :
  sanitize (sanitize q) = sanitize q.
Proof.
  unfold sanitize, processed_query at 1.
  rewrite (filtered_query_lines_filter (processed_query q)).
  unfold processed_query.
  rewrite splitlines_join
    by (apply filtered_lines_no_linebreak || apply filtered_lines_nonempty).
  rewrite filter_all_true by apply filtered_lines_kept.
  reflexivity.
Qed.

(** *** The prefix injector *)

Lemma upper_split (s a b : string) :
  upper s = a ++ b ->
  exists p r, s = p ++ r /\ upper p = a /\ upper r = b.
Proof.
  revert s. induction a as [|c a IH]; intros s H.
  - exists "", s. auto.
  - destruct s as [|d s]; [discriminate|].
    unfold upper in H. simpl in H. inversion H as [[Hc Hs]].
    destruct (IH s Hs) as (p & r & -> & Hp & Hr).
    exists (String d p), r. repeat split; auto.
    unfold upper in *. simpl. rewrite Hp. reflexivity.
Qed.

Lemma starts_with_prefix_kw_spec (line : string) :
  starts_with_prefix_kw line = true <-> prefix_declaration line.
Proof.
  unfold starts_with_prefix_kw, prefix_declaration.
  rewrite startswith_spec. split.
  - intros [r H]. destruct (upper_split _ _ _ H) as (p & r' & E & Hp & _).
    eauto.
  - intros (p & r & E & Hp). exists (upper r).
    rewrite E, upper_app, Hp. reflexivity.
Qed.

Lemma existsb_filter_same {A} (f : A -> bool) (l : list A) :
  existsb f (filter f l) = existsb f l.
Proof.
  induction l as [|x l IH]; simpl; [reflexivity|].
  destruct (f x) eqn:E; simpl; rewrite ?E, IH; reflexivity.
Qed.

Lemma kept_line_not_blank (l : string) :
  keep_line l = true -> truthy (strip l) = true.
Proof.
  intros H. apply keep_line_spec in H. destruct H as [H _].
  unfold truthy. apply negb_true_iff, String.eqb_neq.
  intros E. apply H. left. exact E.
Qed.

(** On retained lines, the test of the source is the condition of the
    specification. *)
Lemma injection_test_spec (lines : list string) :
  Forall (fun l => keep_line l = true) lines ->
  (truthy (join nl lines) && has_non_prefix_lines lines
   && negb (has_prefix_line lines) = true
   <-> injection_due lines).
Proof.
  intros K. unfold injection_due, has_non_prefix_lines, has_prefix_line.
  rewrite existsb_filter_same.
  rewrite (filter_all_true (fun line => truthy (strip line)))
    by (eapply Forall_impl; [|exact K]; apply kept_line_not_blank).
  rewrite !andb_true_iff, negb_true_iff.
  unfold truthy. rewrite negb_true_iff, String.eqb_neq.
  rewrite existsb_exists.
  assert (Hno : existsb starts_with_prefix_kw lines = false <->
                forall l, In l lines -> ~ prefix_declaration l).
  { rewrite <- not_true_iff_false, existsb_exists. split.
    - intros H l Hl P. apply H. exists l. split; auto.
      apply starts_with_prefix_kw_spec, P.
    - intros H (l & Hl & P). apply (H l Hl).
      apply starts_with_prefix_kw_spec, P. }
  rewrite Hno. split.
  - intros [[A (l & Hl & B)] C]. split; [exact A|split; [|exact C]].
    exists l. split; [exact Hl|apply (C l Hl)].
  - intros (A & (l & Hl & B) & C). split; [split; [exact A|]|exact C].
    exists l. split; auto. apply negb_true_iff, not_true_iff_false.
    intros P. apply B, starts_with_prefix_kw_spec, P.
Qed.

Lemma strip_prefixes : strip prefixes = standard_prefix_block.
Proof. vm_compute. reflexivity. Qed.

Lemma prefix_block_join : standard_prefix_block = join nl prefix_block_lines.
Proof. vm_compute. reflexivity. Qed.

Lemma prefix_block_lines_ok :
  Forall no_linebreak prefix_block_lines /\
  Forall (fun l => l <> "") prefix_block_lines /\
  filter starts_with_prefix_kw prefix_block_lines = prefix_block_lines.
Proof.
  split; [|split].
  - unfold no_linebreak.
    repeat (constructor; [vm_compute; repeat constructor|]). constructor.
  - repeat (constructor; [discriminate|]). constructor.
  - vm_compute. reflexivity.
Qed.

Lemma filter_none {A} (f : A -> bool) (l : list A) :
  (forall x, In x l -> f x = false) -> filter f l = [].
Proof.
  induction l as [|x l IH]; intros H; simpl; [reflexivity|].
  rewrite (H x) by (simpl; auto). apply IH. intros y Hy. apply H. simpl; auto.
Qed.

(** C6.  On the lines retained by the sanitizer, the standard prefix block
    is prepended (once: the result then has exactly the six PREFIX lines
    of the block) if and only if the sanitized text is not empty, some
    retained line is not a PREFIX declaration and no retained line starts
    with PREFIX in any letter case; otherwise the sanitized text goes
    through unchanged, in particular whenever a retained line is a PREFIX
    declaration. *)
Theorem prefix_block_prepended_iff (q : string) :
  let lines := filtered_query_lines q in
  let text := sanitize q in
  (injection_due lines <->
   full_query q = standard_prefix_block ++ nl ++ text) /\
  (injection_due lines -> count_prefix_lines (full_query q) = 6%nat) /\
  (~ injection_due lines -> full_query q = text) /\
  ((exists l, In l lines /\ prefix_declaration l) -> full_query q = text).
Proof.
  cbv zeta. unfold sanitize, processed_query, full_query, inject_prefixes.
  cbv zeta.
  pose proof (injection_test_spec (filtered_lines_kept q)) as T.
  set (lines := filtered_query_lines q) in *.
  rewrite strip_prefixes.
  destruct (truthy (join nl lines) && has_non_prefix_lines lines
            && negb (has_prefix_line lines)) eqn:E.
  - assert (D : injection_due lines) by (apply T; reflexivity).
    split; [tauto|]. split; [|split].
    + intros _. unfold count_prefix_lines.
      destruct prefix_block_lines_ok as (B1 & B2 & B3).
      assert (Hl : lines <> []).
      { destruct D as (N & _). intros L. apply N. rewrite L. reflexivity. }
      rewrite prefix_block_join, <- join_app by (auto; discriminate).
      rewrite splitlines_join.
      * rewrite filter_app, B3, filter_none, List.app_nil_r; [reflexivity|].
        intros l Hl'. apply not_true_iff_false. intros P.
        destruct D as (_ & _ & C). apply (C l Hl').
        apply starts_with_prefix_kw_spec, P.
      * apply Forall_app. split; [exact B1|].
        apply filtered_lines_no_linebreak.
      * apply Forall_app. split; [exact B2|].
        apply filtered_lines_nonempty.
    + tauto.
    + intros (l & Hl & P). destruct D as (_ & _ & C).
      exfalso. apply (C l Hl P).
  - assert (D : ~ injection_due lines).
    { intros D. apply T in D. congruence. }
    split; [|tauto]. split; [tauto|].
    intros H. exfalso.
    apply (f_equal String.length) in H.
    rewrite !length_app in H. simpl in H. lia.
Qed.

Lemma prefix_block_prepended_iff_witness :
  full_query "ASK { wd:Q42 ?p ?o . }" =
  standard_prefix_block ++ nl ++ sanitize "ASK { wd:Q42 ?p ?o . }"
  /\ count_prefix_lines (full_query "ASK { wd:Q42 ?p ?o . }") = 6%nat.
Proof.
  pose proof (prefix_block_prepended_iff "ASK { wd:Q42 ?p ?o . }") as H.
  cbv zeta in H. destruct H as (H1 & H2 & _).
  assert (D : injection_due (filtered_query_lines "ASK { wd:Q42 ?p ?o . }")).
  { apply (injection_test_spec (filtered_lines_kept _)). reflexivity. }
  split; [apply H1, D|apply H2, D].
Defined.

End SanitizerProofs.

(* ================================================================== *)
(** * Properties of the executor *)
(* ================================================================== *)

Module ExecutorProofs.
Import Py Json Sanitizer Executor ExecutorSpec.

Section Run.
Variable ep : endpoint.
Variable q : string.

Lemma retry_loop_success a rest b w results :
  succeeds ep q a results ->
  retry_loop ep q (a :: rest) b w = (results, after_call ep q a w).
Proof.
  unfold succeeds, after_call. intros H. simpl. unfold bind, call_endpoint.
  rewrite H. reflexivity.
Qed.

Lemma retry_loop_bad_formed a rest b w e :
  fails_bad_formed ep q a e ->
  retry_loop ep q (a :: rest) b w =
  (bad_formed_details q e, after_failure ep q a e w).
Proof.
  unfold fails_bad_formed, after_failure, after_call, details_at.
  intros [H K]. simpl.
  unfold bind, call_endpoint. rewrite H, K. reflexivity.
Qed.

Lemma retry_loop_retry a rest b w e :
  fails_retryably ep q a e -> (a < MAX_RETRIES - 1)%nat ->
  retry_loop ep q (a :: rest) b w =
  retry_loop ep q rest (b * 2) (snd (sleep b (after_failure ep q a e w))).
Proof.
  unfold fails_retryably, after_failure, after_call, details_at.
  intros [H K] L.
  apply Nat.ltb_lt in L. simpl.
  unfold bind, call_endpoint. rewrite H.
  destruct (exc_kind e); try discriminate; simpl in *; rewrite L; reflexivity.
Qed.

Lemma retry_loop_give_up a rest b w e :
  fails_retryably ep q a e -> ~ (a < MAX_RETRIES - 1)%nat ->
  retry_loop ep q (a :: rest) b w =
  (details_at q a e, after_failure ep q a e w).
Proof.
  unfold fails_retryably, after_failure, after_call, details_at.
  intros [H K] L.
  apply Nat.ltb_nlt in L. simpl.
  unfold bind, call_endpoint. rewrite H.
  destruct (exc_kind e); try discriminate; simpl in *; rewrite L; reflexivity.
Qed.

(** Every attempt ends in one of three ways. *)
Lemma attempt_cases a :
  (exists r, succeeds ep q a r) \/
  (exists e, fails_bad_formed ep q a e) \/
  (exists e, fails_retryably ep q a e).
Proof.
  unfold succeeds, fails_bad_formed, fails_retryably.
  destruct (reply (ep a (full_query q))) as [r|e] eqn:E.
  - left; eauto.
  - destruct (exc_kind e) eqn:K.
    + right; right. exists e. rewrite K. auto.
    + right; right. exists e. rewrite K. auto.
    + right; left. eauto.
    + right; right. exists e. rewrite K. auto.
Qed.

(** The effects of an attempt and of a handler on the observable state. *)
Lemma after_call_starts a w :
  attempt_starts (after_call ep q a w) = (attempt_starts w ++ [now w])%list.
Proof. reflexivity. Qed.

Lemma after_call_sleeps a w : sleeps (after_call ep q a w) = sleeps w.
Proof. reflexivity. Qed.

Lemma after_call_now a w : (now w <= now (after_call ep q a w))%N.
Proof. unfold after_call, call_endpoint; simpl. lia. Qed.

Lemma after_failure_starts a e w :
  attempt_starts (after_failure ep q a e w) = (attempt_starts w ++ [now w])%list.
Proof. reflexivity. Qed.

Lemma after_failure_sleeps a e w : sleeps (after_failure ep q a e w) = sleeps w.
Proof. reflexivity. Qed.

Lemma after_failure_now a e w : (now w <= now (after_failure ep q a e w))%N.
Proof. unfold after_failure, print_details; simpl. apply after_call_now. Qed.

Lemma loop_effects_single n b w0 w :
  (1 <= n)%nat ->
  attempt_starts w = (attempt_starts w0 ++ [now w0])%list ->
  sleeps w = sleeps w0 ->
  loop_effects n b w0 w.
Proof.
  intros Hn Hs Hz. exists [now w0]. simpl. repeat split; auto.
  - rewrite Hz, app_nil_r. reflexivity.
  - intros j Hj. assert (j = 0)%nat by lia. subst. simpl. lia.
Qed.

Lemma retry_loop_effects :
  forall n a b w0,
    (a + n = MAX_RETRIES)%nat -> (1 <= n)%nat ->
    loop_effects n b w0 (snd (retry_loop ep q (seq a n) b w0)).
Proof.
  induction n as [|n IH]; intros a b w0 Han Hn; [lia|].
  cbn [seq].
  destruct (attempt_cases a) as [[r Hr]|[[e He]|[e He]]].
  - rewrite (retry_loop_success _ _ _ Hr). apply loop_effects_single; auto.
  - rewrite (retry_loop_bad_formed _ _ _ He). apply loop_effects_single; auto.
  - destruct (Nat.lt_ge_cases a (MAX_RETRIES - 1)) as [Hlt|Hge].
    + rewrite (retry_loop_retry _ _ _ He Hlt).
      set (w1 := snd (sleep b (after_failure ep q a e w0))).
      assert (Hn' : (1 <= n)%nat) by (unfold MAX_RETRIES in *; lia).
      destruct (IH (S a) (b * 2)%N w1 ltac:(lia) Hn')
        as (starts & Hst & Hlen & Hsl & _ & Hlow).
      exists (now w0 :: starts).
      assert (Hw1s : attempt_starts w1 = (attempt_starts w0 ++ [now w0])%list)
        by reflexivity.
      assert (Hw1z : sleeps w1 = (sleeps w0 ++ [b])%list) by reflexivity.
      assert (Hw1n : (now w0 + b <= now w1)%N).
      { unfold w1, sleep; simpl.
        pose proof (after_failure_now a e w0). lia. }
      repeat split.
      * rewrite Hst, Hw1s, <- app_assoc. reflexivity.
      * simpl; lia.
      * simpl; lia.
      * rewrite Hsl, Hw1z, <- app_assoc. f_equal.
        simpl List.length. rewrite Nat.sub_succ, Nat.sub_0_r.
        destruct (List.length starts) as [|k] eqn:Hk; [lia|].
        rewrite Nat.sub_succ, Nat.sub_0_r.
        cbn [seq map app]. f_equal.
        { simpl. lia. }
        rewrite <- seq_shift, map_map. apply map_ext. intros i.
        rewrite Nat2N.inj_succ, N.pow_succ_r'. lia.
      * intros [|j] Hj.
        { simpl. lia. }
        cbn [nth List.length] in *.
        specialize (Hlow j ltac:(lia)).
        assert (Hp : (1 <= 2 ^ N.of_nat j)%N).
        { pose proof (N.pow_nonzero 2 (N.of_nat j)). lia. }
        rewrite Nat2N.inj_succ, N.pow_succ_r'. nia.
    + rewrite (retry_loop_give_up _ _ _ He ltac:(lia)).
      apply loop_effects_single; auto.
Qed.

(** The run of [execute_sparql] from the initial state. *)
Lemma execute_sparql_effects :
  loop_effects MAX_RETRIES INITIAL_BACKOFF initial_world
    (snd (run (execute_sparql_outcome ep q))).
Proof.
  unfold run, execute_sparql_outcome.
  apply retry_loop_effects; unfold MAX_RETRIES; lia.
Qed.

Lemma execute_sparql_world :
  snd (run (execute_sparql ep q)) = snd (run (execute_sparql_outcome ep q)).
Proof.
  unfold run, execute_sparql, bind, ret.
  destruct (execute_sparql_outcome ep q initial_world). reflexivity.
Qed.

Lemma execute_sparql_value :
  fst (run (execute_sparql ep q)) =
  dumps (fst (run (execute_sparql_outcome ep q))).
Proof.
  unfold run, execute_sparql, bind, ret.
  destruct (execute_sparql_outcome ep q initial_world). reflexivity.
Qed.

(** The run in which the first two attempts fail and are retried. *)
Lemma two_retries e0 e1 :
  fails_retryably ep q 0 e0 -> fails_retryably ep q 1 e1 ->
  run (execute_sparql_outcome ep q) =
  retry_loop ep q [2%nat] 4
    (snd (sleep 2 (after_failure ep q 1 e1
       (snd (sleep 1 (after_failure ep q 0 e0 initial_world)))))).
Proof.
  intros H0 H1. unfold run, execute_sparql_outcome.
  cbn [seq MAX_RETRIES].
  rewrite (retry_loop_retry _ _ _ H0) by (unfold MAX_RETRIES; lia).
  rewrite (retry_loop_retry _ _ _ H1) by (unfold MAX_RETRIES; lia).
  reflexivity.
Qed.

End Run.

(** C2 (as amended).  When all three attempts fail with a retryable error,
    [execute_sparql] returns the error details of the third failure: the
    [error_type] is the class name of the last exception (the
    [MaxRetriesExceeded] object after the loop is not what is returned),
    the [error] text is the last exception's message behind the attempt
    tag 3/3, three attempts were made and the sleeps were 1 s and 2 s. *)
Theorem exhausted_retries_return_last_error
    (ep : endpoint) (q : string) (e0 e1 e2 : exception) :
  fails_retryably ep q 0 e0 ->
  fails_retryably ep q 1 e1 ->
  fails_retryably ep q 2 e2 ->
  let v := fst (run (execute_sparql_outcome ep q)) in
  let w := snd (run (execute_sparql_outcome ep q)) in
  v = details_at q 2 e2 /\
  outcome_error_type v = Some (JStr (type_name (exc_kind e2))) /\
  outcome_error v =
    Some (JStr (headline (exc_kind e2) ++ "(attempt 3/3): " ++ exc_str e2)) /\
  fst (run (execute_sparql ep q)) = dumps (details_at q 2 e2) /\
  attempts_made w = 3%nat /\
  sleeps w = [1%N; 2%N].
Proof.
  intros H0 H1 H2. cbv zeta.
  rewrite execute_sparql_value, (two_retries H0 H1).
  rewrite (retry_loop_give_up _ _ _ H2) by (unfold MAX_RETRIES; lia).
  cbn [fst snd].
  repeat split.
  - destruct H2 as [_ K].
    unfold details_at, transient_details, unexpected_details, error_details.
    destruct (exc_kind e2); try discriminate; reflexivity.
  - destruct H2 as [_ K].
    unfold details_at, transient_details, unexpected_details, error_details.
    destruct (exc_kind e2); try discriminate; reflexivity.
Qed.

Lemma exhausted_retries_return_last_error_witness :
  outcome_error_type
    (fst (run (execute_sparql_outcome (always_failing ConnectionError) "ASK {}")))
  = Some (JStr "ConnectionError").
Proof.
  pose proof (@exhausted_retries_return_last_error
    (always_failing ConnectionError) "ASK {}"
    (mkException ConnectionError "down" "")
    (mkException ConnectionError "down" "")
    (mkException ConnectionError "down" "")) as H.
  cbv zeta in H.
  destruct H as (_ & H & _).
  - split; reflexivity.
  - split; reflexivity.
  - split; reflexivity.
  - exact H.
Defined.

(** C2 as stated fails: with an endpoint that times out on every call all
    three attempts fail with a retryable error, and the outcome's error
    kind is [Timeout], not [MaxRetriesExceeded]. *)
Lemma exhausted_retries_not_MaxRetriesExceeded :
  (fails_retryably (always_failing Timeout) "ASK {}" 0 (mkException Timeout "down" "") /\
   fails_retryably (always_failing Timeout) "ASK {}" 1 (mkException Timeout "down" "") /\
   fails_retryably (always_failing Timeout) "ASK {}" 2 (mkException Timeout "down" "")) /\
  outcome_error_type
    (fst (run (execute_sparql_outcome (always_failing Timeout) "ASK {}")))
  = Some (JStr "Timeout") /\
  outcome_error_type
    (fst (run (execute_sparql_outcome (always_failing Timeout) "ASK {}")))
  <> Some (JStr "MaxRetriesExceeded").
Proof.
  repeat split; try reflexivity.
  vm_compute. discriminate.
Qed.

(** C3 (as amended).  A run makes between one and three attempts; the
    sleeps are 1 s, 2 s, ...: the sleep before retry number [n + 1] lasts
    [2 ^ n] seconds, the backoff doubling from one second; attempt [k]
    starts at least [2 ^ k - 1] seconds after the first.  In particular,
    after two retryable failures followed by a success the payload is
    returned and the third attempt starts at least [1 + 2 = 3] seconds
    after the first. *)
Theorem backoff_doubles_from_one_second (ep : endpoint) (q : string) :
  let w := snd (run (execute_sparql ep q)) in
  (1 <= attempts_made w <= MAX_RETRIES)%nat /\
  sleeps w = backoff_schedule (attempts_made w) /\
  (forall k, (k < attempts_made w)%nat ->
     (start_of 0 w + (2 ^ N.of_nat k - 1) <= start_of k w)%N) /\
  (forall e0 e1 results,
     fails_retryably ep q 0 e0 -> fails_retryably ep q 1 e1 ->
     succeeds ep q 2 results ->
     fst (run (execute_sparql ep q)) = dumps results /\
     attempts_made w = 3%nat /\
     sleeps w = [1%N; 2%N] /\
     (start_of 0 w + 3 <= start_of 2 w)%N).
Proof.
  cbv zeta. rewrite execute_sparql_world.
  destruct (execute_sparql_effects ep q)
    as (starts & Hst & Hlen & Hsl & Hhd & Hlow).
  set (w := snd (run (execute_sparql_outcome ep q))) in *.
  cbn [initial_world attempt_starts sleeps now app] in Hst, Hsl, Hhd, Hlow.
  assert (Hm : attempts_made w = List.length starts)
    by (unfold attempts_made; rewrite Hst; reflexivity).
  assert (Hsched : sleeps w = backoff_schedule (attempts_made w)).
  { rewrite Hsl, Hm. unfold backoff_schedule. apply map_ext.
    intros i. unfold INITIAL_BACKOFF. lia. }
  assert (Hstart : forall k, (k < attempts_made w)%nat ->
            (start_of 0 w + (2 ^ N.of_nat k - 1) <= start_of k w)%N).
  { intros k Hk. unfold start_of. rewrite Hst, Hhd.
    specialize (Hlow k ltac:(lia)). unfold INITIAL_BACKOFF in Hlow. lia. }
  split; [unfold MAX_RETRIES in *; lia|].
  split; [exact Hsched|].
  split; [exact Hstart|].
  - intros e0 e1 results H0 H1 H2.
    assert (Hrun : run (execute_sparql_outcome ep q) =
              (results,
               after_call ep q 2
                 (snd (sleep 2 (after_failure ep q 1 e1
                    (snd (sleep 1 (after_failure ep q 0 e0 initial_world)))))))).
    { rewrite (two_retries H0 H1). apply retry_loop_success; auto. }
    assert (H3 : attempts_made w = 3%nat)
      by (unfold w; rewrite Hrun; reflexivity).
    split; [rewrite execute_sparql_value, Hrun; reflexivity|].
    split; [exact H3|].
    split; [rewrite Hsched, H3; reflexivity|].
    apply (Hstart 2%nat). lia.
Qed.

Lemma backoff_doubles_from_one_second_witness :
  sleeps (snd (run (execute_sparql
     (fail_then_succeed 2 ConnectionError (JObj [("boolean", JBool true)]))
     "ASK {}"))) = [1%N; 2%N].
Proof.
  pose proof (@backoff_doubles_from_one_second
    (fail_then_succeed 2 ConnectionError (JObj [("boolean", JBool true)]))
    "ASK {}") as H.
  cbv zeta in H. destruct H as (_ & _ & _ & H).
  destruct (H (mkException ConnectionError "down" "")
              (mkException ConnectionError "down" "")
              (JObj [("boolean", JBool true)])) as (_ & _ & K & _).
  - split; reflexivity.
  - split; reflexivity.
  - reflexivity.
  - exact K.
Defined.

(** C3 as stated fails in its last part: with an endpoint whose calls take
    no time, failing twice with a connection error and then succeeding,
    the third attempt starts exactly 3 seconds after the first, which is
    less than [2 ^ 2]. *)
Lemma third_attempt_starts_after_three_seconds :
  let ep := fail_then_succeed 2 ConnectionError (JObj [("boolean", JBool true)]) in
  let w := snd (run (execute_sparql ep "ASK {}")) in
  (fails_retryably ep "ASK {}" 0 (mkException ConnectionError "down" "") /\
   fails_retryably ep "ASK {}" 1 (mkException ConnectionError "down" "") /\
   succeeds ep "ASK {}" 2 (JObj [("boolean", JBool true)])) /\
  start_of 2 w = (start_of 0 w + 3)%N /\
  ~ (start_of 0 w + 2 ^ 2 <= start_of 2 w)%N.
Proof.
  cbv zeta. repeat split; try reflexivity.
  vm_compute. intros H. apply H. reflexivity.
Qed.



End ExecutorProofs.

(* ================================================================== *)
(** * Properties of the validator *)
(* ================================================================== *)

Module ValidatorProofs.
Import Py PyFacts Re Validator ValidatorSpec.

(** *** The delimiter table *)

Lemma closer_of_cases (o c : ascii) :
  closer_of o = Some c ->
  (o = "("%char /\ c = ")"%char) \/ (o = "["%char /\ c = "]"%char) \/
  (o = "{"%char /\ c = "}"%char).
Proof.
  unfold closer_of, brackets_map. cbn [find fst snd].
  destruct (Ascii.eqb "(" o) eqn:E1.
  { apply Ascii.eqb_eq in E1. intros H; inversion H; auto. }
  destruct (Ascii.eqb "[" o) eqn:E2.
  { apply Ascii.eqb_eq in E2. intros H; inversion H; auto. }
  destruct (Ascii.eqb "{" o) eqn:E3.
  { apply Ascii.eqb_eq in E3. intros H; inversion H; auto 6. }
  discriminate.
Qed.

Lemma closer_of_opener (o c : ascii) :
  closer_of o = Some c ->
  is_opener o = true /\ is_opener c = false /\ is_closer c = true.
Proof.
  intros H. unfold is_opener. rewrite H.
  destruct (@closer_of_cases _ _ H) as [[-> ->]|[[-> ->]|[-> ->]]];
    repeat split; reflexivity.
Qed.

(** *** Balanced texts *)

Lemma Balanced_app (a b : string) :
  Balanced a -> Balanced b -> Balanced (a ++ b).
Proof.
  intros Ha Hb. induction Ha as [|c s Ho Hc Hs IH|o c s t Hoc Hs IHs Ht IHt].
  - exact Hb.
  - simpl. apply Balanced_other; assumption.
  - simpl. rewrite PyFacts.app_assoc. simpl.
    apply Balanced_pair; assumption.
Qed.

Lemma Closes_prepend (b : string) (st : list ascii) (s : string) :
  Balanced b -> Closes st s -> Closes st (b ++ s).
Proof.
  intros Hb H. destruct H as [s Hs|o c st b' s Hoc Hb' Hs].
  - apply Closes_nil, Balanced_app; assumption.
  - rewrite <- PyFacts.app_assoc. apply Closes_cons; auto.
    apply Balanced_app; assumption.
Qed.

(** The scan accepts only texts that close the stack it started with. *)
Lemma scan_brackets_sound (s : string) :
  forall st, scan_brackets s st = inr [] -> Closes st s.
Proof.
  induction s as [|c s IH]; intros st H; simpl in H.
  - inversion H; subst. apply Closes_nil, Balanced_nil.
  - destruct (is_opener c) eqn:Eo.
    + apply IH in H. inversion H as [|o c' st' b s' Hoc Hb Hs]; subst.
      change (String c (b ++ String c' s'))
        with (String c (b ++ String c' ("" ++ s'))).
      replace (String c (b ++ String c' ("" ++ s')))
        with (String c (b ++ String c' "") ++ s')
        by (simpl; rewrite PyFacts.app_assoc; reflexivity).
      apply Closes_prepend; [|assumption].
      apply Balanced_pair; auto. constructor.
    + destruct (is_closer c) eqn:Ec.
      * destruct st as [|top below]; [discriminate|].
        destruct (closer_of top) as [c'|] eqn:Et; [|discriminate].
        destruct (Ascii.eqb c' c) eqn:E; [|discriminate].
        apply Ascii.eqb_eq in E. subst c'. simpl in H.
        apply IH in H.
        apply (@Closes_cons top c below "" s); auto. constructor.
      * apply IH in H.
        apply (@Closes_prepend (String c "")); [|assumption].
        apply Balanced_other; auto. constructor.
Qed.

(** Scanning a balanced text leaves the stack as it was. *)
Lemma scan_brackets_complete (s : string) :
  Balanced s ->
  forall rest st, scan_brackets (s ++ rest) st = scan_brackets rest st.
Proof.
  induction 1 as [|c s Ho Hc Hs IH|o c s t Hoc Hs IHs Ht IHt];
    intros rest st.
  - reflexivity.
  - simpl. rewrite Ho, Hc. apply IH.
  - destruct (@closer_of_opener _ _ Hoc) as (Ho & Hco & Hcc).
    simpl. rewrite Ho, PyFacts.app_assoc, IHs. simpl.
    rewrite Hco, Hcc, Hoc, Ascii.eqb_refl. simpl. apply IHt.
Qed.

Lemma check_brackets_balanced (q : string) :
  check_brackets q = None <-> Balanced q.
Proof.
  unfold check_brackets. split.
  - destruct (scan_brackets q []) as [v|[|top st]] eqn:E; try discriminate.
    intros _. apply scan_brackets_sound in E. inversion E; assumption.
  - intros H. rewrite <- (PyFacts.app_nil_r q).
    rewrite (scan_brackets_complete H). reflexivity.
Qed.

(** Where the verdict of the scan comes from. *)
Lemma scan_brackets_early (s : string) :
  forall st v, scan_brackets s st = inl v ->
    exists c, In c (chars s) /\ is_closer c = true /\
              v = unbalanced_closing c.
Proof.
  induction s as [|c s IH]; intros st v H; simpl in H; [discriminate|].
  assert (K : forall st', scan_brackets s st' = inl v ->
            exists c0, In c0 (chars (String c s)) /\ is_closer c0 = true /\
                       v = unbalanced_closing c0).
  { intros st' H'. destruct (IH _ _ H') as (c0 & A & B & C).
    exists c0. simpl; auto. }
  destruct (is_opener c); [eapply K; eauto|].
  destruct (is_closer c) eqn:Ec; [|eapply K; eauto].
  assert (L : @inl verdict (list ascii) (unbalanced_closing c) = inl v ->
            exists c0, In c0 (chars (String c s)) /\ is_closer c0 = true /\
                       v = unbalanced_closing c0).
  { intros E. inversion E. exists c. simpl; auto. }
  destruct st as [|top below]; [auto|].
  destruct (match closer_of top with
            | Some c0 => negb (Ascii.eqb c0 c) | None => true end);
    [auto|eapply K; eauto].
Qed.

Lemma scan_brackets_stack (s : string) :
  forall st st', scan_brackets s st = inr st' ->
    forall x, In x st' ->
      In x st \/ (In x (chars s) /\ is_opener x = true).
Proof.
  induction s as [|c s IH]; intros st st' H x Hx; simpl in H.
  - inversion H; subst; auto.
  - destruct (is_opener c) eqn:Eo.
    + destruct (IH _ _ H x Hx) as [[<-|K]|[K1 K2]]; simpl; auto.
    + destruct (is_closer c).
      * destruct st as [|top below]; [discriminate|].
        destruct (match closer_of top with
                  | Some c0 => negb (Ascii.eqb c0 c) | None => true end);
          [discriminate|].
        destruct (IH _ _ H x Hx) as [K|[K1 K2]]; simpl; auto.
      * destruct (IH _ _ H x Hx) as [K|[K1 K2]]; simpl; auto.
Qed.

(** The first check decides as soon as it fails. *)
Lemma validate_brackets_first (q : string) (v : verdict) :
  check_brackets q = Some v -> _validate_sparql_query q = v.
Proof.
  intros H. unfold _validate_sparql_query, checks_before_quotes,
    checks_before_filter. cbn [app first_failure]. rewrite H. reflexivity.
Qed.

(** *** The character that the verdict names *)





(** The scan of a text that leaves a stack open goes on with that stack. *)
Lemma scan_brackets_leaves (s : string) (st : list ascii) :
  Leaves s st ->
  forall rest st0,
    scan_brackets (s ++ rest) st0 = scan_brackets rest (st ++ st0)%list.
Proof.
  induction 1 as [s Hs|s b o st H IH Ho Hb]; intros rest st0.
  - apply scan_brackets_complete, Hs.
  - rewrite PyFacts.app_assoc. cbn [append]. rewrite IH.
    cbn [scan_brackets]. rewrite Ho.
    rewrite (scan_brackets_complete Hb). reflexivity.
Qed.





Lemma left_open_verdict (q : string) (o : ascii) :
  left_open q o -> check_brackets q = Some (unclosed_opening o).
Proof.
  intros (st & L). unfold check_brackets.
  rewrite <- (PyFacts.app_nil_r q), (scan_brackets_leaves L).
  rewrite List.app_nil_r. reflexivity.
Qed.



(** In the query [ASK { ( ], with two openers left open, the innermost
    one is named. *)
Lemma innermost_opener_is_named :
  left_open "ASK { ( " "(" /\
  _validate_sparql_query "ASK { ( " =
    Invalid ("Unclosed opening bracket/parenthesis/brace: " ++ quoted "(")
      "Ensure all opening brackets, parentheses, and braces are closed.".
Proof.
  assert (L : left_open "ASK { ( " "(").
  { exists ["{"%char].
    apply (@Leaves_open "ASK { " " " "("%char ["{"%char]).
    - apply (@Leaves_open "ASK " " " "{"%char []).
      + apply Leaves_none. apply check_brackets_balanced. reflexivity.
      + reflexivity.
      + apply check_brackets_balanced. reflexivity.
    - reflexivity.
    - apply check_brackets_balanced. reflexivity. }
  split; [exact L|].
  apply validate_brackets_first, left_open_verdict, L.
Qed.

End ValidatorProofs.

(* ================================================================== *)
(** * Properties of the pattern matcher *)
(* ================================================================== *)

Unset Implicit Arguments.

Module ReFacts.
Import Py PyFacts Re.

Lemma search_here (r : regex) (s : string) :
  rmatch r s <> [] -> search r s = true.
Proof.
  intros H. destruct s; simpl; destruct (rmatch r _); congruence.
Qed.

(** A match somewhere in the text is found by [search]. *)
Lemma search_app (r : regex) (pre s : string) :
  rmatch r s <> [] -> search r (pre ++ s) = true.
Proof.
  intros H. induction pre as [|c pre IH]; simpl.
  - apply search_here, H.
  - destruct (rmatch r (String c (pre ++ s))); [exact IH|reflexivity].
Qed.

Lemma in_nonempty (A : Type) (x : A) (l : list A) : In x l -> l <> [].
Proof. intros H ->. exact H. Qed.

Lemma in_rmatch_cat (a b : regex) (s x : string) :
  In x (rmatch (Cat a b) s) <->
  exists m, In m (rmatch a s) /\ In x (rmatch b m).
Proof. simpl. apply in_flat_map. Qed.

Lemma in_rmatch_cls (p : ascii -> bool) (c : ascii) (s : string) :
  p c = true -> In s (rmatch (Cls p) (String c s)).
Proof. intros H. simpl. rewrite H. simpl; auto. Qed.

Lemma in_rmatch_chr (c : ascii) (s : string) :
  In s (rmatch (chr c) (String c s)).
Proof. apply in_rmatch_cls, Ascii.eqb_refl. Qed.

(** A keyword matches any spelling of it in upper or lower case. *)
Lemma eat_ignorecase (t f rest : string) :
  upper f = upper t -> eat true t (f ++ rest) = Some rest.
Proof.
  revert f. induction t as [|a t IH]; intros f H.
  - destruct f; [reflexivity|discriminate].
  - destruct f as [|b f]; [discriminate|].
    unfold upper in H. simpl in H. inversion H as [[Hc Hs]].
    simpl. unfold eq_char. rewrite Hc, Ascii.eqb_refl. apply IH, Hs.
Qed.

Lemma in_rmatch_kw (t f rest : string) :
  upper f = upper t -> In rest (rmatch (kw t) (f ++ rest)).
Proof.
  intros H. unfold kw. simpl. rewrite (eat_ignorecase t f rest H). simpl; auto.
Qed.

(** Repetition of a character class: it can stop after any run of
    characters of the class, and only there. *)
Lemma star_cls_complete (p : ascii -> bool) (w rest : string) :
  Forall (fun c => p c = true) (chars w) ->
  forall fuel, (String.length w <= fuel)%nat ->
    In rest (star_loop (rmatch (Cls p)) fuel (w ++ rest)).
Proof.
  induction w as [|c w IH]; intros Hw fuel Hf.
  - destruct fuel; simpl; [auto|]. apply in_or_app. right. simpl; auto.
  - inversion Hw as [|? ? Hc Hw']; subst.
    destruct fuel as [|fuel]; [simpl in Hf; lia|].
    cbn [star_loop append rmatch]. rewrite Hc. cbn [flat_map].
    apply in_or_app. left. rewrite List.app_nil_r.
    replace (String.length (w ++ rest) <? String.length (String c (w ++ rest)))%nat
      with true by (symmetry; apply Nat.ltb_lt; simpl; lia).
    apply IH; [assumption|simpl in Hf; lia].
Qed.

Lemma in_rmatch_star_cls (p : ascii -> bool) (w rest : string) :
  Forall (fun c => p c = true) (chars w) ->
  In rest (rmatch (Star (Cls p)) (w ++ rest)).
Proof.
  intros H. simpl. apply star_cls_complete; [exact H|].
  rewrite length_app. lia.
Qed.

Lemma star_cls_sound (p : ascii -> bool) :
  forall fuel s m,
    In m (star_loop (rmatch (Cls p)) fuel s) ->
    exists w, s = w ++ m /\ Forall (fun c => p c = true) (chars w).
Proof.
  induction fuel as [|fuel IH]; intros s m H.
  - simpl in H. destruct H as [<-|[]]. exists "". split; [reflexivity|constructor].
  - cbn [star_loop] in H. apply in_app_or in H. destruct H as [H|H].
    + apply in_flat_map in H. destruct H as (s' & Hs' & H).
      destruct s as [|c s]; [simpl in Hs'; contradiction|].
      simpl in Hs'. destruct (p c) eqn:Hc; [|contradiction].
      destruct Hs' as [<-|[]].
      destruct (String.length s <? String.length (String c s))%nat;
        [|contradiction].
      destruct (IH _ _ H) as (w & -> & Hw).
      exists (String c w). split; [reflexivity|]. constructor; assumption.
    + destruct H as [<-|[]]. exists "". split; [reflexivity|constructor].
Qed.

Lemma in_rmatch_star_cls_inv (p : ascii -> bool) (s m : string) :
  In m (rmatch (Star (Cls p)) s) ->
  exists w, s = w ++ m /\ Forall (fun c => p c = true) (chars w).
Proof. simpl. apply star_cls_sound. Qed.

Lemma rmatch_neglook (r : regex) (s : string) :
  rmatch r s = [] -> rmatch (NegLook r) s = [s].
Proof. intros H. simpl. rewrite H. reflexivity. Qed.

Lemma rmatch_kw_first_char (k : ascii) (t : string) (c : ascii) (s : string) :
  eq_char true k c = false -> rmatch (kw (String k t)) (String c s) = [].
Proof. intros H. unfold kw. cbn [rmatch eat]. rewrite H. reflexivity. Qed.

End ReFacts.

(* ================================================================== *)
(** * The validator's pattern checks *)
(* ================================================================== *)

Module ValidatorPatternProofs.
Import Py PyFacts Re ReFacts Validator ValidatorSpec.

Lemma first_failure_app (a b : list (string -> option verdict)) (q : string) :
  first_failure (a ++ b) q =
  match first_failure a q with
  | Some v => Some v
  | None => first_failure b q
  end.
Proof.
  induction a as [|c a IH]; simpl; [reflexivity|].
  destruct (c q); [reflexivity|exact IH].
Qed.

(** A verdict of the checks before the FILTER check is the verdict of the
    validator. *)
Lemma validate_before_filter (q : string) (v : verdict) :
  first_failure checks_before_filter q = Some v ->
  _validate_sparql_query q = v.
Proof.
  intros H. unfold _validate_sparql_query, checks_before_quotes.
  rewrite <- List.app_assoc, first_failure_app, H. reflexivity.
Qed.

Lemma validate_at_filter (q : string) :
  reaches_filter_check q ->
  _validate_sparql_query q =
  match check_filter q with
  | Some v => v
  | None =>
      match first_failure (checks_after_filter ++ quote_checks) q with
      | Some v => v
      | None => Valid
      end
  end.
Proof.
  intros H. unfold _validate_sparql_query, checks_before_quotes.
  rewrite <- !List.app_assoc, first_failure_app, H.
  cbn [app first_failure]. destruct (check_filter q); reflexivity.
Qed.

(** *** The empty FILTER *)

Lemma blank_or_paren_no_keyword (c : ascii) :
  isspace c = true \/ c = ")"%char ->
  eq_char true "N" c = false /\ eq_char true "E" c = false.
Proof.
  intros [H| ->]; [|split; reflexivity].
  destruct c as [[] [] [] [] [] [] [] []];
    try discriminate H; split; reflexivity.
Qed.

Lemma after_blanks_first_char (w m ws2 post : string) :
  w ++ m = ws2 ++ String ")" post ->
  all_space w -> all_space ws2 ->
  exists c m', m = String c m' /\ (isspace c = true \/ c = ")"%char).
Proof.
  revert ws2. induction w as [|a w IH]; intros ws2 E Hw H2.
  - simpl in E. subst m. destruct ws2 as [|b ws2]; simpl.
    + eauto.
    + inversion H2; subst. eauto.
  - inversion Hw as [|? ? Ha Hw']; subst.
    destruct ws2 as [|b ws2]; simpl in E; inversion E; subst.
    + discriminate Ha.
    + inversion H2; subst. eapply IH; eauto.
Qed.

(** After the parenthesis of an empty FILTER no EXISTS form follows. *)
Lemma no_exists_form (ws2 post : string) :
  all_space ws2 ->
  rmatch
    (Cat (Star ws)
      (Cat (Alt (Cat (kw "NOT") (Cat (Plus ws) (kw "EXISTS"))) (kw "EXISTS"))
        (Cat (Star ws) (chr "{"))))
    (ws2 ++ String ")" post) = [].
Proof.
  intros H2.
  match goal with |- ?l = [] => destruct l as [|x l'] eqn:E end;
    [reflexivity|exfalso].
  assert (Hin : In x (x :: l')) by (simpl; auto). rewrite <- E in Hin.
  apply in_rmatch_cat in Hin. destruct Hin as (m & Hm & Hx).
  apply in_rmatch_star_cls_inv in Hm. destruct Hm as (w & Ew & Hw).
  destruct (after_blanks_first_char w m ws2 post (eq_sym Ew) Hw H2)
    as (c & m' & -> & Hc).
  destruct (blank_or_paren_no_keyword c Hc) as [HN HE].
  apply in_rmatch_cat in Hx. destruct Hx as (m2 & Hm2 & _).
  cbn [rmatch] in Hm2. apply in_app_or in Hm2. destruct Hm2 as [K|K].
  - apply in_flat_map in K. destruct K as (m3 & K & _).
    change (Lit true "NOT") with (kw "NOT") in K.
    rewrite (rmatch_kw_first_char "N" "OT" c m' HN) in K. exact K.
  - change (Lit true "EXISTS") with (kw "EXISTS") in K.
    rewrite (rmatch_kw_first_char "E" "XISTS" c m' HE) in K. exact K.
Qed.

Lemma empty_filter_found (q : string) :
  has_empty_filter q ->
  search FILTER_RE q = true /\ search FILTER_EMPTY_RE q = true.
Proof.
  intros (pre & f & ws1 & ws2 & post & -> & Hf & H1 & H2).
  assert (Hkw : In (ws1 ++ String "(" (ws2 ++ String ")" post))
              (rmatch (kw "FILTER")
                 (f ++ ws1 ++ String "(" (ws2 ++ String ")" post))))
    by (apply in_rmatch_kw; exact Hf).
  assert (Hws1 : In (String "(" (ws2 ++ String ")" post))
              (rmatch (Star ws) (ws1 ++ String "(" (ws2 ++ String ")" post))))
    by (apply in_rmatch_star_cls; exact H1).
  assert (Hpar : In (ws2 ++ String ")" post)
              (rmatch (chr "(") (String "(" (ws2 ++ String ")" post))))
    by apply in_rmatch_chr.
  split; apply search_app.
  - apply (in_nonempty _ (ws2 ++ String ")" post)).
    unfold FILTER_RE.
    apply in_rmatch_cat. eexists; split; [exact Hkw|].
    apply in_rmatch_cat. eexists; split; [exact Hws1|].
    apply in_rmatch_cat. eexists; split; [exact Hpar|].
    rewrite rmatch_neglook by (apply no_exists_form; exact H2).
    simpl; auto.
  - apply (in_nonempty _ post).
    unfold FILTER_EMPTY_RE.
    apply in_rmatch_cat. eexists; split; [exact Hkw|].
    apply in_rmatch_cat. eexists; split; [exact Hws1|].
    apply in_rmatch_cat. eexists; split; [exact Hpar|].
    apply in_rmatch_cat. exists (String ")" post). split.
    + apply in_rmatch_star_cls; exact H2.
    + apply in_rmatch_chr.
Qed.

(** C10 (as amended).  A query that passes the delimiter, SELECT, WHERE
    and PREFIX checks and holds FILTER followed by empty parentheses
    (blanks allowed) is rejected with the error [Empty FILTER clause.],
    whatever the LIMIT/OFFSET and later checks would say; a query that
    fails one of the earlier checks gets the verdict of that check. *)
Theorem empty_filter_rejected (q : string) :
  (reaches_filter_check q -> has_empty_filter q ->
   check_filter q = Some empty_filter_verdict /\
   _validate_sparql_query q =
     Invalid "Empty FILTER clause."
       "FILTER clauses must contain an expression (e.g., FILTER(?age > 18)).")
  /\
  (forall v, first_failure checks_before_filter q = Some v ->
             _validate_sparql_query q = v).
Proof.
  split; [|intros v; apply validate_before_filter].
  intros R E. destruct (empty_filter_found q E) as [H1 H2].
  assert (C : check_filter q = Some empty_filter_verdict).
  { unfold check_filter. rewrite H1, H2. reflexivity. }
  split; [exact C|]. rewrite (validate_at_filter q R), C. reflexivity.
Qed.

(** A query with an empty FILTER and a malformed LIMIT: the FILTER error
    is the one reported. *)
Lemma empty_filter_rejected_witness :
  check_limit_offset "ASK{ FILTER ( ) } LIMIT x" <> None /\
  _validate_sparql_query "ASK{ FILTER ( ) } LIMIT x" =
    Invalid "Empty FILTER clause."
      "FILTER clauses must contain an expression (e.g., FILTER(?age > 18)).".
Proof.
  split; [vm_compute; discriminate|].
  apply (proj1 (empty_filter_rejected "ASK{ FILTER ( ) } LIMIT x")).
  - reflexivity.
  - exists "ASK{ ", "FILTER", " ", " ", " } LIMIT x".
    split; [reflexivity|]. split; [reflexivity|].
    split; repeat constructor.
Defined.

(** C10 as stated fails: each of the two queries holds FILTER followed by
    empty parentheses, and the verdict is not [Empty FILTER clause.] but
    the one of a check that comes first: the brace left open in the first
    query, the SELECT that is followed by a brace in the second. *)
Lemma empty_filter_behind_earlier_check :
  (has_empty_filter "ASK { FILTER ( ) " /\
   _validate_sparql_query "ASK { FILTER ( ) " =
     Invalid ("Unclosed opening bracket/parenthesis/brace: " ++ quoted "{")
       "Ensure all opening brackets, parentheses, and braces are closed." /\
   _validate_sparql_query "ASK { FILTER ( ) " <> empty_filter_verdict) /\
  (has_empty_filter "SELECT{ FILTER() }" /\
   _validate_sparql_query "SELECT{ FILTER() }" =
     Invalid "Invalid SELECT clause."
       "SELECT keyword should be followed by variables (e.g., ?var), '*', or aggregate functions (e.g., COUNT(?var))." /\
   _validate_sparql_query "SELECT{ FILTER() }" <> empty_filter_verdict).
Proof.
  split; (split; [|split; [reflexivity|discriminate]]).
  - exists "ASK { ", "FILTER", " ", " ", " ".
    split; [reflexivity|]. split; [reflexivity|].
    split; repeat constructor.
  - exists "SELECT{ ", "FILTER", "", "", " }".
    split; [reflexivity|]. split; [reflexivity|].
    split; constructor.
Qed.

(** *** The quote checks *)

Lemma validate_at_quotes (q : string) :
  reaches_quote_check q ->
  _validate_sparql_query q =
  match check_double_quotes q with
  | Some v => v
  | None =>
      match check_single_quotes q with
      | Some v => v
      | None => Valid
      end
  end.
Proof.
  intros H. unfold _validate_sparql_query.
  rewrite first_failure_app, H. cbn [quote_checks first_failure].
  destruct (check_double_quotes q); [reflexivity|].
  destruct (check_single_quotes q); reflexivity.
Qed.

Lemma check_double_quotes_spec (q : string) :
  (check_double_quotes q = Some unbalanced_double_quotes <->
   odd_count DQ q = true /\
   odd_count DQ (clean_query_for_quotes q) = true /\
   search LANG_TAG_RE q = false /\ search DATATYPE_RE q = false) /\
  (check_double_quotes q = None \/
   check_double_quotes q = Some unbalanced_double_quotes).
Proof.
  unfold check_double_quotes, unbalanced_double_quotes.
  destruct (odd_count DQ q), (search LANG_TAG_RE q), (search DATATYPE_RE q),
    (odd_count DQ (clean_query_for_quotes q)); cbn [negb andb];
    (split; [split; [intros H; try discriminate H; auto
                    |intros (A & B & C & D); try discriminate; reflexivity]
            |auto]).
Qed.

Lemma check_single_quotes_spec (q : string) :
  (check_single_quotes q = Some unbalanced_single_quotes <->
   odd_count SQ q = true /\
   odd_count SQ (clean_query_for_quotes q) = true) /\
  (check_single_quotes q = None \/
   check_single_quotes q = Some unbalanced_single_quotes).
Proof.
  unfold check_single_quotes, unbalanced_single_quotes.
  destruct (odd_count SQ q), (odd_count SQ (clean_query_for_quotes q));
    (split; [split; [intros H; try discriminate H; auto
                    |intros (A & B); try discriminate; reflexivity]
            |auto]).
Qed.

Lemma quote_verdicts_differ :
  unbalanced_double_quotes <> unbalanced_single_quotes /\
  unbalanced_double_quotes <> Valid /\ unbalanced_single_quotes <> Valid.
Proof. repeat split; discriminate. Qed.

(** C8 (as amended).  For a query that reaches the quote checks: the
    verdict is [Unbalanced double quotes.] exactly when the number of
    double quotes is odd in the query as given and still odd once the
    comments are stripped, and no language tag or datatype annotation is
    followed by a double quote; failing that, and when no language tag or
    datatype annotation is followed by a single quote, the verdict is
    [Unbalanced single quotes.] exactly when the number of single quotes
    is odd in the query as given and still odd once the comments are
    stripped; a query whose two counts are even as given is valid,
    whatever its comments hold. *)
Theorem quote_parity_checks (q : string) :
  reaches_quote_check q ->
  (_validate_sparql_query q = unbalanced_double_quotes <->
   odd_count DQ q = true /\
   odd_count DQ (clean_query_for_quotes q) = true /\
   search (lang_tag_then DQ) q = false /\
   search (datatype_then DQ) q = false) /\
  (search (lang_tag_then SQ) q = false ->
   search (datatype_then SQ) q = false ->
   (_validate_sparql_query q = unbalanced_single_quotes <->
    _validate_sparql_query q <> unbalanced_double_quotes /\
    odd_count SQ q = true /\
    odd_count SQ (clean_query_for_quotes q) = true)) /\
  (odd_count DQ q = false -> odd_count SQ q = false ->
   _validate_sparql_query q = Valid).
Proof.
  intros R. rewrite (validate_at_quotes q R).
  destruct (check_double_quotes_spec q) as [D1 D2].
  destruct (check_single_quotes_spec q) as [S1 S2].
  destruct quote_verdicts_differ as (N1 & N2 & N3).
  change (lang_tag_then DQ) with LANG_TAG_RE.
  change (datatype_then DQ) with DATATYPE_RE.
  split; [|split].
  - rewrite <- D1.
    destruct D2 as [E|E]; rewrite E; [|tauto].
    split; [|discriminate].
    destruct S2 as [F|F]; rewrite F; intros K; exfalso; congruence.
  - intros _ _. rewrite <- S1.
    destruct D2 as [E|E]; rewrite E.
    + destruct S2 as [F|F]; rewrite F.
      * split; [intros K; exfalso; congruence|intros (_ & K); discriminate K].
      * split; [intros _; split; [congruence|reflexivity]|reflexivity].
    + split; [intros K; exfalso; congruence|intros (K & _); congruence].
  - intros A B.
    assert (E : check_double_quotes q = None).
    { unfold check_double_quotes. rewrite A. reflexivity. }
    assert (F : check_single_quotes q = None).
    { unfold check_single_quotes. rewrite B. reflexivity. }
    rewrite E, F. reflexivity.
Qed.

Lemma quote_parity_checks_witness :
  _validate_sparql_query (String DQ "ASK{}") = unbalanced_double_quotes.
Proof.
  apply (proj1 (quote_parity_checks (String DQ "ASK{}") eq_refl)).
  repeat split.
Defined.

(** C8 as stated fails: in the query made of a double quote, a hash sign
    and a double quote, the count of double quotes after stripping the
    comment is 1, no language tag or datatype annotation is present, the
    quote check is reached, and the verdict is valid, because the count in
    the query as given is even. *)
Lemma odd_quotes_after_stripping_accepted :
  reaches_quote_check (String DQ (String "#" (String DQ ""))) /\
  clean_query_for_quotes (String DQ (String "#" (String DQ ""))) = String DQ "" /\
  odd_count DQ (clean_query_for_quotes (String DQ (String "#" (String DQ "")))) = true /\
  search (lang_tag_then DQ) (String DQ (String "#" (String DQ ""))) = false /\
  search (datatype_then DQ) (String DQ (String "#" (String DQ ""))) = false /\
  _validate_sparql_query (String DQ (String "#" (String DQ ""))) = Valid /\
  ~ quote_rule_as_claimed DQ (String DQ (String "#" (String DQ ""))).
Proof.
  repeat split.
  intros H. unfold quote_rule_as_claimed in H.
  specialize (H eq_refl eq_refl eq_refl). discriminate H.
Qed.

(** The single-quote check applies no exclusion: a single quote after a
    language tag is reported, the same text with a double quote is not. *)
Lemma single_quote_after_language_tag_reported :
  _validate_sparql_query "@en'" = unbalanced_single_quotes /\
  _validate_sparql_query (String "@" (String "e" (String "n" (String DQ ""))))
    = Valid.
Proof. split; reflexivity. Qed.

End ValidatorPatternProofs.

(* ================================================================== *)
(** * The validator's keyword checks *)
(* ================================================================== *)

Module KeywordProofs.
Import Py PyFacts Re ReFacts Validator ValidatorSpec ValidatorProofs
  ValidatorPatternProofs KeywordSpec.

(** *** Inversion of the matcher *)

Lemma eat_ignorecase_inv (t s rest : string) :
  eat true t s = Some rest ->
  exists f, s = f ++ rest /\ upper f = upper t.
Proof.
  revert s. induction t as [|a t IH]; intros s H.
  - simpl in H. inversion H; subst. exists "". split; reflexivity.
  - destruct s as [|b s]; [discriminate H|].
    cbn [eat] in H. destruct (eq_char true a b) eqn:E; [|discriminate H].
    destruct (IH s H) as (f & -> & Hf).
    exists (String b f). split; [reflexivity|].
    unfold eq_char in E. apply Ascii.eqb_eq in E.
    unfold upper in *. cbn [smap]. rewrite Hf, E. reflexivity.
Qed.

Lemma in_rmatch_kw_inv (t s rest : string) :
  In rest (rmatch (kw t) s) ->
  exists f, s = f ++ rest /\ upper f = upper t.
Proof.
  unfold kw. cbn [rmatch]. destruct (eat true t s) as [r|] eqn:E.
  - intros [<-|[]]. apply eat_ignorecase_inv, E.
  - intros [].
Qed.

Lemma search_inv (r : regex) (s : string) :
  search r s = true -> exists pre s', s = pre ++ s' /\ rmatch r s' <> [].
Proof.
  induction s as [|c s IH]; cbn [search]; intros H.
  - exists "", "". split; [reflexivity|].
    destruct (rmatch r ""); [discriminate H|discriminate].
  - destruct (rmatch r (String c s)) eqn:E.
    + destruct (IH H) as (pre & s' & -> & K).
      exists (String c pre), s'. split; [reflexivity|exact K].
    + exists "", (String c s). split; [reflexivity|].
      rewrite E. discriminate.
Qed.

Lemma search_spec (r : regex) (s : string) :
  search r s = true <-> exists pre s', s = pre ++ s' /\ rmatch r s' <> [].
Proof.
  split; [apply search_inv|].
  intros (pre & s' & -> & H). apply search_app, H.
Qed.

Lemma nonempty_in (A : Type) (l : list A) : l <> [] -> exists x, In x l.
Proof. destruct l as [|x l]; [congruence|]. intros _. exists x. simpl; auto. Qed.

(** A pattern that begins with a keyword matches only where the keyword
    stands. *)
Lemma rmatch_kw_cat_inv (k : string) (r : regex) (s : string) :
  rmatch (Cat (kw k) r) s <> [] ->
  exists f post, s = f ++ post /\ upper f = upper k /\ rmatch r post <> [].
Proof.
  intros H. apply nonempty_in in H. destruct H as [x H].
  apply in_rmatch_cat in H. destruct H as (m & Hm & Hx).
  apply in_rmatch_kw_inv in Hm. destruct Hm as (f & -> & Hf).
  exists f, m. split; [reflexivity|]. split; [exact Hf|].
  eapply in_nonempty, Hx.
Qed.

Lemma rmatch_kw_cat (k : string) (r : regex) (f post : string) :
  upper f = upper k -> rmatch r post <> [] ->
  rmatch (Cat (kw k) r) (f ++ post) <> [].
Proof.
  intros Hf H. apply nonempty_in in H. destruct H as [x H].
  apply (in_nonempty _ x). apply in_rmatch_cat.
  exists post. split; [apply in_rmatch_kw, Hf|exact H].
Qed.

(** A search for a pattern that begins with a keyword. *)
Lemma search_keyword_spec (k : string) (r : regex) (q : string) :
  upper k = k ->
  (search (Cat (kw k) r) q = true <->
   keyword_then k q (fun post => rmatch r post <> [])).
Proof.
  intros Hk. rewrite search_spec. unfold keyword_then. split.
  - intros (pre & s' & -> & H).
    apply rmatch_kw_cat_inv in H. destruct H as (f & post & -> & Hf & H).
    exists pre, f, post. rewrite Hk in Hf. auto.
  - intros (pre & f & post & -> & Hf & H).
    exists pre, (f ++ post). split; [reflexivity|].
    apply rmatch_kw_cat; [rewrite Hk; exact Hf|exact H].
Qed.

Lemma keyword_then_impl (k q : string) (P Q : string -> Prop) :
  (forall post, P post -> Q post) ->
  keyword_then k q P -> keyword_then k q Q.
Proof.
  intros H (pre & f & post & E & Hf & HP).
  exists pre, f, post. auto.
Qed.

Lemma keyword_then_iff (k q : string) (P Q : string -> Prop) :
  (forall post, P post <-> Q post) ->
  (keyword_then k q P <-> keyword_then k q Q).
Proof.
  intros H. split; apply keyword_then_impl; intros post; apply H.
Qed.

(** *** Blanks, then a negative lookahead for one character *)

Lemma blank_then_not (p : ascii -> bool) :
  (forall c, isspace c = true -> p c = false) ->
  forall post,
    rmatch (Cat (Star ws) (NegLook (Cls p))) post <> [] <->
    match post with
    | "" => True
    | String c _ => p c = false
    end.
Proof.
  intros Hp post. split.
  - intros H. apply nonempty_in in H. destruct H as [x H].
    apply in_rmatch_cat in H. destruct H as (m & Hm & Hx).
    apply in_rmatch_star_cls_inv in Hm. destruct Hm as (w & -> & Hw).
    destruct w as [|c w].
    + cbn [append]. destruct m as [|c m]; [exact I|].
      cbn [rmatch] in Hx. destruct (p c); [destruct Hx|reflexivity].
    + cbn [append]. inversion Hw; subst. apply Hp. assumption.
  - intros H. apply (in_nonempty _ post). apply in_rmatch_cat.
    exists post. split.
    + apply (in_rmatch_star_cls isspace "" post). constructor.
    + destruct post as [|c post]; cbn [rmatch]; [simpl; auto|].
      rewrite H. simpl; auto.
Qed.

Lemma blank_starts_no_projection (c : ascii) :
  isspace c = true ->
  (any_of ["?"; "*"; "("]%char c || is_word c) = false.
Proof.
  destruct c as [[] [] [] [] [] [] [] []]; intros H;
    try discriminate H; reflexivity.
Qed.

Lemma starts_projection_class (c : ascii) :
  (any_of ["?"; "*"; "("]%char c || is_word c) = starts_projection c.
Proof.
  unfold starts_projection, any_of, char_in. cbn [existsb].
  rewrite orb_false_r, !orb_assoc. reflexivity.
Qed.

(** The SELECT pattern is found exactly when some occurrence of SELECT is
    not directly followed by an operand. *)
Lemma search_select_spec (q : string) :
  search SELECT_RE q = true <-> select_without_projection q.
Proof.
  unfold SELECT_RE, select_without_projection.
  rewrite (search_keyword_spec "SELECT" _ q eq_refl).
  apply keyword_then_iff. intros post.
  rewrite (blank_then_not _ blank_starts_no_projection post).
  unfold no_projection_next. destruct post as [|c post]; [tauto|].
  rewrite starts_projection_class. tauto.
Qed.

Lemma select_then_blank_without_projection (q : string) :
  select_then_blank q -> select_without_projection q.
Proof.
  apply keyword_then_impl. intros post (c & r & -> & H).
  unfold no_projection_next. rewrite <- starts_projection_class.
  apply blank_starts_no_projection, H.
Qed.

(** *** The verdicts of the pattern checks *)

(** With balanced delimiters and no SELECT finding, the verdict is not the
    one of the SELECT check. *)
Lemma not_select_verdict (q : string) :
  check_brackets q = None -> search SELECT_RE q = false ->
  _validate_sparql_query q <> select_verdict.
Proof.
  intros B S. unfold _validate_sparql_query, checks_before_quotes,
    checks_before_filter, checks_after_filter, quote_checks.
  cbn [app first_failure]. rewrite B.
  unfold check_select, check_where, check_prefix, check_prefix_uri,
    check_filter, check_limit_offset, check_order_by, check_group_by,
    check_double_quotes, check_single_quotes, select_verdict.
  rewrite S.
  repeat match goal with
         | |- context [if ?b then _ else _] => destruct b
         end; discriminate.
Qed.

Lemma select_finding_decides (q : string) :
  check_brackets q = None -> select_without_projection q ->
  _validate_sparql_query q = select_verdict.
Proof.
  intros B H. apply search_select_spec in H.
  apply validate_before_filter. unfold checks_before_filter.
  cbn [first_failure]. rewrite B. unfold check_select. rewrite H.
  reflexivity.
Qed.

Lemma check_brackets_invalid (q : string) (v : verdict) :
  check_brackets q = Some v -> exists e s, v = Invalid e s.
Proof.
  unfold check_brackets.
  destruct (scan_brackets q []) as [v'|[|top st]] eqn:E; intros H;
    inversion H; subst.
  - destruct (@scan_brackets_early _ _ _ E) as (c & _ & _ & ->).
    eexists; eexists; reflexivity.
  - eexists; eexists; reflexivity.
Qed.

(** A query in which SELECT is followed by a blank is invalid, with or
    without balanced delimiters. *)
Lemma select_then_blank_invalid (q : string) :
  select_then_blank q -> exists e s, _validate_sparql_query q = Invalid e s.
Proof.
  intros H. destruct (check_brackets q) as [v|] eqn:B.
  - destruct (check_brackets_invalid q v B) as (e & s & ->).
    exists e, s. apply (@validate_brackets_first _ _ B).
  - eexists; eexists.
    apply (select_finding_decides q B).
    apply select_then_blank_without_projection, H.
Qed.

(** X1.  For a query with balanced delimiters, the validator answers
    [Invalid SELECT clause.] exactly when some occurrence of SELECT, in any
    letter case, is followed directly by the end of the text or by a
    character other than a question mark, a star, an opening parenthesis
    or a word character.  The blanks after SELECT do not help: the pattern
    may match none of them, so that a blank after SELECT is such a
    character and [SELECT ?x] is rejected. *)
Theorem select_clause_verdict (q : string) :
  Balanced q ->
  (_validate_sparql_query q = select_verdict <-> select_without_projection q)
  /\ (select_then_blank q -> _validate_sparql_query q = select_verdict).
Proof.
  intros B. apply check_brackets_balanced in B.
  pose proof (select_finding_decides q B) as K.
  split; [split; [|exact K]|].
  - intros H. apply search_select_spec.
    destruct (search SELECT_RE q) eqn:S; [reflexivity|].
    exfalso. exact (not_select_verdict q B S H).
  - intros H. apply K, select_then_blank_without_projection, H.
Qed.

Lemma select_clause_verdict_witness :
  _validate_sparql_query "SELECT ?item WHERE { ?item wdt:P31 wd:Q5 . }"
  = select_verdict.
Proof.
  apply (select_clause_verdict
           "SELECT ?item WHERE { ?item wdt:P31 wd:Q5 . }").
  - apply check_brackets_balanced. reflexivity.
  - exists "", "SELECT", " ?item WHERE { ?item wdt:P31 wd:Q5 . }".
    split; [reflexivity|]. split; [reflexivity|].
    exists " "%char, "?item WHERE { ?item wdt:P31 wd:Q5 . }".
    split; reflexivity.
Defined.

(** *** The WHERE check *)

Lemma blank_is_no_brace (c : ascii) :
  isspace c = true -> Ascii.eqb "{" c = false.
Proof.
  destruct c as [[] [] [] [] [] [] [] []]; intros H;
    try discriminate H; reflexivity.
Qed.

Lemma search_where_spec (q : string) :
  search WHERE_RE q = true <-> where_without_brace q.
Proof.
  unfold WHERE_RE, where_without_brace, chr.
  rewrite (search_keyword_spec "WHERE" _ q eq_refl).
  apply keyword_then_iff. intros post.
  rewrite (blank_then_not _ blank_is_no_brace post).
  unfold no_brace_next. destruct post as [|c post]; [tauto|].
  rewrite Ascii.eqb_sym. split.
  - intros H E. apply Ascii.eqb_neq in H. auto.
  - intros H. apply Ascii.eqb_neq. exact H.
Qed.

Lemma in_rmatch_chr_inv (c : ascii) (s x : string) :
  In x (rmatch (chr c) s) -> s = String c x.
Proof.
  unfold chr. cbn [rmatch]. destruct s as [|d s]; [intros []|].
  destruct (Ascii.eqb c d) eqn:E; [|intros []].
  apply Ascii.eqb_eq in E. subst d. intros [<-|[]]. reflexivity.
Qed.

Lemma search_where_data_spec (q : string) :
  search WHERE_DATA_RE q = true <-> where_data_form q.
Proof.
  unfold WHERE_DATA_RE, where_data_form.
  rewrite (search_keyword_spec "WHERE" _ q eq_refl).
  apply keyword_then_iff. intros post. split.
  - intros H. apply nonempty_in in H. destruct H as [x H].
    apply in_rmatch_cat in H. destruct H as (m1 & H1 & H).
    apply in_rmatch_star_cls_inv in H1. destruct H1 as (w1 & -> & Hw1).
    apply in_rmatch_cat in H. destruct H as (m2 & H2 & H).
    apply in_rmatch_kw_inv in H2. destruct H2 as (d & -> & Hd).
    apply in_rmatch_cat in H. destruct H as (m3 & H3 & H).
    apply in_rmatch_star_cls_inv in H3. destruct H3 as (w2 & -> & Hw2).
    apply in_rmatch_chr_inv in H. subst m3.
    exists w1, d, w2, x. auto.
  - intros (w1 & d & w2 & r & -> & Hw1 & Hd & Hw2).
    apply (in_nonempty _ r). apply in_rmatch_cat.
    exists (d ++ w2 ++ String "{" r).
    split; [apply in_rmatch_star_cls, Hw1|].
    apply in_rmatch_cat. exists (w2 ++ String "{" r).
    split; [apply in_rmatch_kw, Hd|].
    apply in_rmatch_cat. exists (String "{" r).
    split; [apply in_rmatch_star_cls, Hw2|apply in_rmatch_chr].
Qed.

Lemma not_where_verdict (q : string) :
  check_brackets q = None -> check_select q = None ->
  check_where q = None ->
  _validate_sparql_query q <> where_verdict.
Proof.
  intros B S W. unfold _validate_sparql_query, checks_before_quotes,
    checks_before_filter, checks_after_filter, quote_checks.
  cbn [app first_failure]. rewrite B, S, W.
  unfold check_prefix, check_prefix_uri,
    check_filter, check_limit_offset, check_order_by, check_group_by,
    check_double_quotes, check_single_quotes, where_verdict.
  repeat match goal with
         | |- context [if ?b then _ else _] => destruct b
         end; discriminate.
Qed.

(** X2.  For a query with balanced delimiters that passes the SELECT
    check, the validator answers [Invalid WHERE clause.] exactly when some
    occurrence of WHERE is not directly followed by an opening brace and
    the query holds no form WHERE DATA followed by a brace; a blank
    between WHERE and the brace is enough. *)
Theorem where_clause_verdict (q : string) :
  Balanced q -> ~ select_without_projection q ->
  (_validate_sparql_query q = where_verdict <->
   where_without_brace q /\ ~ where_data_form q).
Proof.
  intros B S. apply check_brackets_balanced in B.
  rewrite <- search_select_spec in S.
  assert (S' : check_select q = None).
  { unfold check_select. destruct (search SELECT_RE q); [|reflexivity].
    exfalso. apply S. reflexivity. }
  rewrite <- search_where_spec, <- search_where_data_spec.
  split.
  - intros H.
    destruct (search WHERE_RE q) eqn:W1, (search WHERE_DATA_RE q) eqn:W2;
      try (split; [reflexivity|discriminate]);
      exfalso; apply (not_where_verdict q B S'); try exact H;
      unfold check_where; rewrite W1, W2; reflexivity.
  - intros [W1 W2]. apply validate_before_filter.
    unfold checks_before_filter. cbn [first_failure]. rewrite B, S'.
    unfold check_where. rewrite W1.
    destruct (search WHERE_DATA_RE q); [exfalso; apply W2; reflexivity|].
    reflexivity.
Qed.

Lemma where_clause_verdict_witness :
  _validate_sparql_query "ASK WHERE { wd:Q937 wdt:P31 wd:Q5 . }"
  = where_verdict.
Proof.
  apply (where_clause_verdict "ASK WHERE { wd:Q937 wdt:P31 wd:Q5 . }").
  - apply check_brackets_balanced. reflexivity.
  - intros H. apply search_select_spec in H. discriminate H.
  - split.
    + apply search_where_spec. reflexivity.
    + intros H. apply search_where_data_spec in H. discriminate H.
Defined.

(** *** The PREFIX check *)

Lemma in_rmatch_cls_inv (p : ascii -> bool) (s x : string) :
  In x (rmatch (Cls p) s) -> exists c, s = String c x /\ p c = true.
Proof.
  cbn [rmatch]. destruct s as [|c s]; [intros []|].
  destruct (p c) eqn:E; [|intros []].
  intros [<-|[]]. exists c. auto.
Qed.

Lemma in_rmatch_plus_cls_inv (p : ascii -> bool) (s x : string) :
  In x (rmatch (Plus (Cls p)) s) ->
  exists c w, s = String c (w ++ x) /\ p c = true /\
              Forall (fun a => p a = true) (chars w).
Proof.
  unfold Plus. intros H. apply in_rmatch_cat in H.
  destruct H as (m & Hm & Hx).
  apply in_rmatch_cls_inv in Hm. destruct Hm as (c & -> & Hc).
  apply in_rmatch_star_cls_inv in Hx. destruct Hx as (w & -> & Hw).
  exists c, w. auto.
Qed.

Lemma in_rmatch_plus_cls (p : ascii -> bool) (c : ascii) (w rest : string) :
  p c = true -> Forall (fun a => p a = true) (chars w) ->
  In rest (rmatch (Plus (Cls p)) (String c (w ++ rest))).
Proof.
  intros Hc Hw. unfold Plus. apply in_rmatch_cat.
  exists (w ++ rest). split; [apply in_rmatch_cls, Hc|].
  apply in_rmatch_star_cls, Hw.
Qed.

Lemma blank_is_no_angle (c : ascii) :
  isspace c = true -> Ascii.eqb "<" c = false.
Proof.
  destruct c as [[] [] [] [] [] [] [] []]; intros H;
    try discriminate H; reflexivity.
Qed.

Lemma no_angle_next_spec (r : string) :
  match r with "" => True | String c _ => Ascii.eqb "<" c = false end
  <-> no_angle_next r.
Proof.
  unfold no_angle_next. destruct r as [|c r]; [tauto|].
  rewrite Ascii.eqb_sym. split.
  - intros H E. apply Ascii.eqb_neq in H. auto.
  - intros H. apply Ascii.eqb_neq. exact H.
Qed.

Lemma search_prefix_spec (q : string) :
  search PREFIX_RE q = true <-> prefix_without_bracket q.
Proof.
  unfold PREFIX_RE, prefix_without_bracket.
  rewrite (search_keyword_spec "PREFIX" _ q eq_refl).
  apply keyword_then_iff. intros post. split.
  - intros H. apply nonempty_in in H. destruct H as [x H].
    apply in_rmatch_cat in H. destruct H as (m1 & H1 & H).
    apply in_rmatch_plus_cls_inv in H1.
    destruct H1 as (c & w & -> & Hc & Hw).
    apply in_rmatch_cat in H. destruct H as (m2 & H2 & H).
    apply in_rmatch_star_cls_inv in H2. destruct H2 as (name & -> & Hn).
    apply in_rmatch_cat in H. destruct H as (m3 & H3 & H).
    apply in_rmatch_chr_inv in H3. subst m2.
    assert (K : rmatch (Cat (Star ws) (NegLook (chr "<"))) m3 <> [])
      by (eapply in_nonempty, H).
    apply (blank_then_not _ blank_is_no_angle m3) in K.
    apply no_angle_next_spec in K.
    exists (String c w), name, m3.
    split; [reflexivity|].
    split; [discriminate|].
    split; [constructor; assumption|]. split; assumption.
  - intros (blanks & name & r & -> & Hne & Hb & Hn & Hr).
    destruct blanks as [|c w]; [congruence|]. inversion Hb; subst.
    apply no_angle_next_spec in Hr.
    apply (blank_then_not _ blank_is_no_angle r) in Hr.
    apply nonempty_in in Hr. destruct Hr as [x Hx].
    apply (in_nonempty _ x). apply in_rmatch_cat.
    exists (name ++ String ":" r). split.
    { cbn [append]. apply in_rmatch_plus_cls; assumption. }
    apply in_rmatch_cat. exists (String ":" r).
    split; [apply in_rmatch_star_cls, Hn|].
    apply in_rmatch_cat. exists r. split; [apply in_rmatch_chr|exact Hx].
Qed.

Lemma reaches_prefix_check_spec (q : string) :
  reaches_prefix_check q <->
  check_brackets q = None /\ check_select q = None /\ check_where q = None.
Proof.
  unfold reaches_prefix_check. cbn [first_failure].
  destruct (check_brackets q), (check_select q), (check_where q);
    split; try discriminate; try tauto;
    intros (A & B & C); discriminate.
Qed.

Lemma not_prefix_verdict (q : string) :
  reaches_prefix_check q -> check_prefix q = None ->
  _validate_sparql_query q <> prefix_verdict.
Proof.
  intros R P. apply reaches_prefix_check_spec in R.
  destruct R as (B & S & W).
  unfold _validate_sparql_query, checks_before_quotes,
    checks_before_filter, checks_after_filter, quote_checks.
  cbn [app first_failure]. rewrite B, S, W, P.
  unfold check_prefix_uri,
    check_filter, check_limit_offset, check_order_by, check_group_by,
    check_double_quotes, check_single_quotes, prefix_verdict.
  repeat match goal with
         | |- context [if ?b then _ else _] => destruct b
         end; discriminate.
Qed.

(** X3.  For a query that passes the delimiter, SELECT and WHERE checks,
    the validator answers [Invalid PREFIX declaration.] exactly when some
    occurrence of PREFIX, blanks, a name and a colon is not directly
    followed by an opening angle bracket; a blank between the colon and
    the bracket is enough. *)
Theorem prefix_clause_verdict (q : string) :
  reaches_prefix_check q ->
  (_validate_sparql_query q = prefix_verdict <-> prefix_without_bracket q).
Proof.
  intros R. rewrite <- search_prefix_spec. split.
  - intros H. destruct (search PREFIX_RE q) eqn:S; [reflexivity|].
    exfalso. apply (not_prefix_verdict q R); [|exact H].
    unfold check_prefix. rewrite S. reflexivity.
  - intros S. apply validate_before_filter.
    apply reaches_prefix_check_spec in R. destruct R as (B & S' & W).
    unfold checks_before_filter. cbn [first_failure].
    rewrite B, S', W. unfold check_prefix. rewrite S. reflexivity.
Qed.

Lemma prefix_clause_verdict_witness :
  _validate_sparql_query
    "PREFIX wd: <http://www.wikidata.org/entity/> ASK { wd:Q937 ?p ?o . }"
  = prefix_verdict.
Proof.
  apply (prefix_clause_verdict
    "PREFIX wd: <http://www.wikidata.org/entity/> ASK { wd:Q937 ?p ?o . }").
  - reflexivity.
  - exists "", "PREFIX",
      " wd: <http://www.wikidata.org/entity/> ASK { wd:Q937 ?p ?o . }".
    split; [reflexivity|]. split; [reflexivity|].
    exists " ", "wd",
      " <http://www.wikidata.org/entity/> ASK { wd:Q937 ?p ?o . }".
    split; [reflexivity|]. split; [discriminate|].
    split; [repeat constructor|]. split; [repeat constructor|].
    discriminate.
Defined.

(** *** The LIMIT/OFFSET check *)

Lemma search_alt_keyword (a b r : regex) (q : string) :
  search (Cat (Alt a b) r) q = true ->
  search (Cat a r) q = true \/ search (Cat b r) q = true.
Proof.
  rewrite !search_spec. intros (pre & s' & -> & H).
  apply nonempty_in in H. destruct H as [x H].
  apply in_rmatch_cat in H. destruct H as (m & Hm & Hx).
  cbn [rmatch] in Hm. apply in_app_or in Hm. destruct Hm as [Hm|Hm];
    [left|right]; exists pre, s'; (split; [reflexivity|]);
    apply (in_nonempty _ x); apply in_rmatch_cat; exists m; auto.
Qed.


Lemma rmatch_plus_digit_nil (r : string) :
  match r with "" => True | String d _ => is_digit d = false end <->
  rmatch (Plus digit) r = [].
Proof.
  unfold Plus, digit. destruct r as [|d r]; cbn [rmatch flat_map].
  - tauto.
  - destruct (is_digit d); cbn [flat_map]; [|tauto].
    split; [discriminate|]. rewrite List.app_nil_r.
    cbn [star_loop]. intros H.
    destruct (String.length r) as [|n] eqn:L; cbn [star_loop] in H.
    + discriminate H.
    + apply List.app_eq_nil in H. destruct H as [_ H]. discriminate H.
Qed.

Lemma blank_is_no_digit (c : ascii) : isspace c = true -> is_digit c = false.
Proof.
  destruct c as [[] [] [] [] [] [] [] []]; intros H;
    try discriminate H; reflexivity.
Qed.

Lemma blanks_then_no_number (post : string) :
  rmatch (Cat (Plus ws) (NegLook (Plus digit))) post <> [] <->
  blank_then_no_digit post.
Proof.
  unfold blank_then_no_digit. split.
  - intros H. apply nonempty_in in H. destruct H as [x H].
    apply in_rmatch_cat in H. destruct H as (m & Hm & Hx).
    apply in_rmatch_plus_cls_inv in Hm.
    destruct Hm as (c & w & -> & Hc & Hw).
    exists c, (w ++ m). split; [reflexivity|]. split; [exact Hc|].
    destruct w as [|b w]; cbn [append].
    + apply rmatch_plus_digit_nil.
      cbn [rmatch] in Hx. destruct (rmatch (Plus digit) m); [reflexivity|].
      destruct Hx.
    + inversion Hw; subst. apply blank_is_no_digit. assumption.
  - intros (c & r & -> & Hc & Hr).
    apply (in_nonempty _ r). apply in_rmatch_cat. exists r. split.
    + apply (in_rmatch_plus_cls isspace c "" r Hc). constructor.
    + apply rmatch_plus_digit_nil in Hr. cbn [rmatch]. rewrite Hr.
      simpl; auto.
Qed.

Lemma search_alt_keyword_spec (a b : string) (r : regex) (q : string) :
  search (Cat (Alt (kw a) (kw b)) r) q = true <->
  search (Cat (kw a) r) q = true \/ search (Cat (kw b) r) q = true.
Proof.
  split; [apply search_alt_keyword|].
  rewrite !search_spec.
  intros [(pre & s' & -> & H)|(pre & s' & -> & H)];
    exists pre, s'; (split; [reflexivity|]);
    apply nonempty_in in H; destruct H as [x H];
    apply in_rmatch_cat in H; destruct H as (m & Hm & Hx);
    apply (in_nonempty _ x); apply in_rmatch_cat; exists m;
    (split; [|exact Hx]); cbn [rmatch] in *; apply in_or_app; auto.
Qed.

Lemma search_limit_spec (q : string) :
  search LIMIT_OFFSET_RE q = true <-> limit_without_number q.
Proof.
  unfold LIMIT_OFFSET_RE, limit_without_number.
  rewrite search_alt_keyword_spec.
  rewrite (search_keyword_spec "LIMIT" _ q eq_refl).
  rewrite (search_keyword_spec "OFFSET" _ q eq_refl).
  rewrite !(keyword_then_iff _ q _ _ blanks_then_no_number). tauto.
Qed.

Lemma not_limit_verdict (q : string) :
  reaches_limit_check q -> check_limit_offset q = None ->
  _validate_sparql_query q <> limit_verdict.
Proof.
  intros R L. unfold _validate_sparql_query, checks_before_quotes.
  rewrite List.app_assoc, <- List.app_assoc, first_failure_app.
  unfold reaches_limit_check in R. rewrite R.
  unfold checks_after_filter, quote_checks. cbn [app first_failure].
  rewrite L.
  unfold check_order_by, check_group_by,
    check_double_quotes, check_single_quotes, limit_verdict.
  repeat match goal with
         | |- context [if ?b then _ else _] => destruct b
         end; discriminate.
Qed.

(** X4.  For a query that passes the checks before it, the validator
    answers [Invalid LIMIT or OFFSET clause.] exactly when some occurrence
    of LIMIT or OFFSET is followed by a blank and then by the end of the
    text or by a character that is no digit: a number after two blanks is
    rejected, a keyword with no blank after it is not looked at. *)
Theorem limit_clause_verdict (q : string) :
  reaches_limit_check q ->
  (_validate_sparql_query q = limit_verdict <-> limit_without_number q).
Proof.
  intros R. rewrite <- search_limit_spec. split.
  - intros H. destruct (search LIMIT_OFFSET_RE q) eqn:S; [reflexivity|].
    exfalso. apply (not_limit_verdict q R); [|exact H].
    unfold check_limit_offset. rewrite S. reflexivity.
  - intros S. unfold _validate_sparql_query, checks_before_quotes.
    rewrite List.app_assoc, <- List.app_assoc, first_failure_app.
    unfold reaches_limit_check in R. rewrite R.
    unfold checks_after_filter. cbn [app first_failure].
    unfold check_limit_offset. rewrite S. reflexivity.
Qed.

Lemma limit_clause_verdict_witness :
  _validate_sparql_query "ASK { wd:Q937 ?p ?o . } LIMIT  10" = limit_verdict.
Proof.
  apply (limit_clause_verdict "ASK { wd:Q937 ?p ?o . } LIMIT  10").
  - reflexivity.
  - left. exists "ASK { wd:Q937 ?p ?o . } ", "LIMIT", "  10".
    split; [reflexivity|]. split; [reflexivity|].
    exists " "%char, " 10". split; [reflexivity|]. split; reflexivity.
Defined.

(** *** Queries without the checked keywords *)

Lemma search_keyword_mentions (k : string) (r : regex) (q : string) :
  upper k = k -> search (Cat (kw k) r) q = true -> mentions k q = true.
Proof.
  intros Hk H. apply (search_keyword_spec k r q Hk) in H.
  destruct H as (pre & f & post & -> & Hf & _).
  unfold mentions. apply contains_spec.
  exists (upper pre), (upper post). rewrite !upper_app, Hf. reflexivity.
Qed.

Lemma no_mention_no_match (k : string) (r : regex) (q : string) :
  upper k = k -> mentions k q = false -> search (Cat (kw k) r) q = false.
Proof.
  intros Hk H. destruct (search (Cat (kw k) r) q) eqn:E; [|reflexivity].
  rewrite (search_keyword_mentions k r q Hk E) in H. discriminate H.
Qed.

(** X5.  A query with balanced delimiters and even numbers of double and
    of single quotes, in which none of the words SELECT, WHERE, PREFIX,
    FILTER, LIMIT, OFFSET, ORDER and GROUP occurs in any letter case, is
    valid. *)
Theorem keyword_free_query_valid (q : string) :
  Balanced q ->
  (forall k, In k checked_keywords -> mentions k q = false) ->
  odd_count DQ q = false -> odd_count SQ q = false ->
  _validate_sparql_query q = Valid.
Proof.
  intros B K D S. apply check_brackets_balanced in B.
  assert (M : forall k, In k checked_keywords -> forall r,
              upper k = k -> search (Cat (kw k) r) q = false).
  { intros k Hk r U. apply no_mention_no_match; auto. }
  unfold checked_keywords in M.
  unfold _validate_sparql_query, checks_before_quotes,
    checks_before_filter, checks_after_filter, quote_checks.
  cbn [app first_failure]. rewrite B.
  unfold check_select, check_where, check_prefix, check_prefix_uri,
    check_filter, check_limit_offset, check_order_by, check_group_by,
    check_double_quotes, check_single_quotes.
  unfold SELECT_RE, WHERE_RE, PREFIX_RE, PREFIX_URI_RE, FILTER_RE,
    ORDER_BY_RE, GROUP_BY_RE.
  rewrite (M "SELECT"), (M "WHERE"), !(M "PREFIX"), (M "FILTER"),
    (M "ORDER"), (M "GROUP") by (simpl; auto 10).
  cbn [andb].
  assert (L : search LIMIT_OFFSET_RE q = false).
  { destruct (search LIMIT_OFFSET_RE q) eqn:E; [|reflexivity].
    apply search_alt_keyword in E. destruct E as [E|E].
    - rewrite (M "LIMIT") in E by (simpl; auto 10). discriminate E.
    - rewrite (M "OFFSET") in E by (simpl; auto 10). discriminate E. }
  rewrite L, D, S. reflexivity.
Qed.

Lemma keyword_free_query_valid_witness :
  _validate_sparql_query "ASK { wd:Q937 wdt:P31 wd:Q5 . }" = Valid.
Proof.
  apply keyword_free_query_valid.
  - apply check_brackets_balanced. reflexivity.
  - intros k H. simpl in H.
    repeat (destruct H as [<-|H]; [reflexivity|]). destruct H.
  - reflexivity.
  - reflexivity.
Defined.

End KeywordProofs.

(* ================================================================== *)
(** * The text handed to the endpoint *)
(* ================================================================== *)

Module FullQueryProofs.
Import Py PyFacts Sanitizer SanitizerSpec SanitizerProofs.

(** The lines of the standard block are retained by the sanitizer. *)
Lemma prefix_block_lines_kept :
  Forall (fun l => keep_line l = true) prefix_block_lines.
Proof. repeat (constructor; [vm_compute; reflexivity|]). constructor. Qed.

Lemma has_prefix_line_app (xs ys : list string) :
  has_prefix_line xs = true -> has_prefix_line (xs ++ ys) = true.
Proof.
  unfold has_prefix_line. rewrite !existsb_filter_same.
  rewrite existsb_app. intros ->. reflexivity.
Qed.

(** The injector leaves a text that has a PREFIX line as it is. *)
Lemma inject_prefixes_declared (lines : list string) :
  has_prefix_line lines = true -> inject_prefixes lines = join nl lines.
Proof.
  intros H. unfold inject_prefixes. cbv zeta. rewrite H.
  rewrite andb_false_r. reflexivity.
Qed.

(** The lines of the text handed to the endpoint: the standard block when
    it is due, then the retained lines. *)
Lemma full_query_lines (q : string) :
  exists block,
    (block = [] \/ block = prefix_block_lines) /\
    full_query q = join nl (block ++ filtered_query_lines q) /\
    inject_prefixes (block ++ filtered_query_lines q)
    = join nl (block ++ filtered_query_lines q).
Proof.
  unfold full_query. set (lines := filtered_query_lines q).
  unfold inject_prefixes at 1. cbv zeta.
  destruct (truthy (join nl lines) && has_non_prefix_lines lines
            && negb (has_prefix_line lines)) eqn:E.
  - exists prefix_block_lines. split; [auto|].
    assert (Hl : lines <> []).
    { intros L. rewrite L in E. discriminate E. }
    split.
    + rewrite strip_prefixes, prefix_block_join.
      symmetry. apply join_app; [discriminate|exact Hl].
    + apply inject_prefixes_declared, has_prefix_line_app.
      vm_compute. reflexivity.
  - exists []. split; [auto|]. cbn [app]. split; [reflexivity|].
    unfold inject_prefixes. cbv zeta. rewrite E. reflexivity.
Qed.

Lemma full_query_lines_facts (q : string) (block : list string) :
  block = [] \/ block = prefix_block_lines ->
  Forall no_linebreak (block ++ filtered_query_lines q) /\
  Forall (fun l => l <> "") (block ++ filtered_query_lines q) /\
  Forall (fun l => keep_line l = true) (block ++ filtered_query_lines q).
Proof.
  destruct prefix_block_lines_ok as (B1 & B2 & _).
  intros [->| ->]; cbn [app]; repeat split;
    try apply Forall_app; try split;
    auto using filtered_lines_no_linebreak, filtered_lines_nonempty,
      filtered_lines_kept, prefix_block_lines_kept.
Qed.

Lemma filtered_lines_of_join (ls : list string) :
  Forall no_linebreak ls -> Forall (fun l => l <> "") ls ->
  Forall (fun l => keep_line l = true) ls ->
  filtered_query_lines (join nl ls) = ls.
Proof.
  intros A B C. rewrite filtered_query_lines_filter.
  rewrite (@splitlines_join ls A B). apply filter_all_true, C.
Qed.

(** X6.  Sanitizing and prefixing the text that an earlier call handed to
    the endpoint gives that text again: the retained lines are retained
    again and the standard block is not prepended a second time. *)
Theorem full_query_idempotent (q : string) :
  full_query (full_query q) = full_query q.
Proof.
  destruct (full_query_lines q) as (block & Hb & E & I).
  destruct (full_query_lines_facts q block Hb) as (A & B & C).
  rewrite E at 1. unfold full_query at 1.
  rewrite (filtered_lines_of_join _ A B C), I. symmetry. exact E.
Qed.

(** X7.  No line of the text handed to the endpoint is blank or starts
    with a hash sign: each of them, the lines of the standard block
    included, is a line that the sanitizer retains. *)
Theorem full_query_has_no_blank_or_comment_line (q : string) :
  forall line, In line (splitlines (full_query q)) ->
    retained line /\ strip line <> "" /\
    startswith "#" (strip line) = false.
Proof.
  destruct (full_query_lines q) as (block & Hb & E & _).
  destruct (full_query_lines_facts q block Hb) as (A & B & C).
  rewrite E, (@splitlines_join _ A B).
  intros line H. rewrite Forall_forall in C. specialize (C line H).
  apply keep_line_spec in C. split; [exact C|].
  destruct C as [S _]. unfold skipped in S. split.
  - intros K. apply S. left. exact K.
  - destruct (startswith "#" (strip line)) eqn:K; [|reflexivity].
    exfalso. apply S. right. apply startswith_spec, K.
Qed.

Lemma full_query_has_no_blank_or_comment_line_witness :
  retained "PREFIX wd: <http://www.wikidata.org/entity/>" /\
  strip "PREFIX wd: <http://www.wikidata.org/entity/>" <> "" /\
  startswith "#" (strip "PREFIX wd: <http://www.wikidata.org/entity/>")
  = false.
Proof.
  apply (full_query_has_no_blank_or_comment_line
           ("# people" ++ nl ++ "ASK { wd:Q937 wdt:P31 wd:Q5 . }")).
  vm_compute. left. reflexivity.
Defined.

(** X8.  The text handed to the endpoint is empty exactly when the
    sanitizer retains no line of the query (an empty query, or comments
    and unrecognised lines only): no prefix block is prepended then. *)
Theorem full_query_empty_iff (q : string) :
  full_query q = "" <->
  (forall line, In line (splitlines q) -> keep_line line = false).
Proof.
  destruct (full_query_lines q) as (block & Hb & E & _).
  destruct (full_query_lines_facts q block Hb) as (_ & B & _).
  rewrite E, (join_eq_nil B). rewrite filtered_query_lines_filter. split.
  - intros H line Hl. apply List.app_eq_nil in H. destruct H as [_ H].
    destruct (keep_line line) eqn:K; [|reflexivity].
    assert (In line (filter keep_line (splitlines q)))
      by (apply filter_In; auto).
    rewrite H in H0. destruct H0.
  - intros H. rewrite (filter_none _ _ H).
    destruct Hb as [->| ->]; [reflexivity|].
    exfalso.
    (* the block is due only when some line is retained *)
    unfold full_query in E. rewrite filtered_query_lines_filter in E.
    rewrite (filter_none _ _ H) in E. vm_compute in E. discriminate E.
Qed.

End FullQueryProofs.

(* ================================================================== *)
(** * The comment stripping of the quote checks *)
(* ================================================================== *)

Module CommentProofs.
Import Py PyFacts Re ReFacts Validator CommentSpec.

Lemma rest_of_line_length (s : string) :
  (String.length (rest_of_line s) <= String.length s)%nat.
Proof.
  induction s as [|c s IH]; cbn [rest_of_line]; [lia|].
  destruct (Ascii.eqb c LF); cbn [String.length] in *; lia.
Qed.

Lemma rest_of_line_at_end (s : string) :
  rmatch (Eol true) (rest_of_line s) = [rest_of_line s].
Proof.
  induction s as [|c s IH]; cbn [rest_of_line]; [reflexivity|].
  destruct (Ascii.eqb c LF) eqn:E; [|exact IH].
  cbn [rmatch]. rewrite E. reflexivity.
Qed.

Lemma rmatch_dot (c : ascii) (s : string) :
  rmatch dot (String c s) = if Ascii.eqb c LF then [] else [s].
Proof. unfold dot. cbn [rmatch]. destruct (Ascii.eqb c LF); reflexivity. Qed.

(** The greedy repetition of the dot tries the end of the line first. *)
Lemma star_dot_first (fuel : nat) (s : string) :
  (String.length s <= fuel)%nat ->
  exists more, star_loop (rmatch dot) fuel s = rest_of_line s :: more.
Proof.
  revert s. induction fuel as [|fuel IH]; intros s H.
  - destruct s; [|cbn [String.length] in H; lia].
    exists []. reflexivity.
  - destruct s as [|c s].
    + exists []. reflexivity.
    + cbn [star_loop rest_of_line]. rewrite rmatch_dot.
      destruct (Ascii.eqb c LF) eqn:E; cbn [flat_map app].
      * exists []. reflexivity.
      * assert (L : (String.length s <? String.length (String c s))%nat = true)
          by (apply Nat.ltb_lt; cbn [String.length]; lia).
        rewrite L, List.app_nil_r.
        cbn [String.length] in H.
        destruct (IH s ltac:(lia)) as [more ->].
        eexists. reflexivity.
Qed.

Lemma to_end_of_line (s : string) :
  exists more,
    rmatch (Cat (Star dot) (Eol true)) s = rest_of_line s :: more.
Proof.
  change (rmatch (Cat (Star dot) (Eol true)) s)
    with (flat_map (rmatch (Eol true))
            (star_loop (rmatch dot) (String.length s) s)).
  destruct (star_dot_first (String.length s) s (le_n _)) as [more ->].
  cbn [flat_map]. rewrite rest_of_line_at_end. eexists. reflexivity.
Qed.

(** The comment pattern at a hash sign: the first way to match ends at the
    end of the line. *)
Lemma comment_at_hash (s : string) :
  exists more,
    rmatch COMMENT_RE (String "#" s) = rest_of_line s :: more.
Proof.
  change (rmatch COMMENT_RE (String "#" s))
    with (rmatch (Cat (Star dot) (Eol true)) s ++ [])%list.
  destruct (to_end_of_line s) as [more ->]. eexists. reflexivity.
Qed.

Lemma comment_elsewhere (c : ascii) (s : string) :
  Ascii.eqb c "#" = false -> rmatch COMMENT_RE (String c s) = [].
Proof.
  intros H. unfold COMMENT_RE, chr. cbn [rmatch].
  rewrite Ascii.eqb_sym, H. reflexivity.
Qed.

Lemma uncomment_in_comment (s : string) :
  uncomment true s = uncomment false (rest_of_line s).
Proof.
  induction s as [|c s IH]; cbn [uncomment rest_of_line]; [reflexivity|].
  destruct (Ascii.eqb c LF) eqn:E; [|exact IH].
  apply Ascii.eqb_eq in E. subst c. reflexivity.
Qed.

Lemma sub_fuel_uncomment (fuel : nat) (s : string) :
  (String.length s <= fuel)%nat ->
  sub_fuel fuel COMMENT_RE s = uncomment false s.
Proof.
  revert s. induction fuel as [|fuel IH]; intros s H.
  - destruct s; [reflexivity|cbn [String.length] in H; lia].
  - destruct s as [|c s]; [reflexivity|].
    cbn [sub_fuel uncomment]. cbn [String.length] in H.
    destruct (Ascii.eqb c "#") eqn:E.
    + apply Ascii.eqb_eq in E. subst c.
      destruct (comment_at_hash s) as [more ->].
      pose proof (rest_of_line_length s) as L.
      assert (K : (String.length (rest_of_line s)
                   <? String.length (String "#" s))%nat = true)
        by (apply Nat.ltb_lt; cbn [String.length]; lia).
      rewrite K, uncomment_in_comment. apply IH. lia.
    + rewrite (comment_elsewhere c s E). f_equal. apply IH. lia.
Qed.

Lemma uncomment_no_hash (b : bool) (s : string) :
  count_char "#" (uncomment b s) = 0%nat.
Proof.
  revert b. induction s as [|c s IH]; intros b; cbn [uncomment];
    [reflexivity|].
  destruct b.
  - destruct (Ascii.eqb c LF) eqn:E; [|apply IH].
    apply Ascii.eqb_eq in E. subst c. cbn [count_char]. apply IH.
  - destruct (Ascii.eqb c "#") eqn:E; [apply IH|].
    cbn [count_char]. rewrite IH, E. reflexivity.
Qed.

(** X28.  The text in which the quote checks count the quotes a second
    time is the query without its comments: on every line the characters
    from the first hash sign to the end of the line are dropped, wherever
    the hash sign stands (inside a string literal or an IRI as well), and
    the line feeds stay; no hash sign is left. *)
Theorem comments_are_cut_at_the_hash (q : string) :
  clean_query_for_quotes q = uncomment false q /\
  count_char "#" (clean_query_for_quotes q) = 0%nat.
Proof.
  assert (E : clean_query_for_quotes q = uncomment false q)
    by (apply sub_fuel_uncomment, le_n).
  split; [exact E|]. rewrite E. apply uncomment_no_hash.
Qed.

End CommentProofs.

(* ================================================================== *)
(** * Properties of [json.dumps] and [json.loads] *)
(* ================================================================== *)

Module JsonFacts.
Import Py PyFacts Json JsonSpec.

(** Induction on JSON values, with the hypothesis for every element of an
    array and every member of an object. *)
Lemma json_induction (P : json -> Prop) :
  P JNull -> (forall b, P (JBool b)) -> (forall z, P (JInt z)) ->
  (forall s, P (JStr s)) ->
  (forall l, Forall P l -> P (JArr l)) ->
  (forall l, Forall (fun kv => P (snd kv)) l -> P (JObj l)) ->
  forall v, P v.
Proof.
  intros Hnull Hbool Hint Hstr Harr Hobj.
  fix F 1. intros [|b|z|s|l|l].
  - exact Hnull.
  - apply Hbool.
  - apply Hint.
  - apply Hstr.
  - apply Harr. induction l as [|x l IHl]; constructor;
      [apply F|exact IHl].
  - apply Hobj. induction l as [|[k x] l IHl]; constructor;
      [apply F|exact IHl].
Qed.

(** *** Strings *)

Lemma scan_escape_char (c : ascii) (tail : string) :
  scan_string (escape_char c ++ tail) = cons_to c (scan_string tail).
Proof.
  destruct c as [[] [] [] [] [] [] [] []]; reflexivity.
Qed.

Lemma scan_string_escape (s rest : string) :
  scan_string (escape_body s ++ String DQ rest) = Some (s, rest).
Proof.
  induction s as [|c s IH]; [reflexivity|].
  cbn [escape_body]. rewrite PyFacts.app_assoc, scan_escape_char, IH.
  reflexivity.
Qed.

Lemma encode_string_app (s rest : string) :
  encode_string s ++ rest = String DQ (escape_body s ++ String DQ rest).
Proof.
  unfold encode_string. cbn [append]. rewrite PyFacts.app_assoc. reflexivity.
Qed.

(** *** Numbers *)

Lemma digits_of_uint (d : Decimal.uint) :
  Forall (fun c => is_digit c = true)
         (chars (DecimalString.NilEmpty.string_of_uint d)).
Proof.
  induction d; simpl; constructor; auto.
Qed.

Lemma take_digits_app (a rest : string) :
  Forall (fun c => is_digit c = true) (chars a) ->
  not_digit_next rest ->
  take_digits (a ++ rest) = (a, rest).
Proof.
  intros Ha Hr. induction a as [|c a IH]; simpl.
  - destruct rest as [|c r]; [reflexivity|].
    simpl in Hr. simpl. rewrite Hr. reflexivity.
  - inversion Ha; subst. rewrite H1, IH by assumption. reflexivity.
Qed.

Lemma delimited_not_digit (rest : string) :
  delimited rest -> not_digit_next rest /\ starts_fraction rest = false.
Proof.
  destruct rest as [|c r]; simpl; [auto|].
  intros [->|[->| ->]]; split; reflexivity.
Qed.

(** The decimal writing of a positive number has no leading zero. *)
Lemma to_uint_canonical (p : positive) :
  Pos.to_uint p <> Decimal.Nil /\
  forall d', Pos.to_uint p <> Decimal.D0 d'.
Proof.
  split; [apply DecimalPos.Unsigned.to_uint_nonnil|].
  intros d' E.
  assert (U : Decimal.unorm (Pos.to_uint p) = Pos.to_uint p).
  { rewrite <- DecimalPos.Unsigned.to_of, DecimalPos.Unsigned.of_to.
    reflexivity. }
  rewrite E, DecimalFacts.unorm_D0 in U.
  assert (C : d' = Decimal.Nil \/ d' <> Decimal.Nil)
    by (destruct d'; [left; reflexivity|right; discriminate..]).
  destruct C as [->|C].
  - apply (DecimalPos.Unsigned.to_uint_nonzero p). exact E.
  - pose proof (DecimalFacts.nb_digits_unorm d' C) as L.
    rewrite U in L. simpl in L. lia.
Qed.

Lemma uint_of_string_of_uint (d : Decimal.uint) :
  d <> Decimal.Nil ->
  DecimalString.NilZero.uint_of_string
    (DecimalString.NilEmpty.string_of_uint d) = Some d.
Proof.
  intros H. pose proof (DecimalString.NilZero.usu d H) as U.
  destruct d; [congruence|exact U..].
Qed.

Lemma of_uint_to_uint (p : positive) : Z.of_uint (Pos.to_uint p) = Zpos p.
Proof.
  unfold Z.of_uint. rewrite DecimalPos.Unsigned.of_to. reflexivity.
Qed.

(** Reading the digits of a positive number. *)
Lemma scan_digits_pos (p : positive) (rest : string) :
  delimited rest ->
  exists c s,
    DecimalString.NilEmpty.string_of_uint (Pos.to_uint p) = String c s /\
    is_digit c = true /\
    scan_number (String c s ++ rest) = Some (JInt (Zpos p), rest) /\
    scan_number (String "-" (String c s ++ rest)) = Some (JInt (Zneg p), rest).
Proof.
  intros Hr. destruct (delimited_not_digit _ Hr) as [Hn Hf].
  destruct (to_uint_canonical p) as [Hnil H0].
  pose proof (uint_of_string_of_uint _ Hnil) as U.
  pose proof (of_uint_to_uint p) as V.
  pose proof (digits_of_uint (Pos.to_uint p)) as D.
  destruct (Pos.to_uint p) as [|d|d|d|d|d|d|d|d|d|d] eqn:E;
    [congruence|exfalso; eapply H0; reflexivity|..];
    cbn [DecimalString.NilEmpty.string_of_uint] in *;
    inversion D as [|? ? Hc Hd]; subst;
    (eexists; eexists; split; [reflexivity|]; split; [reflexivity|]);
    (split;
     unfold scan_number; cbn [append Ascii.eqb Bool.eqb andb take_digits];
     rewrite Hc; rewrite (take_digits_app _ _ Hd Hn);
     cbn [Ascii.eqb Bool.eqb andb]; rewrite Hf, U, V; reflexivity).
Qed.

Lemma str_of_Z_cases (z : Z) :
  (z = 0%Z /\ str_of_Z z = "0") \/
  (exists p, z = Zpos p /\
     str_of_Z z = DecimalString.NilEmpty.string_of_uint (Pos.to_uint p)) \/
  (exists p, z = Zneg p /\
     str_of_Z z =
       String "-" (DecimalString.NilEmpty.string_of_uint (Pos.to_uint p))).
Proof.
  destruct z as [|p|p]; [left; split; reflexivity|right; left|right; right];
    exists p; (split; [reflexivity|]);
    unfold str_of_Z, Z.to_int, DecimalString.NilZero.string_of_int,
      DecimalString.NilZero.string_of_uint;
    destruct (to_uint_canonical p) as [Hnil _];
    destruct (Pos.to_uint p); congruence.
Qed.

Lemma scan_value_number (fuel : nat) (c : ascii) (s : string) :
  is_digit c = true \/ c = "-"%char ->
  scan_value (S fuel) (String c s) = scan_number (String c s).
Proof.
  intros [H| ->]; [|reflexivity].
  destruct c as [[] [] [] [] [] [] [] []]; try discriminate H; reflexivity.
Qed.

Lemma scan_value_int (z : Z) (fuel : nat) (rest : string) :
  delimited rest ->
  scan_value (S fuel) (str_of_Z z ++ rest) = Some (JInt z, rest).
Proof.
  intros Hr.
  destruct (str_of_Z_cases z) as [[-> E]|[(p & -> & E)|(p & -> & E)]];
    rewrite E.
  - destruct (delimited_not_digit _ Hr) as [Hn Hf].
    cbn [append]. rewrite scan_value_number by (left; reflexivity).
    unfold scan_number. cbn [Ascii.eqb Bool.eqb andb take_digits].
    replace (is_digit "0") with true by reflexivity.
    change (take_digits rest) with (take_digits ("" ++ rest)).
    rewrite (take_digits_app "" rest (Forall_nil _) Hn).
    cbv beta iota. cbn [Ascii.eqb Bool.eqb andb append]. rewrite Hf. reflexivity.
  - destruct (scan_digits_pos p rest Hr) as (c & s & Es & Hc & Hpos & _).
    rewrite Es in *. cbn [append] in *.
    rewrite scan_value_number by (left; exact Hc). exact Hpos.
  - destruct (scan_digits_pos p rest Hr) as (c & s & Es & Hc & _ & Hneg).
    rewrite Es in *. cbn [append] in *.
    rewrite scan_value_number by (right; reflexivity). exact Hneg.
Qed.

Lemma str_of_Z_head (z : Z) :
  exists c s, str_of_Z z = String c s /\ (is_digit c = true \/ c = "-"%char).
Proof.
  destruct (str_of_Z_cases z) as [[-> E]|[(p & -> & E)|(p & -> & E)]].
  - exists "0"%char, "". split; [exact E|left; reflexivity].
  - destruct (scan_digits_pos p "" I) as (c & s & Es & Hc & _).
    exists c, s. split; [congruence|left; exact Hc].
  - eexists; eexists. split; [exact E|right; reflexivity].
Qed.

(** *** Values *)

Lemma dumps_arr_cons (x : json) (xs : list json) :
  dumps (JArr (x :: xs)) = String "[" (dumps x ++ dumps_items xs).
Proof.
  reflexivity.
Qed.

Lemma dumps_obj_cons (k : string) (x : json) (xs : list (string * json)) :
  dumps (JObj ((k, x) :: xs)) =
  String "{" (encode_string k ++ ": " ++ dumps x ++ dumps_members xs).
Proof.
  reflexivity.
Qed.

Lemma dumps_head (v : json) :
  exists c s, dumps v = String c s /\ value_start c.
Proof.
  assert (V : forall c, is_digit c = true \/ c = "-"%char -> value_start c).
  { intros c [H| ->]; [|repeat split; discriminate].
    destruct c as [[] [] [] [] [] [] [] []]; try discriminate H;
      repeat split; discriminate. }
  destruct v as [|[]|z|s|[|x xs]|[|[k x] xs]];
    try (eexists; eexists; split; [reflexivity|repeat split; discriminate]).
  - destruct (str_of_Z_head z) as (c & s & E & H).
    exists c, s. split; [exact E|apply V, H].
Qed.

Lemma skip_ws_value (v : json) (rest : string) :
  skip_ws (dumps v ++ rest) = dumps v ++ rest.
Proof.
  destruct (dumps_head v) as (c & s & -> & H & _).
  cbn [append skip_ws]. rewrite H. reflexivity.
Qed.

Lemma skip_ws_space_value (v : json) (rest : string) :
  skip_ws (String " " (dumps v ++ rest)) = dumps v ++ rest.
Proof. cbn [skip_ws]. apply skip_ws_value. Qed.

Lemma delimited_items (xs : list json) (rest : string) :
  delimited (dumps_items xs ++ rest).
Proof. destruct xs; simpl; auto. Qed.

Lemma delimited_members (xs : list (string * json)) (rest : string) :
  delimited (dumps_members xs ++ rest).
Proof. destruct xs as [|[k x] xs]; simpl; auto. Qed.

Lemma skip_ws_other (c : ascii) (s : string) :
  is_json_ws c = false -> skip_ws (String c s) = String c s.
Proof. intros H. cbn [skip_ws]. rewrite H. reflexivity. Qed.

(** Decide the comparisons of known characters in the goal. *)
Ltac char_tests :=
  repeat match goal with
  | |- context [Ascii.eqb ?a ?b] =>
      let r := eval vm_compute in (Ascii.eqb a b) in
      match r with
      | true => change (Ascii.eqb a b) with true
      | false => change (Ascii.eqb a b) with false
      end
  end;
  cbv beta iota.

Lemma scan_elements_dumps (xs : list json) :
  forall x, Forall reads_back (x :: xs) ->
  forall fuel rest,
    (list_sum (map (fun y => S (jsize y)) (x :: xs)) <= fuel)%nat ->
    scan_elements fuel (dumps x ++ dumps_items xs ++ rest)
    = Some (map norm (x :: xs), rest).
Proof.
  induction xs as [|y ys IH]; intros x HP fuel rest Hf;
    inversion HP as [|? ? Hx Hxs]; subst;
    (destruct fuel as [|f]; [simpl in Hf; lia|]);
    cbn [scan_elements];
    rewrite (Hx f _) by (simpl in Hf; try lia; apply delimited_items).
  - cbn [dumps_items append].
    rewrite (skip_ws_other "]" rest eq_refl). char_tests. reflexivity.
  - cbn [dumps_items append].
    rewrite (skip_ws_other "," _ eq_refl). char_tests.
    rewrite !PyFacts.app_assoc, skip_ws_space_value.
    rewrite (IH y Hxs f rest) by (simpl in Hf |- *; lia).
    reflexivity.
Qed.

Lemma scan_members_dumps (xs : list (string * json)) :
  forall k x, Forall (fun kv => reads_back (snd kv)) ((k, x) :: xs) ->
  forall fuel rest,
    (list_sum (map (fun kv => S (jsize (snd kv))) ((k, x) :: xs)) <= fuel)%nat ->
    scan_members fuel
      (encode_string k ++ ": " ++ dumps x ++ dumps_members xs ++ rest)
    = Some (map (fun kv => (fst kv, norm (snd kv))) ((k, x) :: xs), rest).
Proof.
  induction xs as [|[k' y] ys IH]; intros k x HP fuel rest Hf;
    inversion HP as [|? ? Hx Hxs]; subst; cbn [snd] in Hx;
    (destruct fuel as [|f]; [simpl in Hf; lia|]);
    rewrite encode_string_app; cbn [scan_members]; char_tests;
    rewrite scan_string_escape; cbn [append];
    rewrite (skip_ws_other ":" _ eq_refl); char_tests;
    rewrite skip_ws_space_value;
    rewrite (Hx f _) by (simpl in Hf; try lia; apply delimited_members).
  - cbn [dumps_members append].
    rewrite (skip_ws_other "}" rest eq_refl). char_tests. reflexivity.
  - cbn [dumps_members append].
    rewrite (skip_ws_other "," _ eq_refl). char_tests.
    cbn [skip_ws]. replace (is_json_ws " ") with true by reflexivity.
    rewrite !PyFacts.app_assoc, encode_string_app.
    rewrite (skip_ws_other DQ _ eq_refl).
    rewrite <- encode_string_app. cbn [append].
    rewrite ?PyFacts.app_assoc.
    pose proof (IH k' y Hxs f rest) as E. cbn [append] in E.
    rewrite E by (simpl in Hf |- *; lia).
    reflexivity.
Qed.

Lemma scan_value_dumps (v : json) : reads_back v.
Proof.
  induction v as [|b|z|s|l IH|l IH] using json_induction;
    intros fuel rest Hf Hr;
    (destruct fuel as [|f]; [simpl in Hf; lia|]).
  - reflexivity.
  - destruct b; reflexivity.
  - apply scan_value_int, Hr.
  - cbn [dumps norm]. rewrite encode_string_app. cbn [scan_value].
    char_tests. rewrite scan_string_escape. reflexivity.
  - destruct l as [|x xs]; [reflexivity|].
    rewrite dumps_arr_cons. cbn [append scan_value]. char_tests.
    rewrite PyFacts.app_assoc, skip_ws_value.
    pose proof (scan_elements_dumps xs x IH f rest) as E.
    destruct (dumps_head x) as (c & s & Ec & _ & Hc & _).
    rewrite Ec in *. cbn [append] in *.
    replace (Ascii.eqb c "]") with false
      by (symmetry; apply Ascii.eqb_neq, Hc).
    rewrite E by (simpl in Hf |- *; lia). reflexivity.
  - destruct l as [|[k x] xs]; [reflexivity|].
    rewrite dumps_obj_cons. cbn [append].
    pose proof (scan_members_dumps xs k x IH f rest) as E.
    rewrite PyFacts.app_assoc. cbn [append]. rewrite PyFacts.app_assoc.
    change (encode_string k ++
            String ":" (String " " (dumps x ++ dumps_members xs ++ rest)))
      with (encode_string k ++ ": " ++ dumps x ++ dumps_members xs ++ rest).
    assert (HT : exists r,
              encode_string k ++ ": " ++ dumps x ++ dumps_members xs ++ rest
              = String DQ r)
      by (rewrite encode_string_app; eexists; reflexivity).
    destruct HT as [r HT]. rewrite HT in *.
    cbn [scan_value]. char_tests.
    rewrite (skip_ws_other DQ r eq_refl). char_tests.
    rewrite E by (simpl in Hf |- *; lia). reflexivity.
Qed.

(** *** Fuel *)

Lemma jsize_items (xs : list json) :
  Forall (fun y => (jsize y <= String.length (dumps y))%nat) xs ->
  (list_sum (map (fun y => S (jsize y)) xs) + 1
   <= String.length (dumps_items xs))%nat.
Proof.
  induction 1 as [|y ys Hy _ IH]; [simpl; lia|].
  cbn [dumps_items map list_sum fold_right]. rewrite !PyFacts.length_app.
  simpl String.length. unfold list_sum in *. lia.
Qed.

Lemma jsize_members (xs : list (string * json)) :
  Forall (fun kv => (jsize (snd kv) <= String.length (dumps (snd kv)))%nat) xs ->
  (list_sum (map (fun kv => S (jsize (snd kv))) xs) + 1
   <= String.length (dumps_members xs))%nat.
Proof.
  induction 1 as [|[k y] ys Hy _ IH]; [simpl; lia|].
  cbn [dumps_members map list_sum fold_right snd] in *.
  rewrite !PyFacts.length_app. simpl String.length. unfold list_sum in *. lia.
Qed.

(** The text of a value is at least as long as the fuel it needs. *)
Lemma jsize_le_length (v : json) :
  (jsize v <= String.length (dumps v))%nat.
Proof.
  induction v as [|b|z|s|l IH|l IH] using json_induction.
  - simpl; lia.
  - destruct b; simpl; lia.
  - destruct (str_of_Z_head z) as (c & s & E & _).
    cbn [dumps jsize]. rewrite E. simpl; lia.
  - simpl; lia.
  - destruct l as [|x xs]; [simpl; lia|].
    inversion IH as [|? ? Hx Hxs]; subst.
    rewrite dumps_arr_cons. cbn [jsize map list_sum fold_right String.length].
    rewrite PyFacts.length_app.
    pose proof (jsize_items xs Hxs). unfold list_sum in *. lia.
  - destruct l as [|[k x] xs]; [simpl; lia|].
    inversion IH as [|? ? Hx Hxs]; subst.
    rewrite dumps_obj_cons. cbn [jsize map list_sum fold_right String.length snd] in *.
    rewrite !PyFacts.length_app.
    pose proof (jsize_members xs Hxs). unfold list_sum in *. lia.
Qed.

(** *** [json.loads(json.dumps(v))] *)

Lemma loads_dumps (v : json) : loads (dumps v) = Some (norm v).
Proof.
  unfold loads.
  rewrite <- (PyFacts.app_nil_r (dumps v)) at 2.
  rewrite skip_ws_value.
  rewrite (scan_value_dumps v (2 * String.length (dumps v) + 2) "").
  - reflexivity.
  - pose proof (jsize_le_length v). lia.
  - exact I.
Qed.

Lemma dumps_valid (v : json) : valid_json (dumps v).
Proof. exists (norm v). apply loads_dumps. Qed.

(** *** Keys of the dictionary read back *)

Lemma assoc_dict_set (k k' : string) (v : json) (d : list (string * json)) :
  assoc k (dict_set k' v d) = if k' =? k then Some v else assoc k d.
Proof.
  induction d as [|[k0 v0] d IH]; cbn [dict_set assoc].
  - reflexivity.
  - destruct (k0 =? k') eqn:E0; cbn [assoc].
    + apply String.eqb_eq in E0. subst k0.
      destruct (k' =? k); reflexivity.
    + rewrite IH. destruct (k0 =? k) eqn:E1; [|reflexivity].
      destruct (k' =? k) eqn:E2; [|reflexivity].
      apply String.eqb_eq in E1, E2. subst.
      rewrite String.eqb_refl in E0. discriminate E0.
Qed.

Lemma assoc_fold_set (k : string) (l acc : list (string * json)) :
  (exists x, assoc k acc = Some x) \/ (exists x, assoc k l = Some x) ->
  exists x,
    assoc k (fold_left (fun d kv => dict_set (fst kv) (snd kv) d) l acc)
    = Some x.
Proof.
  revert acc. induction l as [|[k0 v0] l IH]; intros acc H; cbn [fold_left].
  - destruct H as [H|[x H]]; [exact H|discriminate H].
  - apply IH. cbn [fst snd assoc] in *. rewrite assoc_dict_set.
    destruct (k0 =? k).
    + left. eexists; reflexivity.
    + exact H.
Qed.

Lemma assoc_fold_set_none (k : string) (l acc : list (string * json)) :
  assoc k acc = None -> assoc k l = None ->
  assoc k (fold_left (fun d kv => dict_set (fst kv) (snd kv) d) l acc) = None.
Proof.
  revert acc. induction l as [|[k0 v0] l IH]; intros acc Ha Hl; cbn [fold_left].
  - exact Ha.
  - cbn [assoc fst snd] in *. destruct (k0 =? k) eqn:E; [discriminate Hl|].
    apply IH; [|exact Hl]. rewrite assoc_dict_set, E. exact Ha.
Qed.

Lemma assoc_map_norm (k : string) (l : list (string * json)) :
  assoc k (map (fun kv => (fst kv, norm (snd kv))) l)
  = option_map norm (assoc k l).
Proof.
  induction l as [|[k0 v0] l IH]; cbn [map assoc fst snd option_map].
  - reflexivity.
  - destruct (k0 =? k); [reflexivity|exact IH].
Qed.

(** A key of an object is a key of the object read back from its text. *)
Lemma norm_keeps_key (k : string) (d : list (string * json)) :
  has_key k (norm (JObj d)) = has_key k (JObj d).
Proof.
  cbn [norm has_key]. unfold dict_of_pairs.
  destruct (assoc k d) as [x|] eqn:E.
  - destruct (assoc_fold_set k
                (map (fun kv => (fst kv, norm (snd kv))) d) []) as [y ->];
      [|reflexivity].
    right. rewrite assoc_map_norm, E. eexists; reflexivity.
  - rewrite assoc_fold_set_none; [reflexivity|reflexivity|].
    rewrite assoc_map_norm, E. reflexivity.
Qed.

Lemma has_key_assoc (k : string) (d : list (string * json)) :
  has_key k (JObj d) = true <-> exists x, assoc k d = Some x.
Proof.
  cbn [has_key]. destruct (assoc k d) as [x|].
  - split; [eexists; reflexivity|reflexivity].
  - split; [discriminate|intros [x H]; discriminate H].
Qed.

(** The text of an object that has the key [error] is an error object. *)
Lemma dumps_error_object (d : list (string * json)) :
  has_key "error" (JObj d) = true -> error_object (dumps (JObj d)).
Proof.
  intros H. rewrite <- norm_keeps_key in H.
  cbn [norm] in H. apply has_key_assoc in H. destruct H as [e He].
  exists (dict_of_pairs (map (fun kv => (fst kv, norm (snd kv))) d)), e.
  split; [apply (loads_dumps (JObj d))|exact He].
Qed.

(** A text that reads back as an object with the key [error]. *)
Lemma loads_error_object (s : string) (v : json) :
  loads s = Some v -> has_key "error" v = true -> error_object s.
Proof.
  intros E H. destruct v as [| | | | |d]; try discriminate H.
  apply has_key_assoc in H. destruct H as [e He].
  exists d, e. split; assumption.
Qed.

End JsonFacts.

(* ================================================================== *)
(** * The run of the executor, attempt by attempt *)
(* ================================================================== *)

Module ExecutorTraceProofs.
Import Py PyFacts Json JsonSpec JsonFacts Sanitizer Executor ExecutorSpec
  ExecutorProofs ExecutorTraceSpec.

Lemma total_app (a b : list N) : total (a ++ b) = (total a + total b)%N.
Proof.
  unfold total. induction a as [|x a IH]; cbn [app fold_right]; lia.
Qed.

Lemma total_cons (x : N) (l : list N) : total (x :: l) = (x + total l)%N.
Proof. reflexivity. Qed.

Section Run.

Variable ep : endpoint.
Variable q : string.

Lemma final_success (a : nat) (results : json) :
  succeeds ep q a results ->
  final_attempt ep q a = true /\ attempt_outcome ep q a = results /\
  failure_report ep q a = [].
Proof.
  unfold succeeds, final_attempt, attempt_outcome, failure_report.
  intros ->. auto.
Qed.

Lemma final_bad_formed (a : nat) (e : exception) :
  fails_bad_formed ep q a e ->
  final_attempt ep q a = true /\
  attempt_outcome ep q a = details_at q a e /\
  failure_report ep q a = [details_at q a e] /\
  details_at q a e = bad_formed_details q e.
Proof.
  unfold fails_bad_formed, final_attempt, attempt_outcome, failure_report,
    details_at.
  intros [-> ->]. auto.
Qed.

Lemma final_retryable (a : nat) (e : exception) :
  fails_retryably ep q a e ->
  final_attempt ep q a = negb (a <? MAX_RETRIES - 1)%nat /\
  attempt_outcome ep q a = details_at q a e /\
  failure_report ep q a = [details_at q a e].
Proof.
  unfold fails_retryably, final_attempt, attempt_outcome, failure_report.
  intros [-> ->]. auto.
Qed.

Lemma loop_end_here (a m : nat) :
  final_attempt ep q a = true -> loop_end ep q a (S m) = a.
Proof. intros H. unfold loop_end. cbn [seq find]. rewrite H. reflexivity. Qed.

Lemma loop_end_next (a m : nat) :
  final_attempt ep q a = false ->
  loop_end ep q a (S (S m)) = loop_end ep q (S a) (S m).
Proof.
  intros H. unfold loop_end. cbn [seq find]. rewrite H.
  destruct (final_attempt ep q (S a)); [reflexivity|].
  destruct (find _ _); [reflexivity|lia].
Qed.

Lemma loop_facts_one (a : nat) (w0 : world) (r : json * world) :
  fst r = attempt_outcome ep q a ->
  attempt_starts (snd r) = (attempt_starts w0 ++ [now w0])%list ->
  queries_sent (snd r) = (queries_sent w0 ++ [full_query q])%list ->
  printed (snd r) = (printed w0 ++ failure_report ep q a)%list ->
  sleeps (snd r) = sleeps w0 ->
  now (snd r) = (now w0 + duration (ep a (full_query q)))%N ->
  loop_facts ep q a w0 a r.
Proof.
  intros Hv Hs Hq Hp Hz Hn. unfold loop_facts, attempts_made.
  replace (S a - a)%nat with 1%nat by lia.
  unfold time_in_attempts. cbn [seq map flat_map repeat total fold_right].
  rewrite Hs, Hq, Hp, Hz, Hn, List.length_app, List.app_nil_r.
  cbn [List.length]. repeat split; try assumption; try reflexivity. lia.
Qed.

(** The loop, by induction on the number of attempts left. *)
Lemma loop_trace :
  forall m a b w0,
    (a + m = MAX_RETRIES)%nat -> (1 <= m)%nat ->
    (a <= loop_end ep q a m < a + m)%nat /\
    final_attempt ep q (loop_end ep q a m) = true /\
    (forall i, (a <= i < loop_end ep q a m)%nat ->
               final_attempt ep q i = false) /\
    loop_facts ep q a w0 (loop_end ep q a m)
      (retry_loop ep q (seq a m) b w0).
Proof.
  induction m as [|m IH]; intros a b w0 Ham Hm; [lia|].
  cbn [seq].
  destruct (@attempt_cases ep q a) as [[r Hr]|[[e He]|[e He]]].
  - destruct (final_success a r Hr) as (F & O & P).
    rewrite (loop_end_here a m F), (@retry_loop_success ep q _ _ _ _ _ Hr).
    split; [lia|]. split; [exact F|]. split; [intros i Hi; lia|].
    apply loop_facts_one; cbn [fst snd]; try reflexivity;
      [symmetry; exact O|rewrite P; symmetry; apply List.app_nil_r].
  - destruct (final_bad_formed a e He) as (F & O & P & D).
    rewrite (loop_end_here a m F), (@retry_loop_bad_formed ep q _ _ _ _ _ He).
    split; [lia|]. split; [exact F|]. split; [intros i Hi; lia|].
    apply loop_facts_one; cbn [fst snd]; try reflexivity;
      [rewrite O; symmetry; exact D|rewrite P; reflexivity].
  - destruct (final_retryable a e He) as (F & O & P).
    destruct (Nat.lt_ge_cases a (MAX_RETRIES - 1)) as [Hlt|Hge].
    + assert (F' : final_attempt ep q a = false).
      { rewrite F. apply Nat.ltb_lt in Hlt. rewrite Hlt. reflexivity. }
      destruct m as [|m']; [unfold MAX_RETRIES in *; lia|].
      rewrite (loop_end_next a m' F').
      rewrite (@retry_loop_retry ep q _ _ _ _ _ He Hlt).
      set (w1 := snd (sleep b (after_failure ep q a e w0))).
      destruct (IH (S a) (b * 2)%N w1 ltac:(lia) ltac:(lia))
        as (B & Fj & Fi & V & A & Q & P' & T).
      set (j := loop_end ep q (S a) (S m')) in *.
      set (r := retry_loop ep q (seq (S a) (S m')) (b * 2) w1) in *.
      split; [lia|]. split; [exact Fj|]. split.
      { intros i Hi. destruct (Nat.eq_dec i a) as [->|Ne]; [exact F'|].
        apply Fi. lia. }
      unfold loop_facts.
      replace (S j - a)%nat with (S (S j - S a)) by lia.
      unfold time_in_attempts in *.
      cbn [repeat seq flat_map map].
      rewrite P, total_cons.
      assert (W1 : attempts_made w1 = S (attempts_made w0) /\
                   queries_sent w1 = (queries_sent w0 ++ [full_query q])%list /\
                   printed w1 = (printed w0 ++ [details_at q a e])%list /\
                   sleeps w1 = (sleeps w0 ++ [b])%list /\
                   now w1 = (now w0 + duration (ep a (full_query q)) + b)%N).
      { unfold w1, attempts_made. cbn. rewrite List.length_app. cbn.
        repeat split; try reflexivity. lia. }
      destruct W1 as (W1a & W1q & W1p & W1s & W1n).
      rewrite W1a in A. rewrite W1q in Q. rewrite W1p in P'.
      rewrite W1s, W1n, total_app in T.
      split; [exact V|].
      split; [rewrite A; lia|].
      split; [rewrite Q, <- List.app_assoc; reflexivity|].
      split; [rewrite P', <- List.app_assoc; reflexivity|].
      unfold total at 2 in T. cbn [fold_right] in T. lia.
    + assert (F' : final_attempt ep q a = true).
      { rewrite F. apply Nat.ltb_ge in Hge. rewrite Hge. reflexivity. }
      rewrite (loop_end_here a m F').
      rewrite (@retry_loop_give_up ep q _ _ _ _ _ He) by lia.
      split; [lia|]. split; [exact F'|]. split; [intros i Hi; lia|].
      apply loop_facts_one; cbn [fst snd]; try reflexivity;
        [symmetry; exact O|rewrite P; reflexivity].
Qed.

(** The whole run, entered in any world. *)
Lemma run_trace (w0 : world) :
  (last_attempt ep q < MAX_RETRIES)%nat /\
  final_attempt ep q (last_attempt ep q) = true /\
  (forall i, (i < last_attempt ep q)%nat -> final_attempt ep q i = false) /\
  loop_facts ep q 0 w0 (last_attempt ep q) (execute_sparql_outcome ep q w0).
Proof.
  unfold last_attempt, execute_sparql_outcome.
  destruct (loop_trace MAX_RETRIES 0 INITIAL_BACKOFF w0 eq_refl)
    as (B & F & Fi & L); [unfold MAX_RETRIES; lia|].
  split; [lia|]. split; [exact F|]. split; [|exact L].
  intros i Hi. apply Fi. lia.
Qed.

Lemma execute_sparql_pair (w0 : world) :
  execute_sparql ep q w0
  = (dumps (fst (execute_sparql_outcome ep q w0)),
     snd (execute_sparql_outcome ep q w0)).
Proof.
  unfold execute_sparql, bind, ret.
  destruct (execute_sparql_outcome ep q w0); reflexivity.
Qed.

Lemma outcome_any_world (w0 : world) :
  fst (execute_sparql_outcome ep q w0)
  = attempt_outcome ep q (last_attempt ep q).
Proof. destruct (run_trace w0) as (_ & _ & _ & H & _). exact H. Qed.

(** The error details are objects with four distinct keys and string
    members: they are read back as they are. *)
Lemma norm_details_at (i : nat) (e : exception) :
  norm (details_at q i e) = details_at q i e.
Proof. unfold details_at. destruct (exc_kind e); reflexivity. Qed.

Lemma details_at_members (i : nat) (e : exception) :
  get "query" (details_at q i e) = Some (JStr q) /\
  get "error_type" (details_at q i e) = Some (JStr (type_name (exc_kind e))) /\
  get "traceback" (details_at q i e) = Some (JStr (exc_traceback e)) /\
  get "error" (details_at q i e)
  = Some (JStr (headline (exc_kind e)
                ++ (if retryable (exc_kind e) then attempt_tag i else "")
                ++ exc_str e)).
Proof.
  unfold details_at, transient_details, unexpected_details,
    bad_formed_details, error_details.
  destruct (exc_kind e); cbn [get assoc String.eqb Ascii.eqb Bool.eqb
    headline retryable type_name];
    repeat split; rewrite ?PyFacts.app_assoc; reflexivity.
Qed.

Lemma details_at_not_fallback (i : nat) (e : exception) :
  details_at q i e <> final_error_details q.
Proof.
  unfold details_at, transient_details, unexpected_details,
    bad_formed_details, error_details, final_error_details.
  destruct (exc_kind e); discriminate.
Qed.

End Run.

(** X9.  A call of [execute_sparql] ends with the first attempt that
    succeeds, raises [QueryBadFormed], or is the third: it makes exactly
    the attempts up to that one, and returns the text of the results of
    that attempt or of the error details built for its exception. *)
Theorem outcome_is_last_attempt (ep : endpoint) (q : string) (w0 : world) :
  let n := last_attempt ep q in
  (n < MAX_RETRIES)%nat /\
  final_attempt ep q n = true /\
  (forall i, (i < n)%nat -> final_attempt ep q i = false) /\
  fst (execute_sparql ep q w0) = dumps (attempt_outcome ep q n) /\
  attempts_made (snd (execute_sparql ep q w0)) = (attempts_made w0 + S n)%nat.
Proof.
  cbv zeta. rewrite execute_sparql_pair. cbn [fst snd].
  destruct (run_trace ep q w0) as (B & F & Fi & V & A & _).
  rewrite V, A, Nat.sub_0_r. auto.
Qed.

(** X10.  The fallback object with the error type [MaxRetriesExceeded] is
    never the outcome of the loop: unless the endpoint itself answers with
    that object, the outcome differs from it. *)
Theorem fallback_never_built (ep : endpoint) (q : string) (w0 : world) :
  (forall i, reply (ep i (full_query q)) <> inl (final_error_details q)) ->
  fst (execute_sparql_outcome ep q w0) <> final_error_details q.
Proof.
  intros H. rewrite outcome_any_world. unfold attempt_outcome.
  destruct (reply (ep (last_attempt ep q) (full_query q))) as [r|e] eqn:E.
  - intros ->. apply (H _ E).
  - apply details_at_not_fallback.
Qed.

(** X11.  Every attempt of a call hands the same text to the endpoint,
    the sanitized and prefixed query, and the error details of every
    failed attempt are printed once, in the order of the attempts. *)
Theorem every_attempt_sends_the_same_text (ep : endpoint) (q : string)
    (w0 : world) :
  let n := last_attempt ep q in
  let w := snd (execute_sparql ep q w0) in
  queries_sent w = (queries_sent w0 ++ repeat (full_query q) (S n))%list /\
  printed w
  = (printed w0 ++ flat_map (failure_report ep q) (seq 0 (S n)))%list.
Proof.
  cbv zeta. rewrite execute_sparql_pair. cbn [snd].
  destruct (run_trace ep q w0) as (_ & _ & _ & _ & _ & Q & P & _).
  rewrite Q, P, Nat.sub_0_r. auto.
Qed.

(** X12.  A call takes the time of its attempts and of its sleeps, and it
    sleeps three seconds at most. *)
Theorem elapsed_time (ep : endpoint) (q : string) :
  let w := snd (run (execute_sparql ep q)) in
  now w = (time_in_attempts ep q 0 (attempts_made w) + total (sleeps w))%N /\
  (total (sleeps w) <= 3)%N.
Proof.
  cbv zeta. unfold run. rewrite execute_sparql_pair. cbn [snd].
  destruct (run_trace ep q initial_world) as (B & _ & _ & _ & A & _ & _ & T).
  rewrite Nat.sub_0_r in *. rewrite A.
  cbn [initial_world attempts_made attempt_starts List.length sleeps now
       total fold_right Nat.add] in *.
  split; [lia|].
  pose proof (@execute_sparql_effects ep q) as (starts & Hs & Hl & Hz & _).
  unfold run in Hs, Hz. cbn [initial_world attempt_starts sleeps app] in Hs, Hz.
  rewrite Hz. unfold MAX_RETRIES, INITIAL_BACKOFF in *.
  destruct starts as [|s0 [|s1 [|s2 [|s3 starts]]]];
    cbn [List.length] in Hl; try lia; cbn; lia.
Qed.

(** X13.  The text returned by [execute_sparql] is valid JSON.  After a
    success it parses into the results of the last attempt; after a
    failure it parses into the error details, whose [query] is the query
    as given (not the sanitized text), whose [error_type] is the name of
    the class of the exception and whose [error] ends with its text. *)
Theorem execute_sparql_output_parses (ep : endpoint) (q : string)
    (w0 : world) :
  let n := last_attempt ep q in
  let out := fst (execute_sparql ep q w0) in
  valid_json out /\
  (forall results,
     reply (ep n (full_query q)) = inl results ->
     loads out = Some (norm results)) /\
  (forall e,
     reply (ep n (full_query q)) = inr e ->
     loads out = Some (details_at q n e) /\
     get "query" (details_at q n e) = Some (JStr q) /\
     get "error_type" (details_at q n e)
     = Some (JStr (type_name (exc_kind e))) /\
     get "error" (details_at q n e)
     = Some (JStr (headline (exc_kind e)
                   ++ (if retryable (exc_kind e) then attempt_tag n else "")
                   ++ exc_str e))).
Proof.
  cbv zeta. rewrite execute_sparql_pair. cbn [fst].
  rewrite outcome_any_world.
  split; [apply dumps_valid|]. split.
  - intros r E. rewrite loads_dumps. unfold attempt_outcome. rewrite E.
    reflexivity.
  - intros e E. rewrite loads_dumps. unfold attempt_outcome. rewrite E.
    rewrite norm_details_at.
    destruct (details_at_members q (last_attempt ep q) e) as (A & B & _ & D).
    auto.
Qed.

Lemma fallback_never_built_witness :
  outcome_error_type
    (fst (execute_sparql_outcome (always_failing Timeout) "ASK {}"
            initial_world))
  = Some (JStr "Timeout") /\
  fst (execute_sparql_outcome (always_failing Timeout) "ASK {}" initial_world)
  <> final_error_details "ASK {}".
Proof.
  split; [reflexivity|].
  apply (fallback_never_built (always_failing Timeout) "ASK {}" initial_world).
  intros i. discriminate.
Defined.

End ExecutorTraceProofs.

(* ================================================================== *)
(** * Properties of the tool facade *)
(* ================================================================== *)

Module FacadeProofs.
Import Py PyFacts Json JsonSpec JsonFacts Executor Validator Facade FacadeSpec.

(** The text of an object whose first key is [error]. *)
Lemma dumps_error_first (e : json) (d : list (string * json)) :
  error_object (dumps (JObj (("error", e) :: d))).
Proof. apply dumps_error_object. reflexivity. Qed.

Lemma obj3_error_object (a b c : string) : error_object (dumps (obj3 a b c)).
Proof. apply dumps_error_first. Qed.

Section Tools.

Variable search_entity : string -> string.
Variable search_property : string -> string.
Variable get_entity_metadata : string -> list (string * json).
Variable ep : endpoint.
Variable py_repr : json -> string.
Variable type_error_str : json -> string.

(** *** The two searches *)

Lemma search_wikidata_entity_cases (query : string) :
  if search_failed "Error searching for entity:" "No entity found"
       (search_entity query)
  then error_object (search_wikidata_entity search_entity query)
  else search_wikidata_entity search_entity query = search_entity query.
Proof.
  unfold search_failed, search_wikidata_entity.
  destruct (startswith "Error searching for entity:" (search_entity query));
    cbn [orb]; [apply obj3_error_object|].
  destruct (search_entity query =? "No entity found");
    [apply obj3_error_object|reflexivity].
Qed.

Lemma search_wikidata_property_cases (query : string) :
  if search_failed "Error searching for property:" "No property found"
       (search_property query)
  then error_object (search_wikidata_property search_property query)
  else search_wikidata_property search_property query = search_property query.
Proof.
  unfold search_failed, search_wikidata_property.
  destruct (startswith "Error searching for property:" (search_property query));
    cbn [orb]; [apply obj3_error_object|].
  destruct (search_property query =? "No property found");
    [apply obj3_error_object|reflexivity].
Qed.

(** *** [get_wikidata_metadata] *)

Lemma get_wikidata_metadata_dumps (entity_id : string) :
  exists v, get_wikidata_metadata get_entity_metadata entity_id = dumps v.
Proof.
  unfold get_wikidata_metadata.
  destruct (assoc "error" (get_entity_metadata entity_id));
    eexists; reflexivity.
Qed.

Lemma get_wikidata_metadata_cases (entity_id : string) :
  match assoc "error" (get_entity_metadata entity_id) with
  | Some _ =>
      error_object (get_wikidata_metadata get_entity_metadata entity_id)
  | None =>
      get_wikidata_metadata get_entity_metadata entity_id
      = dumps (JObj (get_entity_metadata entity_id))
  end.
Proof.
  unfold get_wikidata_metadata.
  destruct (assoc "error" (get_entity_metadata entity_id));
    [apply dumps_error_first|reflexivity].
Qed.

(** *** [execute_wikidata_sparql] *)

Lemma execute_sparql_run (q : string) (w : world) :
  execute_sparql ep q w
  = (dumps (fst (execute_sparql_outcome ep q w)),
     snd (execute_sparql_outcome ep q w)).
Proof.
  unfold execute_sparql, bind, ret.
  destruct (execute_sparql_outcome ep q w); reflexivity.
Qed.

Lemma on_exception_error_object (msg : string) :
  error_object (on_exception msg).
Proof.
  unfold on_exception.
  destruct (contains "Lexical error" msg && contains "Encountered: " msg);
    apply dumps_error_first.
Qed.

Lemma error_object_valid (s : string) : error_object s -> valid_json s.
Proof. intros (d & e & H & _). exists (JObj d). exact H. Qed.

Lemma execute_wikidata_sparql_cases (q : string) (w : world) :
  payload_or_error (fst (execute_sparql ep q w))
    (fst (execute_wikidata_sparql ep py_repr type_error_str q w)).
Proof.
  unfold execute_wikidata_sparql, payload_or_error.
  destruct (_validate_sparql_query q) as [|e s];
    [|right; apply obj3_error_object].
  unfold bind. rewrite execute_sparql_run. cbv beta iota.
  rewrite loads_dumps. cbn [fst].
  destruct (has_key "error" (norm (fst (execute_sparql_outcome ep q w)))
            && has_key "error_type"
                 (norm (fst (execute_sparql_outcome ep q w))));
    [|left; reflexivity].
  right.
  destruct (execution_suggestion py_repr _ _ _) as [suggestion|c];
    unfold print_details, ret; cbn [fst].
  - apply dumps_error_first.
  - apply on_exception_error_object.
Qed.

Lemma execute_wikidata_sparql_valid (q : string) (w : world) :
  valid_json (fst (execute_wikidata_sparql ep py_repr type_error_str q w)).
Proof.
  destruct (execute_wikidata_sparql_cases q w) as [H|H].
  - rewrite H, execute_sparql_run. apply dumps_valid.
  - apply error_object_valid, H.
Qed.

(** *** [find_entity_facts] *)

Lemma fetch_facts_valid (entity_id : string) (metadata : json)
    (property_id property_name : option string) (w : world) :
  valid_json (fst (fetch_facts ep py_repr type_error_str entity_id metadata
                     property_id property_name w)).
Proof.
  unfold fetch_facts, bind.
  destruct (execute_wikidata_sparql ep py_repr type_error_str _ w) as [s w'].
  destruct (loads s); apply dumps_valid.
Qed.

Lemma facts_after_metadata_valid (entity_name entity_id : string)
    (metadata : json) (property_name : option string) (w : world) :
  valid_json
    (fst (facts_after_metadata search_property ep py_repr type_error_str
            entity_name entity_id metadata property_name w)).
Proof.
  unfold facts_after_metadata.
  destruct property_name as [pname|]; [|apply fetch_facts_valid].
  destruct (truthy pname); [|apply fetch_facts_valid].
  destruct (match loads (search_wikidata_property search_property pname) with
            | Some d => has_key "error" d
            | None => false
            end).
  - apply dumps_valid.
  - apply fetch_facts_valid.
Qed.

Lemma find_entity_facts_valid (entity_name : string)
    (property_name : option string) (w : world) :
  valid_json
    (fst (find_entity_facts search_entity search_property get_entity_metadata
            ep py_repr type_error_str entity_name property_name w)).
Proof.
  unfold find_entity_facts.
  destruct (loads (search_wikidata_entity search_entity entity_name))
    as [d|] eqn:E.
  - destruct (has_key "error" d).
    + exists d. exact E.
    + destruct (get_wikidata_metadata_dumps
                  (search_wikidata_entity search_entity entity_name))
        as [v ->].
      rewrite loads_dumps.
      destruct (has_key "error" (norm v));
        [apply dumps_valid|apply facts_after_metadata_valid].
  - destruct (get_wikidata_metadata_dumps
                (search_wikidata_entity search_entity entity_name))
      as [v ->].
    rewrite loads_dumps.
    destruct (has_key "error" (norm v));
      [apply dumps_valid|apply facts_after_metadata_valid].
Qed.

(** *** [get_related_entities] *)

Lemma get_related_entities_cases (entity_id : string)
    (relation_property : option string) (limit : Z) (w : world) :
  exists q,
    fst (get_related_entities ep py_repr type_error_str entity_id
           relation_property limit w)
    = fst (execute_wikidata_sparql ep py_repr type_error_str q w).
Proof.
  unfold get_related_entities, bind.
  match goal with
  | |- context [execute_wikidata_sparql _ _ _ ?q w] => exists q;
      pose proof (execute_wikidata_sparql_valid q w) as [v Hv];
      destruct (execute_wikidata_sparql ep py_repr type_error_str q w)
        as [s w']
  end.
  cbn [fst] in *. rewrite Hv. reflexivity.
Qed.

(** *** [get_wikidata_properties] *)

(** The value that [get_entity_properties] returns is already parsed; when
    it is a dictionary, as every error report and every result set of the
    endpoint is, parsing it again raises [TypeError], which the handler for
    [JSONDecodeError] does not catch. *)
Lemma get_wikidata_properties_raises (entity_id : string) (w : world) :
  is_dict (fst (execute_sparql_outcome ep (properties_query entity_id) w))
  = true ->
  fst (get_wikidata_properties ep entity_id w) = Raised TypeError.
Proof.
  intros H. unfold get_wikidata_properties, get_entity_properties, bind.
  rewrite execute_sparql_run. cbv beta iota. rewrite loads_dumps.
  unfold ret. cbv beta iota.
  destruct (fst (execute_sparql_outcome ep (properties_query entity_id) w));
    try discriminate H.
  reflexivity.
Qed.

(** C1, amended: the two searches return an object with the key [error]
    when the search failed, and the identifier found by the search,
    unchanged, otherwise; [get_wikidata_metadata] returns an object with
    the key [error] when the lookup reports one and the text of the
    metadata otherwise; [execute_wikidata_sparql] returns the output of
    [execute_sparql] or an object with the key [error];
    [get_related_entities] returns what [execute_wikidata_sparql] returns
    for the query it builds; and the outputs of [get_wikidata_metadata],
    [execute_wikidata_sparql], [find_entity_facts] and
    [get_related_entities] are valid JSON for every input. *)
Theorem tools_return_json_or_identifier :
  (forall query,
     if search_failed "Error searching for entity:" "No entity found"
          (search_entity query)
     then error_object (search_wikidata_entity search_entity query)
     else search_wikidata_entity search_entity query = search_entity query)
  /\
  (forall query,
     if search_failed "Error searching for property:" "No property found"
          (search_property query)
     then error_object (search_wikidata_property search_property query)
     else search_wikidata_property search_property query
          = search_property query)
  /\
  (forall entity_id,
     valid_json (get_wikidata_metadata get_entity_metadata entity_id) /\
     match assoc "error" (get_entity_metadata entity_id) with
     | Some _ =>
         error_object (get_wikidata_metadata get_entity_metadata entity_id)
     | None =>
         get_wikidata_metadata get_entity_metadata entity_id
         = dumps (JObj (get_entity_metadata entity_id))
     end)
  /\
  (forall sparql_query w,
     valid_json
       (fst (execute_wikidata_sparql ep py_repr type_error_str
               sparql_query w)) /\
     payload_or_error (fst (execute_sparql ep sparql_query w))
       (fst (execute_wikidata_sparql ep py_repr type_error_str
               sparql_query w)))
  /\
  (forall entity_name property_name w,
     valid_json
       (fst (find_entity_facts search_entity search_property
               get_entity_metadata ep py_repr type_error_str
               entity_name property_name w)))
  /\
  (forall entity_id relation_property limit w,
     valid_json
       (fst (get_related_entities ep py_repr type_error_str entity_id
               relation_property limit w)) /\
     exists q,
       fst (get_related_entities ep py_repr type_error_str entity_id
              relation_property limit w)
       = fst (execute_wikidata_sparql ep py_repr type_error_str q w)).
Proof.
  split; [exact search_wikidata_entity_cases|].
  split; [exact search_wikidata_property_cases|].
  split.
  { intros entity_id. split; [|apply get_wikidata_metadata_cases].
    destruct (get_wikidata_metadata_dumps entity_id) as [v ->].
    apply dumps_valid. }
  split.
  { intros q w. split;
      [apply execute_wikidata_sparql_valid|apply execute_wikidata_sparql_cases]. }
  split; [exact find_entity_facts_valid|].
  intros entity_id relation_property limit w.
  destruct (get_related_entities_cases entity_id relation_property limit w)
    as [q E].
  split; [|exists q; exact E].
  rewrite E. apply execute_wikidata_sparql_valid.
Qed.

End Tools.

(** C1 as stated fails: when the search finds the entity, the tool returns
    the bare identifier [Q937], which [json.loads] rejects. *)
Lemma bare_entity_id_is_not_json :
  search_wikidata_entity finds_Q937 "Albert Einstein" = "Q937" /\
  loads (search_wikidata_entity finds_Q937 "Albert Einstein") = None.
Proof. split; vm_compute; reflexivity. Qed.

(** The same for a property identifier. *)
Lemma bare_property_id_is_not_json :
  search_wikidata_property (fun _ => "P31") "instance of" = "P31" /\
  loads "P31" = None.
Proof. split; vm_compute; reflexivity. Qed.

(** [get_wikidata_properties] leaves with [TypeError] both when the
    endpoint keeps failing and when it answers with a result set. *)
Lemma get_wikidata_properties_type_error :
  fst (run (get_wikidata_properties (always_failing Timeout) "Q937"))
  = Raised TypeError /\
  fst (run (get_wikidata_properties
              (fun _ _ => succeeding (JObj [("results", JObj [("bindings", JArr [])])]))
              "Q937"))
  = Raised TypeError.
Proof.
  split; apply get_wikidata_properties_raises; vm_compute; reflexivity.
Qed.

(** The report of a failed property search in [find_entity_facts] has no
    key [error] of its own. *)
Lemma property_failure_report_has_no_error_key :
  let out :=
    fst (run (find_entity_facts finds_Q937 (fun _ => "No property found")
                labelled (always_failing Timeout)
                (fun _ => "") (fun _ => "")
                "Albert Einstein" (Some "height"))) in
  exists d,
    loads out = Some (JObj d) /\
    assoc "error" d = None /\
    assoc "error_searching_property" d <> None.
Proof.
  vm_compute. eexists. split; [reflexivity|].
  split; [reflexivity|discriminate].
Qed.

End FacadeProofs.

(* ================================================================== *)
(** * The tools, the validator and the executor together *)
(* ================================================================== *)

Module ToolFlowProofs.
Import Py PyFacts Json JsonSpec JsonFacts Sanitizer Executor ExecutorSpec
  ExecutorTraceSpec ExecutorTraceProofs Validator Facade FacadeSpec
  KeywordSpec KeywordProofs ToolFlowSpec FacadeProofs.

(** Objects with distinct keys and string members are read back as they
    are. *)
Lemma norm_validation_failure (e s : string) :
  norm (validation_failure e s) = validation_failure e s.
Proof. reflexivity. Qed.

Section Tools.

Variable search_entity : string -> string.
Variable search_property : string -> string.
Variable get_entity_metadata : string -> list (string * json).
Variable ep : endpoint.
Variable py_repr : json -> string.
Variable type_error_str : json -> string.

(** A rejected query is answered without a call of the executor. *)
Lemma rejected_without_call (q e s : string) (w : world) :
  _validate_sparql_query q = Invalid e s ->
  execute_wikidata_sparql ep py_repr type_error_str q w
  = (dumps (validation_failure e s), w).
Proof.
  intros H. unfold execute_wikidata_sparql. rewrite H. reflexivity.
Qed.

(** X14.  [execute_wikidata_sparql] answers a query in which SELECT is
    followed by a blank with the validation-failure object, and makes no
    call of the endpoint: the world is left as it was. *)
Theorem select_query_never_executed (q : string) (w : world) :
  select_then_blank q ->
  exists e s,
    execute_wikidata_sparql ep py_repr type_error_str q w
    = (dumps (validation_failure e s), w).
Proof.
  intros H. destruct (select_then_blank_invalid q H) as (e & s & V).
  exists e, s. apply rejected_without_call, V.
Qed.

(** *** The queries built by the tools *)

Lemma facts_query_for_select (entity_id property_id : string) :
  select_then_blank (facts_query_for entity_id property_id).
Proof.
  exists (nl ++ "        "), "SELECT".
  eexists. split; [reflexivity|]. split; [reflexivity|].
  eexists; eexists. split; reflexivity.
Qed.

Lemma facts_query_general_select (entity_id : string) :
  select_then_blank (facts_query_general entity_id).
Proof.
  exists (nl ++
    "        # General entity info: Fetch core data then labels for efficiency."
    ++ nl ++ "        "), "SELECT".
  eexists. split; [reflexivity|]. split; [reflexivity|].
  eexists; eexists. split; reflexivity.
Qed.

Lemma related_query_for_select (entity_id relation_property : string)
    (limit : Z) :
  select_then_blank (related_query_for entity_id relation_property limit).
Proof.
  exists (nl ++ "        "), "SELECT".
  eexists. split; [reflexivity|]. split; [reflexivity|].
  eexists; eexists. split; reflexivity.
Qed.

Lemma related_query_general_select (entity_id : string) (limit : Z) :
  select_then_blank (related_query_general entity_id limit).
Proof.
  exists (nl ++
    "        # Find related entities: Apply LIMIT before fetching labels."
    ++ nl ++ "        "), "SELECT".
  eexists. split; [reflexivity|]. split; [reflexivity|].
  eexists; eexists. split; reflexivity.
Qed.

Lemma tool_rejects (q : string) (w : world) :
  select_then_blank q ->
  exists e s,
    execute_wikidata_sparql ep py_repr type_error_str q w
    = (dumps (validation_failure e s), w).
Proof.
  intros H. destruct (select_then_blank_invalid q H) as (e & s & V).
  exists e, s. apply rejected_without_call, V.
Qed.

(** X15.  For every entity, relation and limit, [get_related_entities]
    returns the validation-failure object and makes no call of the
    endpoint: both queries that it builds hold SELECT followed by a
    blank. *)
Theorem get_related_entities_never_executes (entity_id : string)
    (relation_property : option string) (limit : Z) (w : world) :
  exists e s,
    get_related_entities ep py_repr type_error_str entity_id
      relation_property limit w
    = (dumps (validation_failure e s), w).
Proof.
  unfold get_related_entities, bind.
  match goal with
  | |- context [execute_wikidata_sparql _ _ _ ?q w] =>
      assert (S : select_then_blank q)
  end.
  { destruct relation_property as [rp|];
      [destruct (truthy rp)|];
      first [apply related_query_for_select
            |apply related_query_general_select]. }
  destruct (tool_rejects _ w S) as (e & s & ->).
  exists e, s. rewrite loads_dumps. reflexivity.
Qed.

(** The facts stage of [find_entity_facts]. *)
Lemma fetch_facts_rejected (entity_id : string) (metadata : json)
    (property_id property_name : option string) (w : world) :
  exists e s,
    fetch_facts ep py_repr type_error_str entity_id metadata
      property_id property_name w
    = (dumps (facts_report metadata
                (if truthy_opt property_id
                 then JObj [ ("id", json_of_opt property_id);
                             ("name", json_of_opt property_name) ]
                 else JNull)
                (validation_failure e s)), w).
Proof.
  unfold fetch_facts, bind.
  match goal with
  | |- context [execute_wikidata_sparql _ _ _ ?q w] =>
      assert (S : select_then_blank q)
  end.
  { destruct property_id as [pid|];
      [destruct (truthy pid)|];
      first [apply facts_query_for_select
            |apply facts_query_general_select]. }
  destruct (tool_rejects _ w S) as (e & s & ->).
  exists e, s. rewrite loads_dumps, norm_validation_failure. reflexivity.
Qed.

Lemma facts_after_metadata_world (entity_name entity_id : string)
    (metadata : json) (property_name : option string) (w : world) :
  snd (facts_after_metadata search_property ep py_repr type_error_str
         entity_name entity_id metadata property_name w) = w.
Proof.
  unfold facts_after_metadata.
  assert (F : forall pid,
            snd (fetch_facts ep py_repr type_error_str entity_id metadata
                   pid property_name w) = w).
  { intros pid.
    destruct (fetch_facts_rejected entity_id metadata pid property_name w)
      as (e & s & ->). reflexivity. }
  destruct property_name as [pname|]; [|apply F].
  destruct (truthy pname); [|apply F].
  destruct (match loads (search_wikidata_property search_property pname) with
            | Some d => has_key "error" d
            | None => false
            end); [reflexivity|apply F].
Qed.

(** X16.  For every input and every behaviour of the searches and of the
    metadata lookup, [find_entity_facts] makes no call of the endpoint:
    the world is left as it was. *)
Theorem find_entity_facts_never_executes (entity_name : string)
    (property_name : option string) (w : world) :
  snd (find_entity_facts search_entity search_property get_entity_metadata
         ep py_repr type_error_str entity_name property_name w) = w.
Proof.
  unfold find_entity_facts.
  destruct (match loads (search_wikidata_entity search_entity entity_name) with
            | Some d => has_key "error" d
            | None => false
            end); [reflexivity|].
  destruct (loads (get_wikidata_metadata get_entity_metadata
                     (search_wikidata_entity search_entity entity_name)))
    as [metadata|]; [|reflexivity].
  destruct (has_key "error" metadata); [reflexivity|].
  apply facts_after_metadata_world.
Qed.

(** *** The executor behind the tools *)

Lemma has_key_norm (k : string) (v : json) :
  has_key k (norm v) = has_key k v.
Proof.
  destruct v as [| | | | |d]; try reflexivity. apply norm_keeps_key.
Qed.

Lemma attempt_outcome_is_dict (q : string) :
  answers_with_objects ep ->
  is_dict (attempt_outcome ep q (last_attempt ep q)) = true.
Proof.
  intros H. unfold attempt_outcome.
  destruct (reply (ep (last_attempt ep q) (full_query q))) as [r|e] eqn:E.
  - apply (H _ _ _ E).
  - unfold details_at. destruct (exc_kind e); reflexivity.
Qed.

(** X17.  When the result sets of the endpoint are JSON objects,
    [get_wikidata_properties] raises [TypeError] for every entity: the
    value it parses is the dictionary that [get_entity_properties] has
    parsed already, after a success and after a failure alike. *)
Theorem get_wikidata_properties_always_raises (entity_id : string)
    (w : world) :
  answers_with_objects ep ->
  fst (get_wikidata_properties ep entity_id w) = Raised TypeError.
Proof.
  intros H. apply get_wikidata_properties_raises.
  rewrite outcome_any_world. apply attempt_outcome_is_dict, H.
Qed.

(** The suggestion is always built: the error message of the executor is
    a string. *)
Lemma execution_suggestion_returns (result_data : json) (msg : string)
    (error_type : json) :
  exists suggestion,
    execution_suggestion py_repr result_data (JStr msg) error_type
    = Returned suggestion.
Proof.
  unfold execution_suggestion.
  destruct (is_str "QueryBadFormed" error_type); [eexists; reflexivity|].
  destruct (is_str "Timeout" error_type); [eexists; reflexivity|].
  destruct (is_str "ConnectionError" error_type); [eexists; reflexivity|].
  destruct (is_str "MaxRetriesExceeded" error_type); [eexists; reflexivity|].
  cbn [py_in]. destruct (contains "Error executing query" msg);
    eexists; reflexivity.
Qed.

(** X18.  When the query is valid and the last attempt of the executor
    fails, [execute_wikidata_sparql] returns an object with the keys
    [error], [original_error_message], [error_type], [query] and
    [suggestion]: the message and the error type are those of the
    executor, the query is the query as given, and a suggestion is always
    built (no [TypeError] on this path). *)
Theorem execution_error_report (q : string) (e : exception) (w : world) :
  _validate_sparql_query q = Valid ->
  reply (ep (last_attempt ep q) (full_query q)) = inr e ->
  exists message suggestion,
    get "error" (details_at q (last_attempt ep q) e) = Some (JStr message) /\
    fst (execute_wikidata_sparql ep py_repr type_error_str q w)
    = dumps (execution_failure (JStr message)
               (JStr (type_name (exc_kind e))) (JStr q) (JStr suggestion)).
Proof.
  intros V E. unfold execute_wikidata_sparql. rewrite V.
  unfold bind. rewrite execute_sparql_pair. cbv beta iota.
  rewrite loads_dumps, outcome_any_world.
  unfold attempt_outcome. rewrite E. rewrite norm_details_at.
  destruct (details_at_members q (last_attempt ep q) e) as (A & B & _ & D).
  assert (K : has_key "error" (details_at q (last_attempt ep q) e)
              && has_key "error_type" (details_at q (last_attempt ep q) e)
              = true).
  { unfold details_at. destruct (exc_kind e); reflexivity. }
  rewrite K. unfold get_default. rewrite A, B, D.
  match goal with
  | |- context [execution_suggestion _ ?d (JStr ?m) ?t] =>
      destruct (execution_suggestion_returns d m t) as [sg ->];
      exists m, sg
  end.
  split; [reflexivity|]. reflexivity.
Qed.

(** X19.  When the query is valid and the last attempt of the executor
    succeeds with results that do not hold both keys [error] and
    [error_type], [execute_wikidata_sparql] returns what [execute_sparql]
    returns, the text of the results, and does nothing more. *)
Theorem results_pass_through (q : string) (results : json) (w : world) :
  _validate_sparql_query q = Valid ->
  reply (ep (last_attempt ep q) (full_query q)) = inl results ->
  has_key "error" results && has_key "error_type" results = false ->
  execute_wikidata_sparql ep py_repr type_error_str q w
  = execute_sparql ep q w /\
  fst (execute_sparql ep q w) = dumps results.
Proof.
  intros V E K. unfold execute_wikidata_sparql. rewrite V.
  unfold bind. rewrite execute_sparql_pair. cbv beta iota.
  rewrite loads_dumps, outcome_any_world.
  unfold attempt_outcome. rewrite E, !has_key_norm, K.
  split; reflexivity.
Qed.

(** *** The early exits of [find_entity_facts] *)

(** X20.  When the entity search fails, [find_entity_facts] returns the
    error object of [search_wikidata_entity] unchanged, and looks up
    nothing more. *)
Theorem failed_search_ends_find_entity_facts (entity_name : string)
    (property_name : option string) (w : world) :
  search_failed "Error searching for entity:" "No entity found"
    (search_entity entity_name) = true ->
  find_entity_facts search_entity search_property get_entity_metadata
    ep py_repr type_error_str entity_name property_name w
  = (search_wikidata_entity search_entity entity_name, w) /\
  error_object (search_wikidata_entity search_entity entity_name).
Proof.
  intros H.
  pose proof (search_wikidata_entity_cases search_entity entity_name) as C.
  rewrite H in C. split; [|exact C].
  unfold find_entity_facts.
  destruct C as (d & e & L & A). rewrite L.
  cbn [has_key]. rewrite A. reflexivity.
Qed.

(** X21.  When the entity is found and the metadata lookup reports an
    error, [find_entity_facts] returns the error object of
    [get_wikidata_metadata] with one more key, [context], which names the
    entity searched for and the identifier found. *)
Theorem failed_lookup_ends_find_entity_facts (entity_name : string)
    (property_name : option string) (details : json) (w : world) :
  reports_error (search_wikidata_entity search_entity entity_name) = false ->
  assoc "error"
    (get_entity_metadata (search_wikidata_entity search_entity entity_name))
  = Some details ->
  find_entity_facts search_entity search_property get_entity_metadata
    ep py_repr type_error_str entity_name property_name w
  = (dumps (metadata_failure entity_name
              (search_wikidata_entity search_entity entity_name)
              (norm details)), w).
Proof.
  intros S M. unfold find_entity_facts.
  unfold reports_error in S. rewrite S.
  unfold get_wikidata_metadata. rewrite M. rewrite loads_dumps.
  reflexivity.
Qed.

(** X22.  When the entity is found, its metadata has no error and the
    property search, if any, does not fail, [find_entity_facts] returns an
    object with the keys [entity], [property] and [facts] in which the
    facts are the validation-failure object: never results of the
    endpoint. *)
Theorem facts_are_a_validation_failure (entity_name : string)
    (property_name : option string) (w : world) :
  reports_error (search_wikidata_entity search_entity entity_name) = false ->
  assoc "error"
    (get_entity_metadata (search_wikidata_entity search_entity entity_name))
  = None ->
  (forall pname, property_name = Some pname -> truthy pname = true ->
     reports_error (search_wikidata_property search_property pname) = false) ->
  exists property e s,
    find_entity_facts search_entity search_property get_entity_metadata
      ep py_repr type_error_str entity_name property_name w
    = (dumps (facts_report
                (norm (JObj (get_entity_metadata
                   (search_wikidata_entity search_entity entity_name))))
                property (validation_failure e s)), w).
Proof.
  intros S M P. unfold find_entity_facts.
  unfold reports_error in S. rewrite S.
  unfold get_wikidata_metadata. rewrite M. rewrite loads_dumps.
  rewrite has_key_norm. cbn [has_key]. rewrite M.
  set (metadata := norm (JObj _)).
  set (entity_id := search_wikidata_entity search_entity entity_name).
  assert (F : forall pid,
            exists property e s,
              fetch_facts ep py_repr type_error_str entity_id metadata pid
                property_name w
              = (dumps (facts_report metadata property
                          (validation_failure e s)), w)).
  { intros pid.
    destruct (fetch_facts_rejected entity_id metadata pid property_name w)
      as (e & s & ->). eexists; exists e, s. reflexivity. }
  unfold facts_after_metadata.
  destruct property_name as [pname|]; [|apply F].
  destruct (truthy pname) eqn:T; [|apply F].
  specialize (P pname eq_refl T). unfold reports_error in P.
  rewrite P. apply F.
Qed.

(** X23.  [get_entity_properties] never fails to parse the text returned
    by [execute_sparql]: it returns the results of the last attempt, or
    the error details as a dictionary, and leaves the world of that
    call. *)
Theorem get_entity_properties_returns_outcome (entity_id : string)
    (w : world) :
  get_entity_properties ep entity_id w
  = (Returned (norm (attempt_outcome ep (properties_query entity_id)
                       (last_attempt ep (properties_query entity_id)))),
     snd (execute_sparql ep (properties_query entity_id) w)).
Proof.
  unfold get_entity_properties, bind, ret.
  rewrite execute_sparql_pair. cbv beta iota. cbn [snd].
  rewrite loads_dumps, outcome_any_world. reflexivity.
Qed.

End Tools.




(** *** The theorems at work *)

Lemma select_query_never_executed_witness :
  exists e s,
    execute_wikidata_sparql (always_failing Timeout) (fun _ => "")
      (fun _ => "") "SELECT ?item WHERE { ?item wdt:P31 wd:Q5 . }"
      initial_world
    = (dumps (validation_failure e s), initial_world).
Proof.
  apply (select_query_never_executed (always_failing Timeout) (fun _ => "")
           (fun _ => "") "SELECT ?item WHERE { ?item wdt:P31 wd:Q5 . }"
           initial_world).
  exists "", "SELECT", " ?item WHERE { ?item wdt:P31 wd:Q5 . }".
  split; [reflexivity|]. split; [reflexivity|].
  exists " "%char, "?item WHERE { ?item wdt:P31 wd:Q5 . }".
  split; reflexivity.
Defined.

Lemma get_wikidata_properties_always_raises_witness :
  fst (get_wikidata_properties
         (fun _ _ => succeeding (JObj [("results", JObj [("bindings", JArr [])])]))
         "Q937" initial_world)
  = Raised TypeError.
Proof.
  apply (get_wikidata_properties_always_raises
           (fun _ _ => succeeding (JObj [("results", JObj [("bindings", JArr [])])]))
           "Q937" initial_world).
  intros i q results H. unfold succeeding in H. cbn [reply] in H.
  inversion H. reflexivity.
Defined.

Lemma execution_error_report_witness :
  exists message suggestion,
    get "error"
      (details_at "ASK { wd:Q937 wdt:P31 wd:Q5 . }"
         (last_attempt (always_failing Timeout) "ASK { wd:Q937 wdt:P31 wd:Q5 . }")
         (mkException Timeout "down" ""))
    = Some (JStr message) /\
    fst (execute_wikidata_sparql (always_failing Timeout) (fun _ => "")
           (fun _ => "") "ASK { wd:Q937 wdt:P31 wd:Q5 . }" initial_world)
    = dumps (execution_failure (JStr message) (JStr "Timeout")
               (JStr "ASK { wd:Q937 wdt:P31 wd:Q5 . }") (JStr suggestion)).
Proof.
  apply (execution_error_report (always_failing Timeout) (fun _ => "")
           (fun _ => "") "ASK { wd:Q937 wdt:P31 wd:Q5 . }"
           (mkException Timeout "down" "") initial_world).
  - vm_compute. reflexivity.
  - reflexivity.
Defined.

Lemma results_pass_through_witness :
  fst (execute_wikidata_sparql
         (fun _ _ => succeeding (JObj [("boolean", JBool true)]))
         (fun _ => "") (fun _ => "") "ASK { wd:Q937 wdt:P31 wd:Q5 . }"
         initial_world)
  = dumps (JObj [("boolean", JBool true)]).
Proof.
  destruct (results_pass_through
              (fun _ _ => succeeding (JObj [("boolean", JBool true)]))
              (fun _ => "") (fun _ => "") "ASK { wd:Q937 wdt:P31 wd:Q5 . }"
              (JObj [("boolean", JBool true)]) initial_world)
    as [E V].
  - vm_compute. reflexivity.
  - reflexivity.
  - reflexivity.
  - rewrite E. exact V.
Defined.

Lemma failed_search_ends_find_entity_facts_witness :
  error_object
    (fst (find_entity_facts (fun _ => "No entity found") finds_Q937 labelled
            (always_failing Timeout) (fun _ => "") (fun _ => "")
            "Albert Einstein" None initial_world)).
Proof.
  destruct (failed_search_ends_find_entity_facts
              (fun _ => "No entity found") finds_Q937 labelled
              (always_failing Timeout) (fun _ => "") (fun _ => "")
              "Albert Einstein" None initial_world) as [E O].
  - reflexivity.
  - rewrite E. exact O.
Defined.

Lemma failed_lookup_ends_find_entity_facts_witness :
  find_entity_facts finds_Q937 finds_Q937 not_found
    (always_failing Timeout) (fun _ => "") (fun _ => "")
    "Albert Einstein" None initial_world
  = (dumps (metadata_failure "Albert Einstein" "Q937"
              (JStr "Entity Q937 not found")), initial_world).
Proof.
  apply (failed_lookup_ends_find_entity_facts finds_Q937 finds_Q937 not_found
           (always_failing Timeout) (fun _ => "") (fun _ => "")
           "Albert Einstein" None (JStr "Entity Q937 not found")
           initial_world).
  - vm_compute. reflexivity.
  - reflexivity.
Defined.

Lemma facts_are_a_validation_failure_witness :
  exists property e s,
    find_entity_facts finds_Q937 finds_Q937 labelled
      (always_failing Timeout) (fun _ => "") (fun _ => "")
      "Albert Einstein" None initial_world
    = (dumps (facts_report (norm (JObj (labelled "Q937"))) property
                (validation_failure e s)), initial_world).
Proof.
  apply (facts_are_a_validation_failure finds_Q937 finds_Q937 labelled
           (always_failing Timeout) (fun _ => "") (fun _ => "")
           "Albert Einstein" None initial_world).
  - vm_compute. reflexivity.
  - reflexivity.
  - intros pname H. discriminate H.
Defined.

End ToolFlowProofs.

(* ================================================================== *)
(** * Properties of the API wrappers and of the tools over them *)
(* ================================================================== *)

Module ApiProofs.
Import Py PyFacts Json JsonSpec JsonFacts Api Facade FacadeSpec
  FacadeProofs ApiSpec.

Lemma first_hit_id_no_hits (nothing_found : string) (data : json) :
  no_hits data -> first_hit_id nothing_found data = Return (JStr nothing_found).
Proof.
  intros (d & -> & [H|H]); unfold first_hit_id;
    cbn [py_contains and_then subscript]; rewrite H; reflexivity.
Qed.

Lemma first_hit_id_hit (nothing_found : string) (data hit : json) :
  first_hit data hit ->
  first_hit_id nothing_found data = subscript "id" hit.
Proof.
  intros (d & more & -> & H). unfold first_hit_id.
  cbn [py_contains and_then subscript]. rewrite H. reflexivity.
Qed.

(** X24.  When the request of a search fails, or its response has no
    hit, [search_wikidata_entity] and [search_wikidata_property] return an
    error object: the message of [search_entity] or [search_property] is
    recognised by the tool and becomes the [details], or the query is
    named in them. *)
Theorem failed_search_is_reported (http : api) (query : string) :
  (forall text,
     http (search_params query "item") = RequestException text ->
     LiveTools.search_wikidata_entity http query
     = Return (JStr (error_report "Failed to search Wikidata entity."
                       ("Error searching for entity: " ++ text)
                       "Check your network connection or try a different search query.")))
  /\
  (forall data,
     http (search_params query "item") = Body data -> no_hits data ->
     LiveTools.search_wikidata_entity http query
     = Return (JStr (error_report "No entity found on Wikidata."
                       ("The query '" ++ query ++ "' did not return any results.")
                       "Try alternative spellings, more general or specific terms, or ensure the entity exists on Wikidata.")))
  /\
  (forall text,
     http (search_params query "property") = RequestException text ->
     LiveTools.search_wikidata_property http query
     = Return (JStr (error_report "Failed to search Wikidata property."
                       ("Error searching for property: " ++ text)
                       "Check your network connection or try a different search query.")))
  /\
  (forall data,
     http (search_params query "property") = Body data -> no_hits data ->
     LiveTools.search_wikidata_property http query
     = Return (JStr (error_report "No property found on Wikidata."
                       ("The query '" ++ query ++ "' did not return any results for a property.")
                       "Try alternative spellings, or ensure the property exists on Wikidata (e.g., check common properties list).")))
  /\
  (forall error details suggestion,
     error_object (error_report error details suggestion)).
Proof.
  unfold LiveTools.search_wikidata_entity, LiveTools.search_wikidata_property,
    Api.search_entity, Api.search_property, error_report.
  split; [|split; [|split; [|split]]].
  - intros text ->. unfold Facade.search_wikidata_entity. cbv zeta.
    assert (E : startswith "Error searching for entity:"
                  ("Error searching for entity: " ++ text) = true)
      by apply (startswith_app "Error searching for entity:" (String " " text)).
    rewrite E. reflexivity.
  - intros data -> H. rewrite (first_hit_id_no_hits _ data H).
    reflexivity.
  - intros text ->. unfold Facade.search_wikidata_property. cbv zeta.
    assert (E : startswith "Error searching for property:"
                  ("Error searching for property: " ++ text) = true)
      by apply (startswith_app "Error searching for property:" (String " " text)).
    rewrite E. reflexivity.
  - intros data -> H. rewrite (first_hit_id_no_hits _ data H).
    reflexivity.
  - intros. apply obj3_error_object.
Qed.

(** X25.  When the response lists hits and the first one has a string
    identifier that does not read as a failure message, [search_entity]
    and [search_wikidata_entity] return that identifier. *)
Theorem first_hit_is_returned (http : api) (query : string)
    (data : json) (hit : list (string * json)) (id : string) :
  http (search_params query "item") = Body data ->
  first_hit data (JObj hit) ->
  assoc "id" hit = Some (JStr id) ->
  search_failed "Error searching for entity:" "No entity found" id = false ->
  Api.search_entity http query = Return (JStr id) /\
  LiveTools.search_wikidata_entity http query = Return (JStr id).
Proof.
  intros H F I S.
  assert (E : Api.search_entity http query = Return (JStr id)).
  { unfold Api.search_entity. rewrite H, (first_hit_id_hit _ data _ F).
    cbn [subscript]. rewrite I. reflexivity. }
  split; [exact E|].
  unfold LiveTools.search_wikidata_entity. rewrite E.
  pose proof (search_wikidata_entity_cases (fun _ => id) query) as C.
  cbv beta in C. rewrite S in C. rewrite C. reflexivity.
Qed.

(** X26.  When the first hit of the response has no key [id], the two
    search tools raise [KeyError]: the wrappers catch request errors
    only. *)
Theorem hit_without_id_raises (http : api) (query : string)
    (data : json) (hit : list (string * json)) :
  first_hit data (JObj hit) ->
  assoc "id" hit = None ->
  (http (search_params query "item") = Body data ->
   LiveTools.search_wikidata_entity http query = Raise KeyError) /\
  (http (search_params query "property") = Body data ->
   LiveTools.search_wikidata_property http query = Raise KeyError).
Proof.
  intros F I.
  unfold LiveTools.search_wikidata_entity, LiveTools.search_wikidata_property,
    Api.search_entity, Api.search_property.
  split; intros ->; rewrite (first_hit_id_hit _ data _ F);
    cbn [subscript]; rewrite I; reflexivity.
Qed.

(** *** The metadata lookup *)

Lemma get_entity_metadata_shape (http : api) (entity_id : string)
    (r : list (string * json)) :
  Api.get_entity_metadata http entity_id = Return r ->
  (exists msg, r = [ ("error", JStr msg) ]) \/
  (exists label description,
     r = [ ("id", JStr entity_id); ("label", label);
           ("description", description) ]).
Proof.
  unfold Api.get_entity_metadata.
  destruct (http (metadata_params entity_id)) as [data|text];
    [|intros H; inversion H; left; eexists; reflexivity].
  destruct (py_contains "entities" data) as [[|]|e]; cbn [and_then];
    [|intros H; inversion H; left; eexists; reflexivity|discriminate].
  destruct (subscript "entities" data) as [entities|e]; cbn [and_then];
    [|discriminate].
  destruct (py_contains entity_id entities) as [[|]|e]; cbn [and_then];
    [|intros H; inversion H; left; eexists; reflexivity|discriminate].
  destruct (subscript entity_id entities) as [entity|e]; cbn [and_then];
    [|discriminate].
  destruct (english_value "labels" "No label found" entity) as [label|e];
    cbn [and_then]; [|discriminate].
  destruct (english_value "descriptions" "No description found" entity)
    as [description|e]; cbn [and_then]; [|discriminate].
  intros H; inversion H. right. eexists; eexists; reflexivity.
Qed.

Lemma metadata_text_no_error (entity_id : string) (label description : json) :
  ~ error_object (metadata_text entity_id label description).
Proof.
  unfold metadata_text. intros (d & e & L & A).
  rewrite loads_dumps in L. inversion L; subst d. discriminate A.
Qed.

(** X27.  Whenever [get_wikidata_metadata] returns, the text is valid
    JSON of one of two shapes: an error object whose [details] is the
    message of [get_entity_metadata], or an object with the keys [id],
    [label] and [description] whose [id] is the identifier asked for, and
    which is no error object. *)
Theorem metadata_text_shapes (http : api) (entity_id text : string) :
  LiveTools.get_wikidata_metadata http entity_id = Return text ->
  valid_json text /\
  ((exists details,
      text = metadata_error_text entity_id (JStr details) /\
      error_object text)
   \/
   (exists label description,
      text = metadata_text entity_id label description /\
      ~ error_object text)).
Proof.
  unfold LiveTools.get_wikidata_metadata.
  destruct (Api.get_entity_metadata http entity_id) as [r|e] eqn:E;
    [|discriminate].
  intros H; inversion H; subst text. clear H.
  destruct (get_entity_metadata_shape http entity_id r E)
    as [[msg ->]|(label & description & ->)];
    unfold Facade.get_wikidata_metadata; cbn [assoc String.eqb Ascii.eqb Bool.eqb].
  - split; [apply dumps_valid|]. left. exists msg.
    split; [reflexivity|apply dumps_error_first].
  - split; [apply dumps_valid|]. right. exists label, description.
    split; [reflexivity|apply metadata_text_no_error].
Qed.

Lemma english_value_default (field default : string)
    (entity : list (string * json)) :
  no_english field entity ->
  english_value field default (JObj entity) = Return (JStr default).
Proof.
  unfold english_value. cbn [get_method and_then].
  intros [H|(l & H & [K|(v & K & V)])]; rewrite H; cbn [get_method and_then];
    try reflexivity; rewrite K; cbn [get_method and_then]; try reflexivity.
  rewrite V. reflexivity.
Qed.

Lemma lookup_of_listed_entity (http : api) (entity_id : string)
    (data : json) (entity : list (string * json)) :
  http (metadata_params entity_id) = Body data ->
  lists_entity data entity_id entity ->
  Api.get_entity_metadata http entity_id
  = and_then (english_value "labels" "No label found" (JObj entity))
      (fun label =>
       and_then (english_value "descriptions" "No description found"
                   (JObj entity))
         (fun description =>
          Return [ ("id", JStr entity_id); ("label", label);
                   ("description", description) ])).
Proof.
  intros H (d & entities & -> & E & L). unfold Api.get_entity_metadata.
  rewrite H. cbn [py_contains and_then subscript]. rewrite E.
  cbn [py_contains and_then subscript]. rewrite L. reflexivity.
Qed.

(** X29.  An entity that the response lists without an English label and
    description is not reported as an error: the lookup returns the
    identifier asked for with the texts [No label found] and
    [No description found]; but when the labels of the entity are a list
    and not an object, the lookup raises [AttributeError]. *)
Theorem missing_texts_get_defaults (http : api) (entity_id : string)
    (data : json) (entity : list (string * json)) :
  http (metadata_params entity_id) = Body data ->
  lists_entity data entity_id entity ->
  (no_english "labels" entity -> no_english "descriptions" entity ->
   Api.get_entity_metadata http entity_id
   = Return [ ("id", JStr entity_id); ("label", JStr "No label found");
              ("description", JStr "No description found") ]) /\
  (forall l, assoc "labels" entity = Some (JArr l) ->
   Api.get_entity_metadata http entity_id = Raise AttributeError /\
   LiveTools.get_wikidata_metadata http entity_id = Raise AttributeError).
Proof.
  intros H L. pose proof (lookup_of_listed_entity http entity_id data entity H L) as E.
  split.
  - intros A B. rewrite E.
    rewrite (english_value_default _ _ entity A),
            (english_value_default _ _ entity B).
    reflexivity.
  - intros l K.
    assert (R : Api.get_entity_metadata http entity_id = Raise AttributeError).
    { rewrite E. unfold english_value at 1. cbn [get_method and_then].
      rewrite K. reflexivity. }
    split; [exact R|].
    unfold LiveTools.get_wikidata_metadata. rewrite R. reflexivity.
Qed.

(** *** The theorems at work *)

Lemma first_hit_is_returned_witness :
  LiveTools.search_wikidata_entity
    (always (Body (JObj [("search", JArr [JObj [("id", JStr "Q937")]])])))
    "Albert Einstein"
  = Return (JStr "Q937").
Proof.
  apply (first_hit_is_returned
           (always (Body (JObj [("search", JArr [JObj [("id", JStr "Q937")]])])))
           "Albert Einstein"
           (JObj [("search", JArr [JObj [("id", JStr "Q937")]])])
           [("id", JStr "Q937")] "Q937").
  - reflexivity.
  - exists [("search", JArr [JObj [("id", JStr "Q937")]])], [].
    split; reflexivity.
  - reflexivity.
  - reflexivity.
Defined.

Lemma hit_without_id_raises_witness :
  LiveTools.search_wikidata_entity
    (always (Body (JObj [("search", JArr [JObj [("label", JStr "Albert Einstein")]])])))
    "Albert Einstein"
  = Raise KeyError.
Proof.
  apply (hit_without_id_raises
           (always (Body (JObj [("search", JArr [JObj [("label", JStr "Albert Einstein")]])])))
           "Albert Einstein"
           (JObj [("search", JArr [JObj [("label", JStr "Albert Einstein")]])])
           [("label", JStr "Albert Einstein")]).
  - exists [("search", JArr [JObj [("label", JStr "Albert Einstein")]])], [].
    split; reflexivity.
  - reflexivity.
  - reflexivity.
Defined.

Lemma metadata_text_shapes_witness :
  valid_json
    (metadata_error_text "Q937"
       (JStr "Error retrieving entity metadata: timed out")).
Proof.
  apply (metadata_text_shapes (always (RequestException "timed out")) "Q937"
           (metadata_error_text "Q937"
              (JStr "Error retrieving entity metadata: timed out"))).
  reflexivity.
Defined.

Lemma missing_texts_get_defaults_witness :
  Api.get_entity_metadata
    (always (Body (JObj [("entities", JObj [("Q937", JObj [("id", JStr "Q937")])])])))
    "Q937"
  = Return [ ("id", JStr "Q937"); ("label", JStr "No label found");
             ("description", JStr "No description found") ].
Proof.
  apply (missing_texts_get_defaults
           (always (Body (JObj [("entities", JObj [("Q937", JObj [("id", JStr "Q937")])])])))
           "Q937"
           (JObj [("entities", JObj [("Q937", JObj [("id", JStr "Q937")])])])
           [("id", JStr "Q937")]).
  - reflexivity.
  - exists [("entities", JObj [("Q937", JObj [("id", JStr "Q937")])])],
           [("Q937", JObj [("id", JStr "Q937")])].
    split; [reflexivity|]. split; reflexivity.
  - left. reflexivity.
  - left. reflexivity.
Defined.

End ApiProofs.
